(** * ICESat-2 data-products notebook: granule selection, region masks and
      fill-value handling

    A shallow embedding of the code cells of
    [book/tutorials/DataProducts/DataProducts.ipynb] that carry logic of
    their own: the two download loops with their file-name regular
    expressions, the two reading loops that turn HDF5 datasets into
    dictionaries of arrays, and the region-of-interest index masks.

    Conventions of the embedding.
    - Python exceptions are values of [exn]; an expression evaluates to a
      [result], a loop over notebook state ends in an [outcome] that keeps
      the state reached when an exception escapes the cell.
    - numpy arrays are a shape and a flat buffer ([ndarray]); float64 (and
      float32, whose values and comparisons embed exactly) elements are the
      kernel's binary64 floats, integer elements are [Z].
    - a Python [str] (file names, paths, dictionary keys) is held as its
      UTF-8 bytes ([string]); the regular expressions' [\d] is the class
      of Unicode decimal digits, as [re] has it for [str] patterns.
    - the services the notebook calls out to (the download, the coordinate
      transform) are section variables.
    - numpy is the 1.x line the notebook was written for, in which
      [np.NaN] is the float NaN. *)

From Stdlib Require Import Floats ZArith Ascii String List Bool Lia DecimalString.
From stdpp Require Import base option list gmap strings.

Local Open Scope string_scope.
Local Open Scope list_scope.

(** ** Python exceptions and results *)

Inductive exn : Type :=
| KeyError        (* missing dictionary key, HDF5 member or attribute *)
| AttributeError  (* attribute access on [None] *)
| IndexError      (* no such regex group, index mask of the wrong shape *)
| ValueError      (* numpy: value not convertible, operands not broadcastable *)
| NameError       (* unbound notebook variable *)
| OSError         (* file cannot be opened *)
| ExternalError.  (* raised inside an external collaborator *)

Inductive result (A : Type) : Type :=
| Ok (a : A)
| Raise (e : exn).
Arguments Ok {A} a.
Arguments Raise {A} e.

Definition rbind {A B} (r : result A) (k : A -> result B) : result B :=
  match r with
  | Ok a => k a
  | Raise e => Raise e
  end.

Notation "x <-- r ;; k" := (rbind r (fun x => k))
  (at level 100, r at next level, right associativity).

(** What a statement sequence leaves behind: the state it finished in, or
    the exception that escaped together with the state reached so far (the
    notebook keeps its variables and the disk keeps its files). *)
Inductive outcome (S : Type) : Type :=
| Done (s : S)
| Crashed (e : exn) (s : S).
Arguments Done {S} s.
Arguments Crashed {S} e s.

(** [for x in xs: body] *)
Fixpoint for_each {S X} (body : X -> S -> outcome S) (xs : list X) (s : S)
  : outcome S :=
  match xs with
  | [] => Done s
  | x :: xs' =>
      match body x s with
      | Done s' => for_each body xs' s'
      | Crashed e s' => Crashed e s'
      end
  end.

(** ** Regular expressions: the fragment of Python's [re] the notebook uses *)

Module Re.

Inductive atom : Type :=
| Chr (c : ascii)   (* a literal character of the pattern *)
| Digit.            (* \d *)

Inductive regex : Type :=
| Atom (a : atom)
| Plus (a : atom)            (* a+ , greedy *)
| Cat (r1 r2 : regex)
| Group (r : regex).         (* ( r ) , capturing *)

(** A Python [str] is a sequence of Unicode code points; it is held here
    as its UTF-8 bytes.  The six payload bits of a continuation byte
    10xxxxxx: *)
Definition continuation (b : ascii) : option N :=
  let n := N_of_ascii b in
  if (128 <=? n)%N && (n <? 192)%N then Some (n - 128)%N else None.

(** The code point at the head of a byte sequence and the bytes behind
    it; well-formed UTF-8 only (shortest form, no surrogates, nothing
    above U+10FFFF). *)
Definition decode (s : list ascii) : option (N * list ascii) :=
  match s with
  | [] => None
  | b0 :: s1 =>
      let n0 := N_of_ascii b0 in
      if (n0 <? 128)%N then Some (n0, s1)
      else if (n0 <? 192)%N then None
      else if (n0 <? 224)%N then
        match s1 with
        | b1 :: s2 =>
            match continuation b1 with
            | Some c1 =>
                let cp := ((n0 - 192) * 64 + c1)%N in
                if (128 <=? cp)%N then Some (cp, s2) else None
            | None => None
            end
        | _ => None
        end
      else if (n0 <? 240)%N then
        match s1 with
        | b1 :: b2 :: s3 =>
            match continuation b1, continuation b2 with
            | Some c1, Some c2 =>
                let cp := (((n0 - 224) * 64 + c1) * 64 + c2)%N in
                if (2048 <=? cp)%N && negb ((55296 <=? cp)%N && (cp <? 57344)%N)
                then Some (cp, s3) else None
            | _, _ => None
            end
        | _ => None
        end
      else if (n0 <? 248)%N then
        match s1 with
        | b1 :: b2 :: b3 :: s4 =>
            match continuation b1, continuation b2, continuation b3 with
            | Some c1, Some c2, Some c3 =>
                let cp := ((((n0 - 240) * 64 + c1) * 64 + c2) * 64 + c3)%N in
                if (65536 <=? cp)%N && (cp <? 1114112)%N then Some (cp, s4) else None
            | _, _, _ => None
            end
        | _ => None
        end
      else None
  end.

(** The decimal digits of Unicode (general category Nd), as ranges of
    code points: what [\d] matches in a [str] pattern compiled without
    [re.ASCII].  The table is that of Unicode 14.0 (CPython 3.11); it
    begins with the ASCII digits 0-9 and holds, among others, the
    fullwidth digits U+FF10-U+FF19. *)
Definition Nd : list (N * N) :=
  [(48, 57); (1632, 1641); (1776, 1785); (1984, 1993); (2406, 2415);
   (2534, 2543); (2662, 2671); (2790, 2799); (2918, 2927); (3046, 3055);
   (3174, 3183); (3302, 3311); (3430, 3439); (3558, 3567); (3664, 3673);
   (3792, 3801); (3872, 3881); (4160, 4169); (4240, 4249); (6112, 6121);
   (6160, 6169); (6470, 6479); (6608, 6617); (6784, 6793); (6800, 6809);
   (6992, 7001); (7088, 7097); (7232, 7241); (7248, 7257); (42528, 42537);
   (43216, 43225); (43264, 43273); (43472, 43481); (43504, 43513);
   (43600, 43609); (44016, 44025); (65296, 65305); (66720, 66729);
   (68912, 68921); (69734, 69743); (69872, 69881); (69942, 69951);
   (70096, 70105); (70384, 70393); (70736, 70745); (70864, 70873);
   (71248, 71257); (71360, 71369); (71472, 71481); (71904, 71913);
   (72016, 72025); (72784, 72793); (73040, 73049); (73120, 73129);
   (92768, 92777); (92864, 92873); (93008, 93017); (120782, 120831);
   (123200, 123209); (123632, 123641); (125264, 125273);
   (130032, 130041)]%N.

Definition decimal (cp : N) : bool :=
  existsb (fun r => (fst r <=? cp)%N && (cp <=? snd r)%N) Nd.

(** One atom read at the head of the input: what is left behind it.  A
    literal takes one byte, [\d] the bytes of one decimal digit. *)
Definition atom_step (a : atom) (s : list ascii) : option (list ascii) :=
  match a with
  | Chr d =>
      match s with
      | c :: s' => if Ascii.eqb c d then Some s' else None
      | [] => None
      end
  | Digit =>
      match decode s with
      | Some (cp, s') => if decimal cp then Some s' else None
      | None => None
      end
  end.

(** The ASCII digits 0-9, in which the products' file names spell the
    track, the cycle and so on. *)
Definition is_ascii_digit (c : ascii) : bool :=
  (48 <=? nat_of_ascii c)%nat && (nat_of_ascii c <=? 57)%nat.

Definition all_digits (s : string) : bool :=
  forallb is_ascii_digit (list_ascii_of_string s).

(** Exactly [n] decimal digits, of whatever script. *)
Fixpoint digits_from (n : nat) (s : list ascii) : bool :=
  match n with
  | O => match s with [] => true | _ :: _ => false end
  | S n' =>
      match decode s with
      | Some (cp, s') => decimal cp && digits_from n' s'
      | None => false
      end
  end.

Definition digits (n : nat) (s : string) : bool :=
  digits_from n (list_ascii_of_string s).

(** Literal text as a regex: [lit "ab" r] is [ab] followed by [r]. *)
Fixpoint lit (s : string) (r : regex) : regex :=
  match s with
  | EmptyString => r
  | String c s' => Cat (Atom (Chr c)) (lit s' r)
  end.

(** The text between two positions of the input: what was read on the
    way from [s] to its suffix [s']. *)
Definition consumed (s s' : list ascii) : string :=
  string_of_list_ascii (take (length s - length s') s).

Section Matcher.
Context {R : Type}.

(** Backtracking matcher in continuation-passing style.  A continuation
    receives the input that is left, and the groups closed so far. *)

(** [a*] from [s], longest first, in at most [n] repetitions. *)
Fixpoint star_upto (n : nat) (a : atom) (s : list ascii)
    (k : list ascii -> option R) : option R :=
  match n with
  | O => k s
  | S n' =>
      match atom_step a s with
      | Some s' =>
          match star_upto n' a s' k with
          | Some r => Some r
          | None => k s
          end
      | None => k s
      end
  end.

(** Every repetition takes at least one byte, so no more than
    [length s] of them fit. *)
Definition star (a : atom) (s : list ascii) (k : list ascii -> option R)
  : option R :=
  star_upto (length s) a s k.

Fixpoint run (r : regex) (s : list ascii) (caps : list string)
    (k : list ascii -> list string -> option R) : option R :=
  match r with
  | Atom a =>
      match atom_step a s with
      | Some s' => k s' caps
      | None => None
      end
  | Plus a =>
      match atom_step a s with
      | Some s' => star a s' (fun s'' => k s'' caps)
      | None => None
      end
  | Cat r1 r2 => run r1 s caps (fun s' caps' => run r2 s' caps' k)
  | Group r' =>
      run r' s caps (fun s' caps' =>
        k s' (caps' ++ [consumed s s']))
  end.
End Matcher.

(** [pattern.groups]: the number of capturing groups. *)
Fixpoint ngroups (r : regex) : nat :=
  match r with
  | Atom _ | Plus _ => 0
  | Cat r1 r2 => ngroups r1 + ngroups r2
  | Group r' => S (ngroups r')
  end.

(** A match object: group 0 and the capturing groups, in order. *)
Record match_object : Type := MatchObject {
  whole : string;
  groups : list string
}.

Definition match_at (r : regex) (s : list ascii) : option match_object :=
  run r s [] (fun s' caps => Some (MatchObject (consumed s s') caps)).

(** [pattern.search(string)]: the leftmost match.  The positions tried
    are those of the bytes: a pattern that begins with an ASCII literal
    or with [\d] matches from no continuation byte, so a match starts
    where a code point starts. *)
Fixpoint search_from (r : regex) (s : list ascii) : option match_object :=
  match match_at r s with
  | Some m => Some m
  | None =>
      match s with
      | [] => None
      | _ :: s' => search_from r s'
      end
  end.

Definition search (r : regex) (s : string) : option match_object :=
  search_from r (list_ascii_of_string s).

(** [m.group(k)] *)
Definition group (m : match_object) (k : nat) : result string :=
  match k with
  | O => Ok (whole m)
  | S k' =>
      match groups m !! k' with
      | Some g => Ok g
      | None => Raise IndexError
      end
  end.

(** [pattern.search(string).group(k)]: [search] returns [None] when
    nothing matches, and [None] has no [group]. *)
Definition search_group (r : regex) (s : string) (k : nat) : result string :=
  match search r s with
  | None => Raise AttributeError
  | Some m => group m k
  end.

End Re.

(** ATL11_re=re.compile('ATL11_(\d\d\d\d)(\d\d)_') *)
Definition ATL11_re : Re.regex :=
  let d := Re.Atom Re.Digit in
  Re.lit "ATL11_"
    (Re.Cat (Re.Group (Re.Cat d (Re.Cat d (Re.Cat d d))))
       (Re.Cat (Re.Group (Re.Cat d d)) (Re.Atom (Re.Chr "_")))).

(** ATL06_re=re.compile('ATL06_\d+_(\d\d\d\d)(\d\d)(\d\d)_') *)
Definition ATL06_re : Re.regex :=
  let d := Re.Atom Re.Digit in
  Re.lit "ATL06_"
    (Re.Cat (Re.Plus Re.Digit)
       (Re.Cat (Re.Atom (Re.Chr "_"))
          (Re.Cat (Re.Group (Re.Cat d (Re.Cat d (Re.Cat d d))))
             (Re.Cat (Re.Group (Re.Cat d d))
                (Re.Cat (Re.Group (Re.Cat d d)) (Re.Atom (Re.Chr "_"))))))).

(** ** numpy arrays *)

Module Np.

(** An array is its shape and its elements in row-major order. *)
Record ndarray (A : Type) : Type := NdArray {
  shape : list nat;
  data : list A
}.
Arguments NdArray {A} shape data.
Arguments shape {A} n.
Arguments data {A} n.

Definition size_of (sh : list nat) : nat := foldr Nat.mul 1%nat sh.

(** numpy keeps as many elements as the shape says. *)
Definition wf {A} (a : ndarray A) : Prop := length (data a) = size_of (shape a).

(** What the notebook needs to know of an element type: how [==]
    compares two elements, and what assigning the Python float [np.NaN]
    into an array of that type stores.  Integer arrays cannot hold it:
    numpy raises "cannot convert float NaN to integer" while converting
    the value, before it looks at the index. *)
Class DType (A : Type) : Type := {
  elt_eqb : A -> A -> bool;
  of_nan : result A
}.

#[global] Instance float64 : DType float :=
  {| elt_eqb := PrimFloat.eqb; of_nan := Ok nan |}.

#[global] Instance int : DType Z :=
  {| elt_eqb := Z.eqb; of_nan := Raise ValueError |}.

(** Comparison of an array with a scalar, element by element. *)
Definition map_elts {A B} (f : A -> B) (a : ndarray A) : ndarray B :=
  NdArray (shape a) (map f (data a)).

(** [a > s] *)
Definition greater (a : ndarray float) (s : float) : ndarray bool :=
  map_elts (fun v => PrimFloat.ltb s v) a.

(** [a < s] *)
Definition less (a : ndarray float) (s : float) : ndarray bool :=
  map_elts (fun v => PrimFloat.ltb v s) a.

(** [a == s] *)
Definition equal {A} `{DType A} (a : ndarray A) (s : A) : ndarray bool :=
  map_elts (fun v => elt_eqb v s) a.

(** [n] consecutive pieces of [sz] elements. *)
Fixpoint chunks {A} (n sz : nat) (l : list A) : list (list A) :=
  match n with
  | O => []
  | S n' => take sz l :: chunks n' sz (drop sz l)
  end.

(** Broadcasting the buffer [b] of shape [sb] to the shape [sa] of the
    same rank: an axis of extent 1 is repeated. *)
Fixpoint expand {A} (sa sb : list nat) (b : list A) : list A :=
  match sa, sb with
  | da :: sa', db :: sb' =>
      if decide (db = da)
      then concat (map (expand sa' sb') (chunks db (size_of sb') b))
      else concat (replicate da (expand sa' sb' b))
  | _, _ => b
  end.

Fixpoint compatible (sa sb : list nat) : bool :=
  match sa, sb with
  | [], [] => true
  | da :: sa', db :: sb' => ((db =? da)%nat || (db =? 1)%nat) && compatible sa' sb'
  | _, _ => false
  end.

Definition pad_shape (rank : nat) (sb : list nat) : list nat :=
  replicate (rank - length sb) 1%nat ++ sb.

(** The operand of an in-place operation is broadcast to the shape of
    the array that is updated; numpy raises ValueError when it cannot. *)
Definition broadcast_to {A} (sa : list nat) (b : ndarray A) : result (ndarray A) :=
  let sb := pad_shape (length sa) (shape b) in
  if compatible sa sb
  then Ok (NdArray sa (expand sa sb (data b)))
  else Raise ValueError.

(** [a &= b] on boolean arrays; the result is the new value of [a]. *)
Definition iand (a b : ndarray bool) : result (ndarray bool) :=
  b' <-- broadcast_to (shape a) b ;;
  Ok (NdArray (shape a) (zip_with andb (data a) (data b'))).

(** [a[mask] = v] for a boolean [mask] and a scalar [v] already of the
    element type.  The mask covers the leading axes of [a]; a true entry
    overwrites everything below it. *)
Definition setitem_mask {A} (a : ndarray A) (mask : ndarray bool) (v : A)
  : result (ndarray A) :=
  let rest := drop (length (shape mask)) (shape a) in
  if decide (take (length (shape mask)) (shape a) = shape mask) then
    Ok (NdArray (shape a)
          (concat (zip_with (fun (m : bool) piece =>
                               if m then replicate (length piece) v else piece)
                     (data mask)
                     (chunks (size_of (shape mask)) (size_of rest) (data a)))))
  else Raise IndexError.

(** [temp[temp==fill]=np.NaN] *)
Definition fill_to_nan {A} `{DType A} (temp : ndarray A) (fill : A)
  : result (ndarray A) :=
  v <-- of_nan ;;
  setitem_mask temp (equal temp fill) v.

(** [a[mask]] for a boolean [mask] over the leading axes of [a]: the
    pieces under the true entries, in order. *)
Definition getitem_mask {A} (a : ndarray A) (mask : ndarray bool)
  : result (ndarray A) :=
  let rest := drop (length (shape mask)) (shape a) in
  if decide (take (length (shape mask)) (shape a) = shape mask) then
    Ok (NdArray (length (List.filter id (data mask)) :: rest)
          (concat (zip_with (fun (m : bool) piece => if m then piece else [])
                     (data mask)
                     (chunks (size_of (shape mask)) (size_of rest) (data a)))))
  else Raise IndexError.

(** [a[mask, j]]: under every true entry of [mask], the [j]-th piece along
    the next axis.  There must be a next axis and [j] must be on it. *)
Definition getitem_mask_col {A} (a : ndarray A) (mask : ndarray bool) (j : nat)
  : result (ndarray A) :=
  if decide (take (length (shape mask)) (shape a) = shape mask) then
    match drop (length (shape mask)) (shape a) with
    | [] => Raise IndexError
    | m :: rest =>
        if decide (j < m) then
          Ok (NdArray (length (List.filter id (data mask)) :: rest)
                (concat (zip_with (fun (b : bool) row =>
                                     if b
                                     then take (size_of rest) (drop (j * size_of rest) row)
                                     else [])
                           (data mask)
                           (chunks (size_of (shape mask)) (m * size_of rest) (data a)))))
        else Raise IndexError
    end
  else Raise IndexError.

(** The common shape of two operands of equal rank, if they have one. *)
Fixpoint broadcast_shapes (sa sb : list nat) : option (list nat) :=
  match sa, sb with
  | [], [] => Some []
  | da :: sa', db :: sb' =>
      match broadcast_shapes sa' sb' with
      | None => None
      | Some r =>
          if (da =? db)%nat then Some (da :: r)
          else if (da =? 1)%nat then Some (db :: r)
          else if (db =? 1)%nat then Some (da :: r)
          else None
      end
  | _, _ => None
  end.

(** [a & b] on boolean arrays: a new array of the common shape. *)
Definition and_ (a b : ndarray bool) : result (ndarray bool) :=
  let rank := Nat.max (length (shape a)) (length (shape b)) in
  let sa := pad_shape rank (shape a) in
  let sb := pad_shape rank (shape b) in
  match broadcast_shapes sa sb with
  | None => Raise ValueError
  | Some s =>
      Ok (NdArray s (zip_with andb (expand s sa (data a)) (expand s sb (data b))))
  end.

(** [np.any(a)] *)
Definition any (a : ndarray bool) : bool := existsb id (data a).

(** [np.isfinite(a)] *)
Definition isfinite (a : ndarray float) : ndarray bool :=
  map_elts PrimFloat.is_finite a.

(** [np.abs(a - c)] *)
Definition abs_diff (a : ndarray float) (c : float) : ndarray float :=
  map_elts PrimFloat.abs (map_elts (fun v => PrimFloat.sub v c) a).

(** The scan of [np.argmin] over floats: [mp] is the least value so far,
    found at [best]; [i] is the position of the head of the list.  A value
    takes over when it is not [>= mp]; a NaN takes over and ends the
    scan. *)
Fixpoint argmin_scan (mp : float) (best i : nat) (l : list float) : nat :=
  match l with
  | [] => best
  | v :: l' =>
      if negb (PrimFloat.leb mp v)
      then (if PrimFloat.is_nan v then i else argmin_scan v i (S i) l')
      else argmin_scan mp best (S i) l'
  end.

(** [np.argmin(a)]: the position in the flattened array; an empty array
    is a ValueError. *)
Definition argmin (a : ndarray float) : result nat :=
  match data a with
  | [] => Raise ValueError
  | v :: l => Ok (if PrimFloat.is_nan v then 0%nat else argmin_scan v 0 1 l)
  end.

End Np.

(** ** The region-of-interest index (cells 3.4 and 4.3)

    [XR] and [YR] are two-element arrays, [np.array([lo, hi])]. *)
Record RegionOfInterest : Type := ROI {
  XR : float * float;
  YR : float * float
}.

(** ind = x > XR[0]
    ind &= x < XR[1]
    ind &= y > YR[0]
    ind &= y < YR[1] *)
Definition region_index (R : RegionOfInterest) (x y : Np.ndarray float)
  : result (Np.ndarray bool) :=
  let ind := Np.greater x (fst (XR R)) in
  ind <-- Np.iand ind (Np.less x (snd (XR R))) ;;
  ind <-- Np.iand ind (Np.greater y (fst (YR R))) ;;
  ind <-- Np.iand ind (Np.less y (snd (YR R))) ;;
  Ok ind.

(** YR= np.array([-4.2e5, -3.85e5]); XR= np.array([1.015e6, 1.060e6]) *)
Definition notebook_ROI : RegionOfInterest :=
  ROI (1.015e6, 1.060e6)%float (-4.2e5, -3.85e5)%float.

(** ** HDF5 files as [h5py] presents them *)

(** A dataset: its values and, when the file declares one, its
    [_FillValue] attribute, which HDF5 stores in the dataset's own type. *)
Inductive dataset : Type :=
| FloatData (values : Np.ndarray float) (FillValue : option float)
| IntData (values : Np.ndarray Z) (FillValue : option Z).

(** An array read into memory, of either element type. *)
Inductive array : Type :=
| AFloat (a : Np.ndarray float)
| AInt (a : Np.ndarray Z).

(** [np.array(dataset)]: a copy of the values. *)
Definition np_array (d : dataset) : array :=
  match d with
  | FloatData values _ => AFloat values
  | IntData values _ => AInt values
  end.

Definition has_FillValue (d : dataset) : bool :=
  match d with
  | FloatData _ fv => bool_decide (is_Some fv)
  | IntData _ fv => bool_decide (is_Some fv)
  end.

(** temp=np.array(ds)
    temp[temp==ds.attrs['_FillValue']]=np.NaN
    and the value of [temp] afterwards.  The attribute lookup raises
    KeyError before anything is assigned. *)
Definition fill_in_place (d : dataset) : result array :=
  match d with
  | FloatData values fv =>
      match fv with
      | None => Raise KeyError
      | Some fill => temp <-- Np.fill_to_nan values fill ;; Ok (AFloat temp)
      end
  | IntData values fv =>
      match fv with
      | None => Raise KeyError
      | Some fill => temp <-- Np.fill_to_nan values fill ;; Ok (AInt temp)
      end
  end.

(** A file: group path to member name to dataset.  A member name may
    itself be a path below the group, as in 'ground_track/x_atc'; the
    notebook's 'pt2' and 'pt2/' name the same group, "pt2". *)
Abbreviation h5file := (gmap string (gmap string dataset)).

(** [h5f[g][k]] *)
Definition h5_get (h5f : h5file) (g k : string) : result dataset :=
  match h5f !! g with
  | None => Raise KeyError
  | Some members =>
      match members !! k with
      | None => Raise KeyError
      | Some d => Ok d
      end
  end.

(** The local disk: path to file.  Only HDF5 files are of interest. *)
Abbreviation Disk := (gmap string h5file).

(** [os.path.isfile(path)] *)
Definition isfile (path : string) (disk : Disk) : bool :=
  bool_decide (is_Some (disk !! path)).

(** ** Small string functions *)

Fixpoint contains_char (c : ascii) (s : string) : bool :=
  match s with
  | EmptyString => false
  | String c' s' => Ascii.eqb c' c || contains_char c s'
  end.

(** [s.split(sep)] for a one-character separator. *)
Fixpoint split_on (sep : ascii) (s : string) : list string :=
  match s with
  | EmptyString => [EmptyString]
  | String c s' =>
      if Ascii.eqb c sep then EmptyString :: split_on sep s'
      else match split_on sep s' with
           | piece :: rest => String c piece :: rest
           | [] => [String c EmptyString]
           end
  end.

Definition has_suffix (suf s : string) : bool :=
  String.eqb suf
    (String.substring (String.length s - String.length suf) (String.length suf) s).

(** Whether [path] is matched by the pattern [dir ++ pre ++ "*" ++ suf],
    where [dir] ends in a slash and [*] does not cross one. *)
Definition glob_match (dir pre suf path : string) : bool :=
  let base :=
    String.substring (String.length dir) (String.length path - String.length dir) path in
  String.prefix dir path
  && negb (contains_char "/" base)
  && String.prefix pre base
  && has_suffix suf base
  && (String.length pre + String.length suf <=? String.length base)%nat.

(** [glob.glob(dir + pre + '*' + suf)]: the matching paths, in the order
    the directory lists them. *)
Definition glob (dir pre suf : string) (disk : Disk) : list string :=
  filter (fun path => Is_true (glob_match dir pre suf path)) (map_to_list disk).*1.

(** ** Downloading granules (cells 3.1 and 4.1) *)

(** A granule record of the catalog query: the producer's file name and
    the first download link. *)
Record Granule : Type := {
  producer_granule_id : string;
  href : string
}.

(** The disk and what the cell has printed. *)
Record dl_state : Type := DlState {
  disk : Disk;
  stdout : list string
}.

Section Download.

(** [! wget href -q]: what the server delivers into the working
    directory under the granule's name, if anything.  A shell line
    that fails raises nothing. *)
Variable wget : string -> option h5file.

(** ! wget {granule['links'][0]['href']} -q
    ! mv {granule['producer_granule_id']} /tmp/ *)
Definition wget_mv (granule : Granule) (d : Disk) : Disk :=
  match wget (href granule) with
  | Some f => <[("/tmp/" ++ producer_granule_id granule)%string := f]> d
  | None => d
  end.

(** The body of the ATL11 loop; the notebook's subregion is ['03'].
    [continue] ends the body with the state unchanged. *)
Definition ATL11_download_body (target : string) (granule : Granule) (st : dl_state)
  : outcome dl_state :=
  let this_name := producer_granule_id granule in
  (* check if each granule has been downloaded already *)
  if isfile ("/tmp/" ++ this_name)%string (disk st) then Done st else
  (* pull out the subregion number, skip subregion 4 *)
  match Re.search_group ATL11_re this_name 2 with
  | Raise e => Crashed e st
  | Ok subregion =>
      if negb (String.eqb subregion target) then Done st else
      Done (DlState (wget_mv granule (disk st)) (stdout st ++ [this_name]))
  end.

(** for granule in region_a.granules.avail: ... *)
Definition ATL11_download_loop (target : string) (avail : list Granule)
  : dl_state -> outcome dl_state :=
  for_each (ATL11_download_body target) avail.

Definition ATL11_download := ATL11_download_loop "03".

(** The body of the ATL06 loop: the region test comes first. *)
Definition ATL06_download_body (granule : Granule) (st : dl_state)
  : outcome dl_state :=
  let this_name := producer_granule_id granule in
  (* skip the granule if we're not in region 03 *)
  match Re.search_group ATL06_re this_name 3 with
  | Raise e => Crashed e st
  | Ok region =>
      if negb (String.eqb region "03") then Done st else
      (* check if each granule has been downloaded already *)
      if isfile ("/tmp/" ++ this_name)%string (disk st) then Done st else
      Done (DlState (wget_mv granule (disk st)) (stdout st ++ [this_name]))
  end.

Definition ATL06_download (avail : list Granule) : dl_state -> outcome dl_state :=
  for_each ATL06_download_body avail.

End Download.

(** ** ATL11: reading (cell 3.2) and the index of one file (cell 3.4) *)

Module ATL11.

(** {'x':x,'y':y,'h':...,'t':...} *)
Record xyth : Type := Xyth {
  x : Np.ndarray float;
  y : Np.ndarray float;
  h : array;
  t : array
}.

(** The notebook variables the reading cell reads and writes.  [lat] and
    [lon] are global: they keep their values from one file to the next,
    and are unbound until first assigned. *)
Record read_state : Type := ReadState {
  lat : option array;
  lon : option array;
  file_xyth : gmap string xyth
}.

Section Reading.

(** [to_xy_crs.transform] *)
Variable transform : array -> array -> result (Np.ndarray float * Np.ndarray float).

(** try:
        lat=np.array(h5f['pt2']['latitude'])
        lon=np.array(h5f['pt2']['longitude'])
    except Exception:
        pass *)
Definition try_read_position (h5f : h5file) (st : read_state) : read_state :=
  match h5_get h5f "pt2" "latitude" with
  | Raise _ => st
  | Ok dlat =>
      let st' := ReadState (Some (np_array dlat)) (lon st) (file_xyth st) in
      match h5_get h5f "pt2" "longitude" with
      | Raise _ => st'
      | Ok dlon => ReadState (lat st') (Some (np_array dlon)) (file_xyth st')
      end
  end.

(** The body of [with h5py.File(file,'r') as h5f: ...] *)
Definition read_body (d : Disk) (file : string) (st : read_state)
  : outcome read_state :=
  match d !! file with
  | None => Crashed OSError st
  | Some h5f =>
      let st := try_read_position h5f st in
      (* x,y = to_xy_crs.transform(lat, lon) *)
      match lat st, lon st with
      | Some la, Some lo =>
          match transform la lo with
          | Raise e => Crashed e st
          | Ok (x, y) =>
              (* file_xyth[file]={'x':x,'y':y, 'h':..., 't':...} *)
              match h5_get h5f "pt2" "h_corr" with
              | Raise e => Crashed e st
              | Ok dh =>
                  match h5_get h5f "pt2" "delta_time" with
                  | Raise e => Crashed e st
                  | Ok dt =>
                      let rec := Xyth x y (np_array dh) (np_array dt) in
                      let st :=
                        ReadState (lat st) (lon st) (<[file := rec]> (file_xyth st)) in
                      (* read the height values; identify invalid
                         heights, and set them to NaN *)
                      match fill_in_place dh with
                      | Raise e => Crashed e st
                      | Ok temp =>
                          (* file_xyth[file]['h']=temp *)
                          Done (ReadState (lat st) (lon st)
                                  (<[file := Xyth x y temp (np_array dt)]>
                                     (file_xyth st)))
                      end
                  end
              end
          end
      | _, _ => Crashed NameError st
      end
  end.

(** for file in files: ... *)
Definition read_files (d : Disk) (files : list string)
  : read_state -> outcome read_state :=
  for_each (read_body d) files.

(** for file in glob.glob('/tmp/ATL11*.h5'): ... *)
Definition read (d : Disk) : read_state -> outcome read_state :=
  read_files d (glob "/tmp/" "ATL11" ".h5" d).

End Reading.

(** xyth=file_xyth['/tmp/ATL11_054803_0311_004_01.h5']
    ind=xyth['x'] > XR[0] ... *)
Definition index (R : RegionOfInterest) (file_xyth : gmap string xyth)
  : result (Np.ndarray bool) :=
  match file_xyth !! "/tmp/ATL11_054803_0311_004_01.h5" with
  | None => Raise KeyError
  | Some xyth => region_index R (x xyth) (y xyth)
  end.

End ATL11.

(** ** ATL06: reading (cell 4.3) and the index of every cycle *)

Module ATL06.

Definition fields : list string :=
  ["latitude"; "longitude"; "h_li"; "atl06_quality_summary"; "ground_track/x_atc"].

(** if '/' in field:
        field=field.split('/')[1] *)
Definition field_key (field : string) : result string :=
  if contains_char "/" field then
    match split_on "/" field !! 1%nat with
    | Some k => Ok k
    | None => Raise IndexError
    end
  else Ok field.

(** try:
        temp[temp==...attrs['_FillValue']]=np.NaN
    except KeyError:
        pass
    and the value of [temp] afterwards. *)
Definition try_fill (ds : dataset) : result array :=
  match fill_in_place ds with
  | Raise KeyError => Ok (np_array ds)
  | r => r
  end.

(** The body of [for field in [...]]: the state is [this_D]. *)
Definition field_body (h5f : h5file) (field : string) (this_D : gmap string array)
  : outcome (gmap string array) :=
  match h5_get h5f "gt2r/land_ice_segments" field with
  | Raise e => Crashed e this_D
  | Ok ds =>
      match try_fill ds with
      | Raise e => Crashed e this_D
      | Ok temp =>
          (* handle the 'ground_track/x_atc' field *)
          match field_key field with
          | Raise e => Crashed e this_D
          | Ok field => Done (<[field := temp]> this_D)
          end
      end
  end.

Definition field_loop (h5f : h5file) (fs : list string)
  : gmap string array -> outcome (gmap string array) :=
  for_each (field_body h5f) fs.

(** [this_D] once complete: the fields read from the file, the projected
    coordinates under 'x' and 'y', and later the 'index'. *)
Record D6 : Type := MkD6 {
  from_file : gmap string array;
  x : Np.ndarray float;
  y : Np.ndarray float;
  index : option (Np.ndarray bool)
}.

Section Reading.

Variable transform : array -> array -> result (Np.ndarray float * Np.ndarray float).

Definition read_body (d : Disk) (file : string) (cycle_D6 : gmap string D6)
  : outcome (gmap string D6) :=
  match d !! file with
  | None => Crashed OSError cycle_D6
  | Some h5f =>
      match field_loop h5f fields ∅ with
      | Crashed e _ => Crashed e cycle_D6
      | Done this_D =>
          (* this_D['x'], this_D['y'] = to_xy_crs.transform(...) *)
          match this_D !! "latitude", this_D !! "longitude" with
          | Some la, Some lo =>
              match transform la lo with
              | Raise e => Crashed e cycle_D6
              | Ok (x, y) =>
                  (* cycle_D6[ATL06_re.search(file).group(2)] = this_D *)
                  match Re.search_group ATL06_re file 2 with
                  | Raise e => Crashed e cycle_D6
                  | Ok cycle => Done (<[cycle := MkD6 this_D x y None]> cycle_D6)
                  end
              end
          | _, _ => Crashed KeyError cycle_D6
          end
      end
  end.

(** for file in sorted(glob.glob('/tmp/ATL06*.h5')): ... , the sorted
    list being [files]. *)
Definition read_files (d : Disk) (files : list string)
  : gmap string D6 -> outcome (gmap string D6) :=
  for_each (read_body d) files.

End Reading.

(** for cycle, D6 in cycle_D6.items():
        ind = D6['x'] > XR[0] ...
        D6['index']=ind *)
Definition index_body (R : RegionOfInterest) (item : string * D6)
    (cycle_D6 : gmap string D6) : outcome (gmap string D6) :=
  match region_index R (x item.2) (y item.2) with
  | Raise e => Crashed e cycle_D6
  | Ok ind =>
      Done (<[item.1 := MkD6 (from_file item.2) (x item.2) (y item.2) (Some ind)]>
              cycle_D6)
  end.

Definition index_all (R : RegionOfInterest) (cycle_D6 : gmap string D6)
  : outcome (gmap string D6) :=
  for_each (index_body R) (map_to_list cycle_D6) cycle_D6.

End ATL06.

(** ** Plotting cells: what is handed to the renderer

    [plt.plot(x, y, ..., label=...)] is recorded as a line of the current
    figure; drawing itself is the renderer's business. *)

Record line : Type := Line {
  xdata : array;
  ydata : array;
  label : string
}.

(** Indexing and tests on an array of either element type. *)
Definition array_getitem_mask (a : array) (mask : Np.ndarray bool) : result array :=
  match a with
  | AFloat f => r <-- Np.getitem_mask f mask ;; Ok (AFloat r)
  | AInt i => r <-- Np.getitem_mask i mask ;; Ok (AInt r)
  end.

Definition array_getitem_mask_col (a : array) (mask : Np.ndarray bool) (j : nat)
  : result array :=
  match a with
  | AFloat f => r <-- Np.getitem_mask_col f mask j ;; Ok (AFloat r)
  | AInt i => r <-- Np.getitem_mask_col i mask j ;; Ok (AInt r)
  end.

(** [np.isfinite]: every integer is finite. *)
Definition array_isfinite (a : array) : Np.ndarray bool :=
  match a with
  | AFloat f => Np.isfinite f
  | AInt i => Np.map_elts (fun _ => true) i
  end.

(** [a == 0] against the Python integer 0. *)
Definition array_equal_zero (a : array) : Np.ndarray bool :=
  match a with
  | AFloat f => Np.equal f 0%float
  | AInt i => Np.equal i 0%Z
  end.

(** f'cycle={cycle}' *)
Definition cycle_label (cycle : nat) : string :=
  ("cycle=" ++ NilZero.string_of_uint (Nat.to_uint cycle))%string.

(** Cell 3.4, second part:
    for cycle in range(3, 12):
        if np.any(np.isfinite(xyth['h'][ind,cycle-3])):
            plt.plot(xyth['x'][ind], xyth['h'][ind,cycle-3], label=f'cycle={cycle}') *)
Definition ATL11_heights_body (xyth : ATL11.xyth) (ind : Np.ndarray bool)
    (cycle : nat) (fig : list line) : outcome (list line) :=
  match array_getitem_mask_col (ATL11.h xyth) ind (cycle - 3) with
  | Raise e => Crashed e fig
  | Ok column =>
      if Np.any (array_isfinite column) then
        match Np.getitem_mask (ATL11.x xyth) ind with
        | Raise e => Crashed e fig
        | Ok xs => Done (fig ++ [Line (AFloat xs) column (cycle_label cycle)])
        end
      else Done fig
  end.

Definition ATL11_heights (xyth : ATL11.xyth) (ind : Np.ndarray bool)
  : list line -> outcome (list line) :=
  for_each (ATL11_heights_body xyth ind) (seq 3 9).

(** Cells 2.2 and 3.5: the index of the coordinate closest to [c],
    [np.argmin(np.abs(x - c))]. *)
Definition nearest_index (x : Np.ndarray float) (c : float) : result nat :=
  Np.argmin (Np.abs_diff x c).

(** Cell 4.3, map of the selected points:
    for cycle, D in cycle_D6.items():
        plt.plot(D['x'][D['index']], D['y'][D['index']],'.', label="cycle "+cycle) *)
Definition ATL06_map_body (item : string * ATL06.D6) (fig : list line)
  : outcome (list line) :=
  match ATL06.index item.2 with
  | None => Crashed KeyError fig
  | Some index =>
      match Np.getitem_mask (ATL06.x item.2) index with
      | Raise e => Crashed e fig
      | Ok xs =>
          match Np.getitem_mask (ATL06.y item.2) index with
          | Raise e => Crashed e fig
          | Ok ys => Done (fig ++ [Line (AFloat xs) (AFloat ys) ("cycle " ++ item.1)%string])
          end
      end
  end.

(** Cell 4.4, heights of the good segments:
    for cycle, D6 in cycle_D6.items():
        good=D6['index'] & (D6['atl06_quality_summary']==0)
        if np.any(good):
            plt.plot(D6['x_atc'][good],D6['h_li'][good],'.', label="cycle "+cycle) *)
Definition ATL06_good (D6 : ATL06.D6) : result (Np.ndarray bool) :=
  match ATL06.index D6 with
  | None => Raise KeyError
  | Some index =>
      match ATL06.from_file D6 !! "atl06_quality_summary" with
      | None => Raise KeyError
      | Some quality => Np.and_ index (array_equal_zero quality)
      end
  end.

Definition ATL06_good_body (item : string * ATL06.D6) (fig : list line)
  : outcome (list line) :=
  match ATL06_good item.2 with
  | Raise e => Crashed e fig
  | Ok good =>
      if Np.any good then
        match ATL06.from_file item.2 !! "x_atc" with
        | None => Crashed KeyError fig
        | Some x_atc =>
            match array_getitem_mask x_atc good with
            | Raise e => Crashed e fig
            | Ok xs =>
                match ATL06.from_file item.2 !! "h_li" with
                | None => Crashed KeyError fig
                | Some h_li =>
                    match array_getitem_mask h_li good with
                    | Raise e => Crashed e fig
                    | Ok ys => Done (fig ++ [Line xs ys ("cycle " ++ item.1)%string])
                    end
                end
            end
        end
      else Done fig
  end.

(** ** The ATL03 request (cell 5)

    [s.replace(old, new)] for a non-empty [old]: every occurrence, left to
    right, without overlap.  [skip] counts the characters of an occurrence
    still to be passed over. *)
Fixpoint replace_from (old new : string) (skip : nat) (s : string) : string :=
  match s with
  | EmptyString => EmptyString
  | String c s' =>
      match skip with
      | S k => replace_from old new k s'
      | O =>
          if String.prefix old s
          then (new ++ replace_from old new (String.length old - 1) s')%string
          else String c (replace_from old new 0 s')
      end
  end.

(** granule.replace('ATL06','ATL03') *)
Definition ATL03_name (granule : string) : string :=
  replace_from "ATL06" "ATL03" 0 granule.

(** ** Concrete inputs used by the examples below *)

(** Two points on the line y = -4e5: one on the left edge of the
    notebook's rectangle, one inside it. *)
Definition edge_and_inside_x : Np.ndarray float :=
  Np.NdArray [2%nat] [1.015e6; 1.02e6]%float.
Definition edge_and_inside_y : Np.ndarray float :=
  Np.NdArray [2%nat] [-4e5; -4e5]%float.

(** A rectangle whose x-range is inverted. *)
Definition inverted_ROI : RegionOfInterest :=
  ROI (1.060e6, 1.015e6)%float (-4.2e5, -3.85e5)%float.

(** An integer flag array whose dataset declares a fill value of 127,
    and a float32 height array with the usual fill value. *)
Definition flags_with_fill : Np.ndarray Z := Np.NdArray [3%nat] [0; 1; 127]%Z.
Definition heights_with_fill : Np.ndarray float :=
  Np.NdArray [2; 2]%nat [10.5; 0x1.fffffep+127; 12; 0x1.fffffep+127]%float.

(** The file name the notebook documents, and a catalog entry for it. *)
Definition ATL11_name : string := "ATL11_054803_0311_004_01.h5".
Definition ATL11_granule : Granule :=
  {| producer_granule_id := ATL11_name;
     href := "https://n5eil01u.ecs.nsidc.org/ATLAS/ATL11.004/ATL11_054803_0311_004_01.h5" |}.

(** The ATL06 file the notebook lists with h5ls. *)
Definition ATL06_name : string := "ATL06_20191101185115_05480503_005_01.h5".
Definition ATL06_granule : Granule :=
  {| producer_granule_id := ATL06_name;
     href := "https://n5eil01u.ecs.nsidc.org/ATLAS/ATL06.005/ATL06_20191101185115_05480503_005_01.h5" |}.

(** A catalog entry whose name follows neither pattern. *)
Definition stray_granule : Granule :=
  {| producer_granule_id := "README.txt"; href := "https://n5eil01u.ecs.nsidc.org/README.txt" |}.

(** A server that delivers an (empty) HDF5 file for every link. *)
Definition wget_any : string -> option h5file := fun _ => Some ∅.

(** Nothing on disk, nothing printed. *)
Definition fresh : dl_state := DlState ∅ [].

(** The state a loop ends in, whether it completed or not. *)
Definition final {S} (o : outcome S) : S :=
  match o with
  | Done s => s
  | Crashed _ s => s
  end.

(** A granule of subregion 04 that was put into /tmp before the cell ran. *)
Definition descending_name : string := "ATL11_054804_0311_004_01.h5".
Definition descending_granule : Granule :=
  {| producer_granule_id := descending_name;
     href := "https://n5eil01u.ecs.nsidc.org/ATLAS/ATL11.004/ATL11_054804_0311_004_01.h5" |}.
Definition with_descending : dl_state :=
  DlState {[ "/tmp/ATL11_054804_0311_004_01.h5" := ∅ ]} [].

(** An ATL06 file in which only the heights and the along-track
    coordinate declare a fill value. *)
Definition ATL06_file : h5file :=
  {[ "gt2r/land_ice_segments" :=
       {[ "latitude" := FloatData (Np.NdArray [2%nat] [68.5; 68.75]%float) None;
          "longitude" := FloatData (Np.NdArray [2%nat] [-48.5; -48.25]%float) None;
          "h_li" := FloatData (Np.NdArray [2%nat] [1200.5; 0x1.fffffep+127]%float)
                      (Some 0x1.fffffep+127%float);
          "atl06_quality_summary" := IntData (Np.NdArray [2%nat] [0; 1]%Z) None;
          "ground_track/x_atc" := FloatData (Np.NdArray [2%nat] [7.6e6; 7.7e6]%float)
                                    (Some 0x1.fffffffffffffp+1023%float) ]} ]}.

(** Two ATL11 files: one complete, one without the pt2 group; and one
    that has the group but no latitude in it. *)
Definition ATL11_members : gmap string dataset :=
  {[ "latitude" := FloatData (Np.NdArray [2%nat] [68.5; 68.75]%float) None;
     "longitude" := FloatData (Np.NdArray [2%nat] [-48.5; -48.25]%float) None;
     "h_corr" := FloatData (Np.NdArray [2; 1]%nat [1200.5; 0x1.fffffep+127]%float)
                   (Some 0x1.fffffep+127%float);
     "delta_time" := FloatData (Np.NdArray [2; 1]%nat [5.8e7; 5.8e7]%float) None ]}.

Definition ATL11_complete : h5file := {[ "pt2" := ATL11_members ]}.
Definition ATL11_without_pt2 : h5file := ∅.
Definition ATL11_without_latitude : h5file :=
  {[ "pt2" := delete "latitude" ATL11_members ]}.

Definition two_files : Disk :=
  {[ "/tmp/ATL11_054803_0311_004_01.h5" := ATL11_complete;
     "/tmp/ATL11_054903_0311_004_01.h5" := ATL11_without_pt2 ]}.

Definition two_files' : Disk :=
  {[ "/tmp/ATL11_054803_0311_004_01.h5" := ATL11_complete;
     "/tmp/ATL11_054903_0311_004_01.h5" := ATL11_without_latitude ]}.

(** A stand-in for the projection: it hands the coordinates back. *)
Definition plate_carree (la lo : array)
  : result (Np.ndarray float * Np.ndarray float) :=
  match la, lo with
  | AFloat a, AFloat b => Ok (b, a)
  | _, _ => Raise ExternalError
  end.

(** The notebook before the reading cell has run. *)
Definition unread : ATL11.read_state := ATL11.ReadState None None ∅.

(** The members of [ATL06_file], and two damaged variants: one whose
    quality flags declare a fill value, one without the heights. *)
Definition ATL06_members : gmap string dataset :=
  {[ "latitude" := FloatData (Np.NdArray [2%nat] [68.5; 68.75]%float) None;
     "longitude" := FloatData (Np.NdArray [2%nat] [-48.5; -48.25]%float) None;
     "h_li" := FloatData (Np.NdArray [2%nat] [1200.5; 0x1.fffffep+127]%float)
                 (Some 0x1.fffffep+127%float);
     "atl06_quality_summary" := IntData (Np.NdArray [2%nat] [0; 1]%Z) None;
     "ground_track/x_atc" := FloatData (Np.NdArray [2%nat] [7.6e6; 7.7e6]%float)
                               (Some 0x1.fffffffffffffp+1023%float) ]}.

Definition ATL06_flags_with_fill : h5file :=
  {[ "gt2r/land_ice_segments" :=
       <[ "atl06_quality_summary" := IntData (Np.NdArray [2%nat] [0; 1]%Z) (Some 127%Z) ]>
         ATL06_members ]}.

Definition ATL06_without_heights : h5file :=
  {[ "gt2r/land_ice_segments" := delete "h_li" ATL06_members ]}.

(** Two ATL06 files of cycle 05 on different tracks. *)
Definition two_tracks_one_cycle : Disk :=
  {[ "/tmp/ATL06_20191101185115_05480503_005_01.h5" := ATL06_file;
     "/tmp/ATL06_20191105184255_06090503_005_01.h5" := ATL06_file ]}.

(** Two more damaged ATL11 files: one without the longitude, one whose
    heights declare no fill value; and a longitude left by an earlier
    file. *)
Definition ATL11_without_longitude : h5file :=
  {[ "pt2" := delete "longitude" ATL11_members ]}.

Definition ATL11_heights_without_fill : h5file :=
  {[ "pt2" :=
       <[ "h_corr" := FloatData (Np.NdArray [2; 1]%nat [1200.5; 0x1.fffffep+127]%float)
                        None ]> ATL11_members ]}.


Definition earlier_longitude : array :=
  AFloat (Np.NdArray [3%nat] [-50; -50.5; -51]%float).

(** The record of a granule that holds two points and three cycles:
    the second cycle has only fill values, replaced by NaN on reading. *)
Definition three_cycles : ATL11.xyth :=
  ATL11.Xyth edge_and_inside_x edge_and_inside_y
    (AFloat (Np.NdArray [2; 3]%nat [1200.5; nan; 1201; 1300.5; nan; 1301]%float))
    (AFloat (Np.NdArray [2; 3]%nat [5.8e7; 6.6e7; 7.4e7; 5.8e7; 6.6e7; 7.4e7]%float)).

Definition three_cycles_raw : Np.ndarray float :=
  Np.NdArray [2; 3]%nat
    [1200.5; 0x1.fffffep+127; 1201; 1300.5; 0x1.fffffep+127; 1301]%float.

Definition both_points : Np.ndarray bool := Np.NdArray [2%nat] [true; true].

(** Projected x of five points along a track, and the same with one
    value missing. *)
Definition track_x : Np.ndarray float :=
  Np.NdArray [5%nat] [1.030e6; 1.034e6; 1.038e6; 1.042e6; 1.046e6]%float.
Definition track_x_with_gap : Np.ndarray float :=
  Np.NdArray [5%nat] [1.030e6; 1.034e6; 1.038e6; nan; 1.036e6]%float.

(* ================================================================== *)
(** * Properties *)

(** ** Results and loops *)

Lemma for_each_app {S X} (body : X -> S -> outcome S) (xs ys : list X) (s : S) :
  for_each body (xs ++ ys) s =
  match for_each body xs s with
  | Done s' => for_each body ys s'
  | Crashed e s' => Crashed e s'
  end.
Proof.
  revert s. induction xs as [|x0 xs IH]; intros s; simpl; [reflexivity|].
  destruct (body x0 s); [apply IH | reflexivity].
Qed.

(** ** binary64 comparisons *)

Section SpecFloatOrder.

Local Open Scope Z_scope.

Lemma SFcompare_finite_pos m1 e1 m2 e2 :
  SFcompare (S754_finite false m1 e1) (S754_finite false m2 e2) =
  Some (match e1 ?= e2 with Lt => Lt | Gt => Gt | Eq => (m1 ?= m2)%positive end).
Proof. reflexivity. Qed.

Lemma SFcompare_finite_neg m1 e1 m2 e2 :
  SFcompare (S754_finite true m1 e1) (S754_finite true m2 e2) =
  Some (match e1 ?= e2 with Lt => Gt | Gt => Lt | Eq => CompOpp (m1 ?= m2)%positive end).
Proof. reflexivity. Qed.

Ltac order_cases :=
  repeat match goal with
    | H : context [Z.compare ?a ?b] |- _ => destruct (Z.compare_spec a b); subst
    | H : context [Pos.compare ?a ?b] |- _ => destruct (Pos.compare_spec a b); subst
    | |- context [Z.compare ?a ?b] => destruct (Z.compare_spec a b); subst
    | |- context [Pos.compare ?a ?b] => destruct (Pos.compare_spec a b); subst
    end;
  simpl in *; try discriminate; try reflexivity; try lia.

(** No value lies strictly between [a] and [b] when [b <= a]. *)
Lemma SFltb_SFltb_SFleb a v b :
  SFltb a v = true -> SFltb v b = true -> SFleb b a = false.
Proof.
  unfold SFltb, SFleb.
  destruct a as [sa|sa| |sa ma ea], v as [sv|sv| |sv mv ev], b as [sb|sb| |sb mb eb];
    try (destruct sa); try (destruct sv); try (destruct sb);
    rewrite ?SFcompare_finite_pos, ?SFcompare_finite_neg;
    try (simpl; congruence);
    intros H1 H2; order_cases.
Qed.

End SpecFloatOrder.

Lemma ltb_ltb_leb (a v b : float) :
  PrimFloat.ltb a v = true -> PrimFloat.ltb v b = true -> PrimFloat.leb b a = false.
Proof. rewrite !FloatAxioms.ltb_spec, FloatAxioms.leb_spec. apply SFltb_SFltb_SFleb. Qed.

Lemma eqb_nan_l (s : float) : PrimFloat.eqb nan s = false.
Proof. rewrite FloatAxioms.eqb_spec. reflexivity. Qed.

(** ** Arrays of equal shape *)

Section ArrayLemmas.

Context {A : Type}.

Lemma length_chunks (n sz : nat) (l : list A) : length (Np.chunks n sz l) = n.
Proof. revert l. induction n as [|n IH]; intros l; simpl; [reflexivity|]. now rewrite IH. Qed.

Lemma concat_chunks (n sz : nat) (l : list A) :
  length l = n * sz -> concat (Np.chunks n sz l) = l.
Proof.
  revert l. induction n as [|n IH]; intros l Hl; simpl in *.
  - now destruct l.
  - rewrite IH, take_drop; [reflexivity|]. rewrite length_drop. lia.
Qed.

Lemma Forall_length_chunks (n sz : nat) (l : list A) :
  length l = n * sz -> Forall (fun piece => length piece = sz) (Np.chunks n sz l).
Proof.
  revert l. induction n as [|n IH]; intros l Hl; simpl in *; constructor.
  - rewrite length_take. lia.
  - apply IH. rewrite length_drop. lia.
Qed.

Lemma chunks_singletons (l : list A) :
  Np.chunks (length l) 1 l = map (fun a => [a]) l.
Proof. induction l as [|a l IH]; simpl; [reflexivity|]. now rewrite drop_0, IH. Qed.

(** Broadcasting to the array's own shape changes nothing. *)
Lemma expand_same (sh : list nat) (b : list A) :
  length b = Np.size_of sh -> Np.expand sh sh b = b.
Proof.
  revert b. induction sh as [|d sh IH]; intros b Hb; simpl in *; [reflexivity|].
  rewrite decide_True by reflexivity.
  rewrite <- (concat_chunks d (Np.size_of sh) b) at 2 by exact Hb.
  f_equal. rewrite <- (map_id (Np.chunks d (Np.size_of sh) b)) at 2.
  apply map_ext_Forall.
  eapply Forall_impl; [apply Forall_length_chunks; exact Hb|].
  intros piece Hp. now apply IH.
Qed.

Lemma compatible_same (sh : list nat) : Np.compatible sh sh = true.
Proof. induction sh as [|d sh IH]; simpl; [reflexivity|]. now rewrite Nat.eqb_refl, IH. Qed.

Lemma pad_shape_same (sh : list nat) : Np.pad_shape (length sh) sh = sh.
Proof. unfold Np.pad_shape. now rewrite Nat.sub_diag. Qed.

Lemma broadcast_to_same (b : Np.ndarray A) :
  Np.wf b -> Np.broadcast_to (Np.shape b) b = Ok b.
Proof.
  intros Hb. unfold Np.broadcast_to.
  rewrite pad_shape_same, compatible_same, expand_same by exact Hb.
  now destruct b.
Qed.

(** A mask of the array's own shape selects element by element. *)
Lemma setitem_mask_same (a : Np.ndarray A) (mask : Np.ndarray bool) (v : A) :
  Np.wf a -> Np.shape mask = Np.shape a ->
  Np.setitem_mask a mask v =
  Ok (Np.NdArray (Np.shape a)
        (zip_with (fun (m : bool) e => if m then v else e) (Np.data mask) (Np.data a))).
Proof.
  intros Ha Hs. unfold Np.setitem_mask. rewrite Hs.
  rewrite firstn_all, decide_True by reflexivity.
  rewrite drop_all. change (Np.size_of []) with 1.
  rewrite <- Ha, chunks_singletons. do 2 f_equal.
  generalize (Np.data mask). induction (Np.data a) as [|e l IH]; intros ms.
  - now destruct ms.
  - destruct ms as [|m ms]; simpl; [reflexivity|].
    rewrite IH. now destruct m.
Qed.

End ArrayLemmas.

Lemma iand_same (a b : Np.ndarray bool) :
  Np.wf b -> Np.shape b = Np.shape a ->
  Np.iand a b = Ok (Np.NdArray (Np.shape a) (zip_with andb (Np.data a) (Np.data b))).
Proof.
  intros Hb Hs. unfold Np.iand. rewrite <- Hs, broadcast_to_same by exact Hb.
  reflexivity.
Qed.

Lemma wf_map_elts {A B} (f : A -> B) (a : Np.ndarray A) :
  Np.wf a -> Np.wf (Np.map_elts f a).
Proof. unfold Np.wf, Np.map_elts. simpl. now rewrite length_map. Qed.

(** The four statements of the index cell, for coordinates of one shape. *)
Lemma region_index_same (R : RegionOfInterest) (x y : Np.ndarray float) :
  Np.wf x -> Np.wf y -> Np.shape x = Np.shape y ->
  region_index R x y =
  Ok (Np.NdArray (Np.shape x)
        (zip_with (fun xi yi =>
                     PrimFloat.ltb (fst (XR R)) xi && PrimFloat.ltb xi (snd (XR R))
                     && PrimFloat.ltb (fst (YR R)) yi && PrimFloat.ltb yi (snd (YR R)))
           (Np.data x) (Np.data y))).
Proof.
  intros Hx Hy Hs. unfold region_index, Np.greater, Np.less.
  rewrite iand_same by (try apply wf_map_elts; auto). simpl.
  rewrite iand_same by (try apply wf_map_elts; auto). simpl.
  rewrite iand_same by (try apply wf_map_elts; auto). simpl.
  do 2 f_equal.
  assert (Hl : length (Np.data x) = length (Np.data y)).
  { unfold Np.wf in *. congruence. }
  revert Hl. generalize (Np.data y). induction (Np.data x) as [|xi l IH];
    intros [|yi l'] Hl; simpl in *; try discriminate; [reflexivity|].
  f_equal. apply IH. congruence.
Qed.

(** ** The region-of-interest index *)

(** C1.  For every rectangle and every pair of coordinate arrays of one
    shape, the index mask is computed without error, has the shape and
    length of the coordinates, and is true at position [i] exactly when
    xmin < x[i] < xmax and ymin < y[i] < ymax, all four comparisons strict.
    For the notebook's rectangle, x in (1.015e6, 1.060e6) and y in
    (-4.2e5, -3.85e5), a point at x = 1.015e6 is excluded and a point at
    x = 1.02e6, y = -4e5 is included. *)
Theorem region_index_strictly_inside (R : RegionOfInterest) (x y : Np.ndarray float) :
  Np.wf x -> Np.wf y -> Np.shape x = Np.shape y ->
  (exists ind,
      region_index R x y = Ok ind
      /\ Np.shape ind = Np.shape x
      /\ length (Np.data ind) = length (Np.data x)
      /\ forall (i : nat) (xi yi : float),
          Np.data x !! i = Some xi -> Np.data y !! i = Some yi ->
          Np.data ind !! i =
          Some (PrimFloat.ltb (fst (XR R)) xi && PrimFloat.ltb xi (snd (XR R))
                && PrimFloat.ltb (fst (YR R)) yi && PrimFloat.ltb yi (snd (YR R))))
  /\ region_index notebook_ROI edge_and_inside_x edge_and_inside_y
     = Ok (Np.NdArray [2%nat] [false; true]).
Proof.
  intros Hx Hy Hs. split; [|reflexivity].
  rewrite region_index_same by assumption.
  eexists; split; [reflexivity|]. simpl. split; [reflexivity|]. split.
  - rewrite length_zip_with. unfold Np.wf in *. rewrite Hs in Hx. lia.
  - intros i xi yi Hxi Hyi. rewrite lookup_zip_with, Hxi. simpl. now rewrite Hyi.
Qed.

Lemma region_index_strictly_inside_witness :
  Np.wf edge_and_inside_x /\ Np.wf edge_and_inside_y
  /\ Np.shape edge_and_inside_x = Np.shape edge_and_inside_y
  /\ exists ind,
      region_index notebook_ROI edge_and_inside_x edge_and_inside_y = Ok ind
      /\ Np.data ind !! 0%nat = Some false
      /\ Np.data ind !! 1%nat = Some true.
Proof.
  split; [reflexivity|]. split; [reflexivity|]. split; [reflexivity|].
  destruct (region_index_strictly_inside notebook_ROI edge_and_inside_x
              edge_and_inside_y eq_refl eq_refl eq_refl)
    as [(ind & Hind & _ & _ & Hat) _].
  exists ind. split; [exact Hind|]. split.
  - exact (Hat 0%nat _ _ eq_refl eq_refl).
  - exact (Hat 1%nat _ _ eq_refl eq_refl).
Defined.

(** C7.  For a degenerate or inverted rectangle (xmax <= xmin or
    ymax <= ymin) and coordinate arrays of one shape, the index is computed
    without error and is false everywhere. *)
Theorem degenerate_region_selects_nothing (R : RegionOfInterest) (x y : Np.ndarray float) :
  Np.wf x -> Np.wf y -> Np.shape x = Np.shape y ->
  PrimFloat.leb (snd (XR R)) (fst (XR R)) = true
  \/ PrimFloat.leb (snd (YR R)) (fst (YR R)) = true ->
  region_index R x y
  = Ok (Np.NdArray (Np.shape x) (replicate (length (Np.data x)) false)).
Proof.
  intros Hx Hy Hs Hdeg. rewrite region_index_same by assumption.
  do 2 f_equal.
  assert (Hl : length (Np.data x) = length (Np.data y)).
  { unfold Np.wf in *. congruence. }
  revert Hl. generalize (Np.data y). induction (Np.data x) as [|xi l IH];
    intros [|yi l'] Hl; simpl in *; try discriminate; [reflexivity|].
  f_equal; [|apply IH; congruence].
  destruct Hdeg as [Hd|Hd].
  - destruct (PrimFloat.ltb (fst (XR R)) xi) eqn:E1; [|reflexivity].
    destruct (PrimFloat.ltb xi (snd (XR R))) eqn:E2; [|reflexivity].
    pose proof (ltb_ltb_leb _ _ _ E1 E2). congruence.
  - destruct (PrimFloat.ltb (fst (YR R)) yi) eqn:E1; [|now rewrite andb_false_r].
    destruct (PrimFloat.ltb yi (snd (YR R))) eqn:E2; [|now rewrite andb_false_r].
    pose proof (ltb_ltb_leb _ _ _ E1 E2). congruence.
Qed.

Lemma degenerate_region_selects_nothing_witness :
  Np.wf edge_and_inside_x /\ Np.wf edge_and_inside_y
  /\ Np.shape edge_and_inside_x = Np.shape edge_and_inside_y
  /\ PrimFloat.leb (snd (XR inverted_ROI)) (fst (XR inverted_ROI)) = true
  /\ region_index inverted_ROI edge_and_inside_x edge_and_inside_y
     = Ok (Np.NdArray [2%nat] [false; false]).
Proof.
  split; [reflexivity|]. split; [reflexivity|]. split; [reflexivity|].
  split; [reflexivity|].
  exact (degenerate_region_selects_nothing inverted_ROI edge_and_inside_x
           edge_and_inside_y eq_refl eq_refl eq_refl (or_introl eq_refl)).
Defined.

(** ** Fill values *)

Lemma zip_with_mask_map {A} (p : A -> bool) (v : A) (l : list A) :
  zip_with (fun (m : bool) e => if m then v else e) (map p l) l
  = map (fun e => if p e then v else e) l.
Proof. induction l as [|e l IH]; simpl; [reflexivity|]. now rewrite IH. Qed.

(** The float instance of [temp[temp==fill]=np.NaN], element by element. *)
Lemma fill_to_nan_float (temp : Np.ndarray float) (fill : float) :
  Np.wf temp ->
  Np.fill_to_nan temp fill
  = Ok (Np.map_elts (fun v => if PrimFloat.eqb v fill then nan else v) temp).
Proof.
  intros Hwf. unfold Np.fill_to_nan. simpl.
  rewrite setitem_mask_same by (auto; reflexivity).
  unfold Np.equal, Np.map_elts. simpl. now rewrite zip_with_mask_map.
Qed.

(** Integer arrays cannot take the assignment at all. *)
Lemma fill_to_nan_int (temp : Np.ndarray Z) (fill : Z) :
  Np.fill_to_nan temp fill = Raise ValueError.
Proof. reflexivity. Qed.

(** C4, as the notebook stands.  For every floating-point array and fill
    value, the assignment produces an array of the same shape in which
    exactly the entries equal to the fill value have become NaN and every
    other entry is unchanged.  For an integer array numpy refuses the
    assignment with ValueError, whatever the entries are, and produces no
    array. *)
Theorem fill_to_nan_marks_exactly_the_fill_values
    (temp : Np.ndarray float) (fill : float) :
  Np.wf temp ->
  (exists out,
      Np.fill_to_nan temp fill = Ok out
      /\ Np.shape out = Np.shape temp
      /\ length (Np.data out) = length (Np.data temp)
      /\ forall (i : nat) (v : float),
          Np.data temp !! i = Some v ->
          Np.data out !! i = Some (if PrimFloat.eqb v fill then nan else v))
  /\ forall (flags : Np.ndarray Z) (ifill : Z),
      Np.fill_to_nan flags ifill = Raise ValueError.
Proof.
  intros Hwf. split; [|intros; apply fill_to_nan_int].
  rewrite fill_to_nan_float by exact Hwf.
  eexists; split; [reflexivity|]. simpl. split; [reflexivity|]. split.
  - apply length_map.
  - intros i v Hv. now rewrite list_lookup_fmap, Hv.
Qed.

Lemma fill_to_nan_marks_exactly_the_fill_values_witness :
  Np.wf heights_with_fill
  /\ exists out,
      Np.fill_to_nan heights_with_fill 0x1.fffffep+127%float = Ok out
      /\ Np.shape out = [2; 2]%nat
      /\ Np.data out !! 0%nat = Some 10.5%float
      /\ Np.data out !! 1%nat = Some nan
      /\ Np.data out !! 2%nat = Some 12%float
      /\ Np.data out !! 3%nat = Some nan.
Proof.
  split; [reflexivity|].
  destruct (fill_to_nan_marks_exactly_the_fill_values heights_with_fill
              0x1.fffffep+127%float eq_refl) as [(out & Hout & Hshape & _ & Hat) _].
  exists out. split; [exact Hout|]. split; [exact Hshape|].
  split; [exact (Hat 0%nat _ eq_refl)|]. split; [exact (Hat 1%nat _ eq_refl)|].
  split; [exact (Hat 2%nat _ eq_refl) | exact (Hat 3%nat _ eq_refl)].
Defined.

(** The claim of C4 read over every numeric array fails on an integer
    array that contains its fill value: no array comes back. *)
Lemma fill_to_nan_int_array_counterexample :
  Np.data flags_with_fill !! 2%nat = Some 127%Z
  /\ ~ exists out, Np.fill_to_nan flags_with_fill 127%Z = Ok out.
Proof. split; [reflexivity|]. intros [out Hout]. discriminate Hout. Qed.

(** C5.  Applying the assignment a second time with the same fill value
    gives what the first application gave: for a floating-point array the
    first result is returned unchanged (entries that are NaN stay NaN),
    for an integer array both attempts end in the same ValueError. *)
Theorem fill_to_nan_idempotent (temp : Np.ndarray float) (fill : float) :
  Np.wf temp ->
  (exists once,
      Np.fill_to_nan temp fill = Ok once
      /\ Np.fill_to_nan once fill = Ok once)
  /\ forall (flags : Np.ndarray Z) (ifill : Z),
      (once <-- Np.fill_to_nan flags ifill ;; Np.fill_to_nan once ifill)
      = Np.fill_to_nan flags ifill.
Proof.
  intros Hwf. split; [|reflexivity].
  eexists. split; [apply fill_to_nan_float; exact Hwf|].
  rewrite fill_to_nan_float by (apply wf_map_elts; exact Hwf).
  unfold Np.map_elts. simpl. rewrite map_map. do 2 f_equal.
  apply map_ext. intros v.
  destruct (PrimFloat.eqb v fill) eqn:E.
  - now rewrite eqb_nan_l.
  - now rewrite E.
Qed.

Lemma fill_to_nan_idempotent_witness :
  Np.wf heights_with_fill
  /\ exists once,
      Np.fill_to_nan heights_with_fill 0x1.fffffep+127%float = Ok once
      /\ Np.fill_to_nan once 0x1.fffffep+127%float = Ok once.
Proof.
  split; [reflexivity|].
  exact (proj1 (fill_to_nan_idempotent heights_with_fill 0x1.fffffep+127%float eq_refl)).
Defined.

(** ** File-name patterns *)

Section RegexLemmas.

Import Re.

Lemma list_ascii_of_string_app (a b : string) :
  list_ascii_of_string (a ++ b)%string = list_ascii_of_string a ++ list_ascii_of_string b.
Proof. induction a as [|c a IH]; simpl; [reflexivity|]. now rewrite IH. Qed.

Lemma string_of_list_ascii_app (p q : list ascii) :
  string_of_list_ascii (p ++ q) = (string_of_list_ascii p ++ string_of_list_ascii q)%string.
Proof. induction p as [|c p IH]; simpl; [reflexivity|]. now rewrite IH. Qed.

Lemma consumed_app (p tl : list ascii) :
  consumed (p ++ tl) tl = string_of_list_ascii p.
Proof.
  unfold consumed. rewrite length_app, Nat.add_sub.
  now rewrite take_app_length.
Qed.

(** A literal reads itself. *)
Lemma atom_step_Chr (c : ascii) (s : list ascii) :
  atom_step (Chr c) (c :: s) = Some s.
Proof. simpl. now rewrite Ascii.eqb_refl. Qed.

Lemma atom_step_Chr_inv (c : ascii) (s s' : list ascii) :
  atom_step (Chr c) s = Some s' -> s = c :: s'.
Proof.
  destruct s as [|c' s]; simpl; [discriminate|].
  destruct (Ascii.eqb c' c) eqn:E; [|discriminate].
  apply Ascii.eqb_eq in E. now intros [= ->]; subst.
Qed.

(** An ASCII digit is a decimal digit of one byte. *)
Lemma atom_step_ascii_digit (c : ascii) (s : list ascii) :
  is_ascii_digit c = true -> atom_step Digit (c :: s) = Some s.
Proof.
  intros H. destruct c as [[] [] [] [] [] [] [] []];
    vm_compute in H; try discriminate H; reflexivity.
Qed.

(** [decode] reads the bytes of one code point and nothing behind them. *)
Lemma decode_inv (s s' : list ascii) (cp : N) :
  decode s = Some (cp, s') ->
  exists d, s = d ++ s' /\ d <> [] /\ forall t, decode (d ++ t) = Some (cp, t).
Proof.
  unfold decode. destruct s as [|b0 s1]; [discriminate|]. cbv zeta.
  destruct (N_of_ascii b0 <? 128)%N eqn:E0.
  { intros [= <- <-]. exists [b0]. split; [reflexivity|]. split; [discriminate|].
    intros t. cbn [app]. now rewrite E0. }
  destruct (N_of_ascii b0 <? 192)%N eqn:E1; [discriminate|].
  destruct (N_of_ascii b0 <? 224)%N eqn:E2.
  { destruct s1 as [|b1 s2]; [discriminate|].
    destruct (continuation b1) as [c1|] eqn:C1; [|discriminate].
    destruct (128 <=? _)%N eqn:Rg; [|discriminate].
    intros [= <- <-]. exists [b0; b1]. split; [reflexivity|]. split; [discriminate|].
    intros t. cbn [app]. now rewrite E0, E1, E2, C1, Rg. }
  destruct (N_of_ascii b0 <? 240)%N eqn:E3.
  { destruct s1 as [|b1 [|b2 s3]]; try discriminate.
    destruct (continuation b1) as [c1|] eqn:C1; [|discriminate].
    destruct (continuation b2) as [c2|] eqn:C2; [|discriminate].
    match goal with
    | |- (if ?c then _ else _) = _ -> _ => destruct c eqn:Rg; [|discriminate]
    end.
    intros [= <- <-]. exists [b0; b1; b2]. split; [reflexivity|]. split; [discriminate|].
    intros t. cbn [app]. now rewrite E0, E1, E2, E3, C1, C2, Rg. }
  destruct (N_of_ascii b0 <? 248)%N eqn:E4; [|discriminate].
  destruct s1 as [|b1 [|b2 [|b3 s4]]]; try discriminate.
  destruct (continuation b1) as [c1|] eqn:C1; [|discriminate].
  destruct (continuation b2) as [c2|] eqn:C2; [|discriminate].
  destruct (continuation b3) as [c3|] eqn:C3; [|discriminate].
  match goal with
  | |- (if ?c then _ else _) = _ -> _ => destruct c eqn:Rg; [|discriminate]
  end.
  intros [= <- <-]. exists [b0; b1; b2; b3]. split; [reflexivity|]. split; [discriminate|].
  intros t. cbn [app]. now rewrite E0, E1, E2, E3, E4, C1, C2, C3, Rg.
Qed.

(** What [\d] reads is one decimal digit: some bytes [d] in front of the
    rest that decode, wherever they stand, to a code point of class Nd. *)
Lemma atom_step_Digit_inv (s s' : list ascii) :
  atom_step Digit s = Some s' ->
  exists d, s = d ++ s' /\ d <> []
            /\ forall n t, digits_from (S n) (d ++ t) = digits_from n t.
Proof.
  simpl. destruct (decode s) as [[cp s0]|] eqn:E; [|discriminate].
  destruct (decimal cp) eqn:Hcp; [|discriminate]. intros [= ->].
  destruct (decode_inv _ _ _ E) as (d & -> & Hne & Hd).
  exists d. split; [reflexivity|]. split; [exact Hne|].
  intros n t. cbn [digits_from]. now rewrite Hd, Hcp.
Qed.

(** Nothing is read from inside a code point: at a continuation byte
    neither an ASCII literal nor [\d] matches. *)
Lemma atom_step_continuation (a : atom) (b : ascii) (s : list ascii) :
  is_Some (continuation b) ->
  match a with Chr c => (N_of_ascii c <? 128)%N = true | Digit => True end ->
  atom_step a (b :: s) = None.
Proof.
  unfold continuation. intros [p Hp] Ha.
  destruct (128 <=? N_of_ascii b)%N eqn:Lo; [|discriminate Hp].
  destruct (N_of_ascii b <? 192)%N eqn:Hi; [|discriminate Hp].
  apply N.leb_le in Lo. destruct a as [c|]; simpl.
  - destruct (Ascii.eqb b c) eqn:E; [|reflexivity].
    apply Ascii.eqb_eq in E. subst c. apply N.ltb_lt in Ha. lia.
  - destruct (N_of_ascii b <? 128)%N eqn:E; [apply N.ltb_lt in E; lia|].
    now rewrite Hi.
Qed.

(** Every atom takes at least one byte. *)
Lemma atom_step_shorter (a : atom) (s s' : list ascii) :
  atom_step a s = Some s' -> length s' < length s.
Proof.
  destruct a as [c|].
  - intros ->%atom_step_Chr_inv. simpl. lia.
  - intros (d & -> & Hne & _)%atom_step_Digit_inv. rewrite length_app.
    destruct d; [congruence|]. simpl. lia.
Qed.

(** The bound on the repetitions cuts nothing short: more rounds than
    the input has bytes change nothing. *)
Lemma star_upto_enough {R} (a : atom) (n : nat) (s : list ascii)
    (k : list ascii -> option R) :
  length s <= n -> star_upto n a s k = star a s k.
Proof.
  unfold star.
  assert (G : forall n m t, length t <= n -> length t <= m ->
                star_upto n a t k = star_upto m a t k).
  { clear n s. induction n as [|n IH]; intros m t Hn Hm.
    - destruct t; [|simpl in Hn; lia]. destruct m as [|m]; [reflexivity|].
      cbn [star_upto]. destruct (atom_step a []) as [t'|] eqn:E; [|reflexivity].
      apply atom_step_shorter in E. simpl in E. lia.
    - destruct m as [|m].
      + destruct t; [|simpl in Hm; lia]. cbn [star_upto].
        destruct (atom_step a []) as [t'|] eqn:E; [|reflexivity].
        apply atom_step_shorter in E. simpl in E. lia.
      + cbn [star_upto]. destruct (atom_step a t) as [t'|] eqn:E; [|reflexivity].
        apply atom_step_shorter in E. now rewrite (IH m t') by lia. }
  intros Hn. apply G; [exact Hn | lia].
Qed.

(** Greedy repetition of [\d] runs over ASCII digits and stops at the
    first position at which no digit stands, when the rest of the
    pattern matches from there. *)
Lemma star_run {R} (ds tl : list ascii) (k : list ascii -> option R) (r : R) :
  forallb is_ascii_digit ds = true ->
  atom_step Digit tl = None ->
  k tl = Some r ->
  star Digit (ds ++ tl) k = Some r.
Proof.
  intros Hds Hc Hk. unfold star.
  assert (G : forall n, length ds <= n -> star_upto n Digit (ds ++ tl) k = Some r).
  { induction ds as [|d ds IH]; intros n Hn.
    - destruct n as [|n]; cbn [star_upto app]; [exact Hk|now rewrite Hc].
    - destruct n as [|n]; [simpl in Hn; lia|]. cbn [star_upto app forallb] in *.
      apply andb_prop in Hds as [Hd Hds].
      rewrite (atom_step_ascii_digit d _ Hd), (IH Hds n) by (simpl in Hn; lia).
      reflexivity. }
  apply G. rewrite length_app. lia.
Qed.

(** A position that does not start with the pattern's first letter is
    passed over. *)
Lemma search_from_skip (r : regex) (c0 c : ascii) (s : list ascii) :
  Ascii.eqb c c0 = false ->
  search_from (Cat (Atom (Chr c0)) r) (c :: s)
  = search_from (Cat (Atom (Chr c0)) r) s.
Proof. intros Hc. simpl. unfold match_at. simpl. now rewrite Hc. Qed.

End RegexLemmas.

Section PatternTheorems.

Import Re.

#[local] Arguments atom_step : simpl never.
#[local] Arguments consumed : simpl never.

Lemma consumed_prefix (p s tl : list ascii) :
  s = p ++ tl -> consumed s tl = string_of_list_ascii p.
Proof. intros ->. apply consumed_app. Qed.

(** The characters of [s] in front of its suffix [tl]. *)
Ltac front s tl :=
  lazymatch s with
  | tl => constr:(@nil ascii)
  | ?c :: ?s' => let p := front s' tl in constr:(c :: p)
  end.

Ltac read_consumed :=
  repeat match goal with
    | |- context [consumed ?s ?tl] =>
        let p := front s tl in rewrite (consumed_prefix p s tl eq_refl)
    end.

(** Reads the atoms at the head of the goal's input, literals and ASCII
    digits alike. *)
Ltac read_atoms :=
  repeat (first [ rewrite atom_step_Chr
                | rewrite atom_step_ascii_digit by assumption ];
          cbn [run lit]).

Lemma ATL11_re_chars (t1 t2 t3 t4 r1 r2 : ascii) (rest : string) :
  is_ascii_digit t1 = true -> is_ascii_digit t2 = true -> is_ascii_digit t3 = true ->
  is_ascii_digit t4 = true -> is_ascii_digit r1 = true -> is_ascii_digit r2 = true ->
  search ATL11_re
    ("ATL11_" ++ String t1 (String t2 (String t3 (String t4
        (String r1 (String r2 ("_" ++ rest)))))))%string
  = Some (MatchObject
            ("ATL11_" ++ String t1 (String t2 (String t3 (String t4
                (String r1 (String r2 "_"))))))%string
            [String t1 (String t2 (String t3 (String t4 EmptyString)));
             String r1 (String r2 EmptyString)]).
Proof.
  intros H1 H2 H3 H4 H5 H6. unfold search.
  rewrite list_ascii_of_string_app. cbn [list_ascii_of_string app].
  rewrite list_ascii_of_string_app. cbn [list_ascii_of_string app].
  cbn [search_from]. unfold match_at, ATL11_re. cbn [run lit].
  read_atoms. cbn [app]. read_consumed. reflexivity.
Qed.

Lemma ATL06_re_chars (stamp : string) (t1 t2 t3 t4 c1 c2 r1 r2 : ascii) (rest : string) :
  stamp <> EmptyString -> all_digits stamp = true ->
  is_ascii_digit t1 = true -> is_ascii_digit t2 = true -> is_ascii_digit t3 = true ->
  is_ascii_digit t4 = true -> is_ascii_digit c1 = true -> is_ascii_digit c2 = true ->
  is_ascii_digit r1 = true -> is_ascii_digit r2 = true ->
  search ATL06_re
    ("ATL06_" ++ stamp ++ "_" ++ String t1 (String t2 (String t3 (String t4
        (String c1 (String c2 (String r1 (String r2 ("_" ++ rest)))))))))%string
  = Some (MatchObject
            ("ATL06_" ++ stamp ++ "_" ++ String t1 (String t2 (String t3 (String t4
                (String c1 (String c2 (String r1 (String r2 "_"))))))))%string
            [String t1 (String t2 (String t3 (String t4 EmptyString)));
             String c1 (String c2 EmptyString);
             String r1 (String r2 EmptyString)]).
Proof.
  intros Hne Hst H1 H2 H3 H4 H5 H6 H7 H8. unfold search.
  destruct stamp as [|d0 stamp]; [congruence|]. clear Hne.
  unfold all_digits in Hst. cbn [list_ascii_of_string forallb] in Hst.
  apply andb_prop in Hst as [Hd0 Hst].
  rewrite !list_ascii_of_string_app. cbn [list_ascii_of_string app].
  rewrite !list_ascii_of_string_app. cbn [list_ascii_of_string app].
  cbn [search_from]. unfold match_at, ATL06_re. cbn [run lit].
  read_atoms.
  erewrite star_run; [reflexivity | exact Hst | reflexivity |].
  cbn [run lit]. read_atoms. cbn [app]. read_consumed.
  do 2 f_equal.
  rewrite <- (string_of_list_ascii_of_string stamp) at 2.
  set (ds := list_ascii_of_string stamp).
  unfold consumed. f_equal.
  replace (_ :: _ :: _ :: _ :: _ :: _ :: d0 :: _)
    with (("A" :: "T" :: "L" :: "0" :: "6" :: "_" :: d0 :: ds
            ++ ["_"; t1; t2; t3; t4; c1; c2; r1; r2; "_"])%char
            ++ list_ascii_of_string rest).
  2:{ cbn. rewrite <- app_assoc. reflexivity. }
  rewrite length_app, Nat.add_sub, take_app_length. cbn.
  rewrite string_of_list_ascii_app. reflexivity.
Qed.

End PatternTheorems.

Lemma two_digits (s : string) :
  String.length s = 2%nat -> Re.all_digits s = true ->
  exists a b, s = String a (String b EmptyString)
              /\ Re.is_ascii_digit a = true /\ Re.is_ascii_digit b = true.
Proof.
  destruct s as [|a [|b [|c s]]]; try discriminate. intros _ Hd.
  unfold Re.all_digits in Hd. simpl in Hd.
  apply andb_prop in Hd as [Ha Hd]. apply andb_prop in Hd as [Hb _]. eauto.
Qed.

Lemma four_digits (s : string) :
  String.length s = 4%nat -> Re.all_digits s = true ->
  exists a b c d, s = String a (String b (String c (String d EmptyString)))
                  /\ Re.is_ascii_digit a = true /\ Re.is_ascii_digit b = true
                  /\ Re.is_ascii_digit c = true /\ Re.is_ascii_digit d = true.
Proof.
  destruct s as [|a [|b [|c [|d [|e s]]]]]; try discriminate. intros _ Hd.
  unfold Re.all_digits in Hd. simpl in Hd.
  apply andb_prop in Hd as [Ha Hd]. apply andb_prop in Hd as [Hb Hd].
  apply andb_prop in Hd as [Hc Hd]. apply andb_prop in Hd as [Hd' _].
  exists a, b, c, d. auto.
Qed.

(** C2, as the notebook stands.  A file name that follows the ATL11
    pattern, ATL11_ttttrr_..., yields exactly two groups, the track tttt
    and the subregion rr; one that follows the ATL06 pattern,
    ATL06_<digits>_ttttccrr_..., yields exactly three, the track, the
    cycle and the subregion.  Nothing after the underscore that closes
    these digits is read: no cycle range, release or version.  For
    'ATL11_054803_0311_004_01.h5' the groups are '0548' and '03'. *)
Theorem patterns_recover_track_cycle_subregion
    (stamp track cycle subregion rest : string) :
  stamp <> EmptyString -> Re.all_digits stamp = true ->
  String.length track = 4%nat -> Re.all_digits track = true ->
  String.length cycle = 2%nat -> Re.all_digits cycle = true ->
  String.length subregion = 2%nat -> Re.all_digits subregion = true ->
  Re.search ATL11_re ("ATL11_" ++ track ++ subregion ++ "_" ++ rest)%string
  = Some (Re.MatchObject ("ATL11_" ++ track ++ subregion ++ "_")%string
            [track; subregion])
  /\ Re.search ATL06_re
       ("ATL06_" ++ stamp ++ "_" ++ track ++ cycle ++ subregion ++ "_" ++ rest)%string
     = Some (Re.MatchObject
               ("ATL06_" ++ stamp ++ "_" ++ track ++ cycle ++ subregion ++ "_")%string
               [track; cycle; subregion])
  /\ Re.search ATL11_re ATL11_name
     = Some (Re.MatchObject "ATL11_054803_" ["0548"; "03"]).
Proof.
  intros Hne Hst Ht Htd Hc Hcd Hr Hrd.
  destruct (four_digits track Ht Htd) as (t1 & t2 & t3 & t4 & -> & ? & ? & ? & ?).
  destruct (two_digits cycle Hc Hcd) as (c1 & c2 & -> & ? & ?).
  destruct (two_digits subregion Hr Hrd) as (r1 & r2 & -> & ? & ?).
  split; [|split]; [| |reflexivity].
  - apply ATL11_re_chars; assumption.
  - apply ATL06_re_chars; assumption.
Qed.

Lemma patterns_recover_track_cycle_subregion_witness :
  Re.search ATL11_re "ATL11_054803_0311_004_01.h5"
  = Some (Re.MatchObject "ATL11_054803_" ["0548"; "03"])
  /\ Re.search ATL06_re "ATL06_20191101185115_05480503_005_01.h5"
     = Some (Re.MatchObject "ATL06_20191101185115_05480503_" ["0548"; "05"; "03"]).
Proof.
  destruct (patterns_recover_track_cycle_subregion
              "20191101185115" "0548" "05" "03" "005_01.h5"
              ltac:(discriminate) eq_refl eq_refl eq_refl eq_refl eq_refl eq_refl eq_refl)
    as (_ & H06 & H11).
  split; [exact H11 | exact H06].
Defined.

(** The claim of C2 fails on its own example: the match on
    'ATL11_054803_0311_004_01.h5' has the track and the subregion and
    nothing else; no group holds the last cycle '11', the release '004'
    or the version '01', and asking for a third group is an IndexError. *)
Lemma ATL11_re_reads_no_cycle_release_version :
  exists m,
    Re.search ATL11_re "ATL11_054803_0311_004_01.h5" = Some m
    /\ Re.groups m = ["0548"; "03"]
    /\ Re.group m 3 = Raise IndexError
    /\ forall k, Re.group m k <> Ok "11"
                 /\ Re.group m k <> Ok "004"
                 /\ Re.group m k <> Ok "01".
Proof.
  eexists. split; [reflexivity|]. split; [reflexivity|]. split; [reflexivity|].
  intros [|[|[|k]]]; cbn; repeat split; discriminate.
Qed.

(** ** Every match of a pattern has all of its groups *)

Section GroupCount.

Import Re.

Lemma star_Some {R} (a : atom) (s : list ascii) (k : list ascii -> option R) (r : R) :
  star a s k = Some r -> exists s', k s' = Some r.
Proof.
  unfold star. generalize (length s) as n. intros n. revert s.
  induction n as [|n IH]; intros s; cbn [star_upto]; [eauto|].
  destruct (atom_step a s) as [s1|]; [|eauto].
  destruct (star_upto n a s1 k) eqn:E; [|eauto].
  intros [= ->]. now apply (IH s1).
Qed.

Lemma run_Some {R} (r : regex) (s : list ascii) (caps : list string)
    (k : list ascii -> list string -> option R) (res : R) :
  run r s caps k = Some res ->
  exists s' caps',
    k s' caps' = Some res /\ length caps' = length caps + ngroups r.
Proof.
  revert s caps k. induction r as [a|a|r1 IH1 r2 IH2|r IH]; intros s caps k;
    cbn [run ngroups].
  - destruct (atom_step a s) as [s1|]; [|discriminate].
    intros H. exists s1, caps. split; [exact H | lia].
  - destruct (atom_step a s) as [s1|]; [|discriminate].
    intros H. apply star_Some in H as [s' H]. exists s', caps. split; [exact H | lia].
  - intros H. apply IH1 in H as (s1 & caps1 & H & L1).
    apply IH2 in H as (s2 & caps2 & H & L2).
    exists s2, caps2. split; [exact H | lia].
  - intros H. apply IH in H as (s1 & caps1 & H & L1).
    eexists _, _. split; [exact H|]. rewrite length_app. simpl. lia.
Qed.

Lemma search_groups (r : regex) (s : string) (m : match_object) :
  search r s = Some m -> length (groups m) = ngroups r.
Proof.
  unfold search. induction (list_ascii_of_string s) as [|c l IH]; simpl.
  - destruct (match_at r []) eqn:E; [|discriminate]. intros [= ->].
    unfold match_at in E. apply run_Some in E as (s' & caps' & [= <-] & L). exact L.
  - destruct (match_at r (c :: l)) eqn:E; [|exact IH]. intros [= ->].
    unfold match_at in E. apply run_Some in E as (s' & caps' & [= <-] & L). exact L.
Qed.

(** Wherever ATL11_re matches, group 2 is there to be read. *)
Lemma ATL11_re_subregion (name : string) :
  search ATL11_re name <> None ->
  exists subregion, search_group ATL11_re name 2 = Ok subregion.
Proof.
  intros Hm. unfold search_group.
  destruct (search ATL11_re name) as [m|] eqn:E; [|congruence].
  apply search_groups in E. change (ngroups ATL11_re) with 2%nat in E.
  unfold group. destruct (groups m) as [|g1 [|g2 gs]]; try discriminate.
  simpl. eauto.
Qed.

End GroupCount.

(** ** The download loops *)

Section DownloadTheorems.

Variable wget : string -> option h5file.

Lemma isfile_true (path : string) (d : Disk) :
  isfile path d = true <-> is_Some (d !! path).
Proof. unfold isfile. apply bool_decide_eq_true. Qed.

Lemma isfile_false (path : string) (d : Disk) :
  isfile path d = false <-> d !! path = None.
Proof.
  unfold isfile. rewrite bool_decide_eq_false, <- eq_None_not_Some. reflexivity.
Qed.

(** A file that is on disk stays there, unchanged, through one turn of
    the ATL11 loop. *)
Lemma ATL11_download_body_keeps (target path : string) (f : h5file)
    (granule : Granule) (st : dl_state) :
  disk st !! path = Some f ->
  disk (final (ATL11_download_body wget target granule st)) !! path = Some f.
Proof.
  intros Hf. unfold ATL11_download_body.
  destruct (isfile _ (disk st)) eqn:Hex; [exact Hf|].
  destruct (Re.search_group _ _ _); [|exact Hf].
  destruct (negb _); [exact Hf|]. simpl. unfold wget_mv.
  destruct (wget _); [|exact Hf].
  apply isfile_false in Hex. rewrite lookup_insert_ne; [exact Hf|].
  intros <-. congruence.
Qed.

Lemma ATL11_download_loop_keeps (target path : string) (f : h5file)
    (avail : list Granule) (st : dl_state) :
  disk st !! path = Some f ->
  disk (final (ATL11_download_loop wget target avail st)) !! path = Some f.
Proof.
  unfold ATL11_download_loop.
  revert st. induction avail as [|g avail IH]; intros st Hf; simpl; [exact Hf|].
  pose proof (ATL11_download_body_keeps target path f g st Hf) as Hb.
  destruct (ATL11_download_body wget target g st); simpl in *; [now apply IH | exact Hb].
Qed.

Lemma elem_of_glob (dir pre suf path : string) (d : Disk) :
  path ∈ glob dir pre suf d
  <-> is_Some (d !! path) /\ glob_match dir pre suf path = true.
Proof.
  unfold glob. rewrite list_elem_of_filter, Is_true_true. split.
  - intros [Hg Hin]. apply list_elem_of_fmap in Hin as [[p v] [-> Hin]].
    apply elem_of_map_to_list in Hin. split; eauto.
  - intros [[v Hv] Hg]. split; [exact Hg|].
    apply list_elem_of_fmap. exists (path, v). split; [reflexivity|].
    now apply elem_of_map_to_list.
Qed.

End DownloadTheorems.

(** C3, as the notebook stands.  For a file name that neither pattern
    matches, [search] returns no match object at all, so no identifier,
    partial or default, exists, and every [.group] call on it raises
    AttributeError.  Nothing catches it: the ATL06 loop stops at that
    entry, and the ATL11 loop stops there unless the file is already in
    /tmp, in which case the entry was passed over before any parsing.  The
    entries before it have had their effect; the entries after it are not
    looked at. *)
Theorem unmatched_name_stops_the_batch (wget : string -> option h5file)
    (granule : Granule) (before after : list Granule) (st reached : dl_state) :
  Re.search ATL11_re (producer_granule_id granule) = None ->
  Re.search ATL06_re (producer_granule_id granule) = None ->
  (forall k, Re.search_group ATL11_re (producer_granule_id granule) k
             = Raise AttributeError)
  /\ (forall k, Re.search_group ATL06_re (producer_granule_id granule) k
                = Raise AttributeError)
  /\ (ATL11_download wget before st = Done reached ->
      ATL11_download wget (before ++ granule :: after) st
      = if isfile ("/tmp/" ++ producer_granule_id granule)%string (disk reached)
        then ATL11_download wget after reached
        else Crashed AttributeError reached)
  /\ (ATL06_download wget before st = Done reached ->
      ATL06_download wget (before ++ granule :: after) st
      = Crashed AttributeError reached).
Proof.
  intros H11 H06. unfold Re.search_group. rewrite H11, H06.
  split; [reflexivity|]. split; [reflexivity|]. split.
  - unfold ATL11_download, ATL11_download_loop. intros Hb.
    rewrite for_each_app, Hb. simpl. unfold ATL11_download_body at 1.
    destruct (isfile _ _); [reflexivity|].
    unfold Re.search_group. now rewrite H11.
  - unfold ATL06_download. intros Hb.
    rewrite for_each_app, Hb. simpl. unfold ATL06_download_body at 1.
    unfold Re.search_group. now rewrite H06.
Qed.

Lemma unmatched_name_stops_the_batch_witness :
  Re.search ATL11_re (producer_granule_id stray_granule) = None
  /\ Re.search ATL06_re (producer_granule_id stray_granule) = None
  /\ ATL06_download wget_any [stray_granule; ATL06_granule] fresh
     = Crashed AttributeError fresh.
Proof.
  split; [reflexivity|]. split; [reflexivity|].
  exact (proj2 (proj2 (proj2
    (unmatched_name_stops_the_batch wget_any stray_granule [] [ATL06_granule]
       fresh fresh eq_refl eq_refl))) eq_refl).
Defined.

(** The claim of C3 fails where it says the caller skips the entry: with
    'README.txt' in front of a valid subregion-03 granule the ATL11 loop
    ends in AttributeError with nothing downloaded, whereas skipping the
    entry would have fetched the valid granule. *)
Lemma unmatched_name_is_not_skipped :
  Re.search ATL11_re (producer_granule_id stray_granule) = None
  /\ ATL11_download wget_any [stray_granule; ATL11_granule] fresh
     = Crashed AttributeError fresh
  /\ ATL11_download wget_any [ATL11_granule] fresh
     = Done (DlState {[ "/tmp/ATL11_054803_0311_004_01.h5" := ∅ ]}
               ["ATL11_054803_0311_004_01.h5"])
  /\ ATL11_download wget_any [stray_granule; ATL11_granule] fresh
     <> ATL11_download wget_any [ATL11_granule] fresh.
Proof.
  split; [reflexivity|]. split; [reflexivity|]. split; [reflexivity|].
  discriminate.
Qed.

(** C6.  Over granule names of the ATL11 pattern and for any target
    subregion, the loop selects an order-preserving subsequence of the
    catalog list (what it prints and fetches); run again on that
    subsequence, from the same local files, it selects all of it again and
    leaves the same files behind. *)
Theorem subregion_filter_idempotent (wget : string -> option h5file)
    (target : string) (avail : list Granule) (st : dl_state) :
  Forall (fun granule => Re.search ATL11_re (producer_granule_id granule) <> None)
    avail ->
  exists (selected : list Granule) (d' : Disk),
    selected `sublist_of` avail
    /\ ATL11_download_loop wget target avail st
       = Done (DlState d' (stdout st ++ (producer_granule_id <$> selected)))
    /\ ATL11_download_loop wget target selected st
       = Done (DlState d' (stdout st ++ (producer_granule_id <$> selected))).
Proof.
  unfold ATL11_download_loop.
  intros Hall. revert st. induction Hall as [|g avail Hg Hall IH]; intros st.
  - exists [], (disk st). simpl. rewrite app_nil_r. destruct st. auto using sublist_nil.
  - simpl. unfold ATL11_download_body at 1.
    destruct (isfile _ (disk st)) eqn:Hex.
    { destruct (IH st) as (sel & d' & Hsub & H1 & H2).
      exists sel, d'. split; [now apply sublist_cons|]. auto. }
    destruct (ATL11_re_subregion _ Hg) as [sub Hsub]. rewrite Hsub.
    destruct (negb (String.eqb sub target)) eqn:Ht.
    { destruct (IH st) as (sel & d' & Hs & H1 & H2).
      exists sel, d'. split; [now apply sublist_cons|]. auto. }
    destruct (IH (DlState (wget_mv wget g (disk st))
                    (stdout st ++ [producer_granule_id g])))
      as (sel & d' & Hs & H1 & H2).
    exists (g :: sel), d'. split; [now apply sublist_skip|].
    simpl in *. rewrite <- app_assoc in H1, H2. simpl in *.
    split; [exact H1|].
    unfold ATL11_download_body at 1. rewrite Hex, Hsub, Ht. exact H2.
Qed.

Lemma subregion_filter_idempotent_witness :
  Forall (fun granule => Re.search ATL11_re (producer_granule_id granule) <> None)
    [descending_granule; ATL11_granule]
  /\ exists (selected : list Granule) (d' : Disk),
      selected `sublist_of` [descending_granule; ATL11_granule]
      /\ ATL11_download_loop wget_any "03" [descending_granule; ATL11_granule] fresh
         = Done (DlState d' (producer_granule_id <$> selected))
      /\ ATL11_download_loop wget_any "03" selected fresh
         = Done (DlState d' (producer_granule_id <$> selected)).
Proof.
  assert (H : Forall (fun granule =>
                        Re.search ATL11_re (producer_granule_id granule) <> None)
                [descending_granule; ATL11_granule]).
  { repeat constructor; discriminate. }
  split; [exact H|].
  exact (subregion_filter_idempotent wget_any "03"
           [descending_granule; ATL11_granule] fresh H).
Defined.

(** C10.  In the ATL11 loop the test for a local copy comes first.  A
    granule whose file is already in /tmp ends its turn there, whatever
    its name says about the subregion; its file is still in /tmp, with the
    same content, when the loop is over, and if its name fits
    'ATL11*.h5' it is among the files the reading cell's glob returns.
    Only a granule with no local copy has its subregion read, and is
    fetched exactly when that is '03'. *)
Theorem local_copy_bypasses_subregion_check (wget : string -> option h5file)
    (name : string) (f : h5file) (avail : list Granule) (st : dl_state) :
  disk st !! ("/tmp/" ++ name)%string = Some f ->
  (forall granule, producer_granule_id granule = name ->
     ATL11_download_body wget "03" granule st = Done st)
  /\ disk (final (ATL11_download wget avail st)) !! ("/tmp/" ++ name)%string = Some f
  /\ (glob_match "/tmp/" "ATL11" ".h5" ("/tmp/" ++ name) = true ->
      ("/tmp/" ++ name)%string
        ∈ glob "/tmp/" "ATL11" ".h5" (disk (final (ATL11_download wget avail st))))
  /\ (forall granule st0,
        disk st0 !! ("/tmp/" ++ producer_granule_id granule)%string = None ->
        ATL11_download_body wget "03" granule st0
        = match Re.search_group ATL11_re (producer_granule_id granule) 2 with
          | Raise e => Crashed e st0
          | Ok subregion =>
              if String.eqb subregion "03"
              then Done (DlState (wget_mv wget granule (disk st0))
                           (stdout st0 ++ [producer_granule_id granule]))
              else Done st0
          end).
Proof.
  intros Hf.
  pose proof (ATL11_download_loop_keeps wget "03" _ f avail st Hf) as Hkept.
  split; [|split; [exact Hkept|split]].
  - intros granule <-. unfold ATL11_download_body.
    replace (isfile _ (disk st)) with true; [reflexivity|].
    symmetry. apply isfile_true. eauto.
  - intros Hg. apply elem_of_glob. split; [|exact Hg].
    unfold ATL11_download. rewrite Hkept. eauto.
  - intros granule st0 Hnone. unfold ATL11_download_body.
    apply isfile_false in Hnone. rewrite Hnone.
    destruct (Re.search_group _ _ _); [|reflexivity].
    now destruct (String.eqb a "03").
Qed.

Lemma local_copy_bypasses_subregion_check_witness :
  disk with_descending !! ("/tmp/" ++ descending_name)%string = Some ∅
  /\ Re.search_group ATL11_re descending_name 2 = Ok "04"
  /\ ATL11_download_body wget_any "03" descending_granule with_descending
     = Done with_descending
  /\ ("/tmp/" ++ descending_name)%string
       ∈ glob "/tmp/" "ATL11" ".h5"
           (disk (final (ATL11_download wget_any
                           [descending_granule; ATL11_granule] with_descending))).
Proof.
  destruct (local_copy_bypasses_subregion_check wget_any descending_name ∅
              [descending_granule; ATL11_granule] with_descending eq_refl)
    as (Hskip & _ & Hglob & _).
  split; [reflexivity|]. split; [reflexivity|]. split.
  - exact (Hskip descending_granule eq_refl).
  - exact (Hglob eq_refl).
Defined.

(** ** Reading the files *)




Lemma fill_in_place_no_FillValue (ds : dataset) :
  has_FillValue ds = false -> fill_in_place ds = Raise KeyError.
Proof. destruct ds as [values [fill|]|values [fill|]]; simpl; congruence. Qed.




Section ATL11Reading.

Import ATL11.

Variable transform : array -> array -> result (Np.ndarray float * Np.ndarray float).

(** A file with both position fields leaves them in [lat] and [lon]. *)
Lemma try_read_position_complete (h5f : h5file) (members : gmap string dataset)
    (dlat dlon : dataset) (st : read_state) :
  h5f !! "pt2" = Some members ->
  members !! "latitude" = Some dlat -> members !! "longitude" = Some dlon ->
  try_read_position h5f st
  = ReadState (Some (np_array dlat)) (Some (np_array dlon)) (file_xyth st).
Proof.
  intros Hg Hlat Hlon. unfold try_read_position, h5_get.
  now rewrite Hg, Hlat, Hlon.
Qed.

(** A file without the latitude leaves both variables as they were: the
    failed read skips the longitude as well. *)
Lemma try_read_position_no_latitude (h5f : h5file) (members : gmap string dataset)
    (st : read_state) :
  h5f !! "pt2" = Some members -> members !! "latitude" = None ->
  try_read_position h5f st = st.
Proof. intros Hg Hlat. unfold try_read_position, h5_get. now rewrite Hg, Hlat. Qed.

Lemma try_read_position_no_group (h5f : h5file) (st : read_state) :
  h5f !! "pt2" = None -> try_read_position h5f st = st.
Proof. intros Hg. unfold try_read_position, h5_get. now rewrite Hg. Qed.

(** One turn of the loop once the position variables are settled. *)
Lemma read_body_from_position (d : Disk) (file : string) (h5f : h5file)
    (members : gmap string dataset) (dh dt : dataset) (temp : array)
    (la lo : array) (x y : Np.ndarray float) (st : read_state) :
  d !! file = Some h5f -> h5f !! "pt2" = Some members ->
  members !! "h_corr" = Some dh -> members !! "delta_time" = Some dt ->
  fill_in_place dh = Ok temp ->
  lat (try_read_position h5f st) = Some la ->
  lon (try_read_position h5f st) = Some lo ->
  transform la lo = Ok (x, y) ->
  read_body transform d file st
  = Done (ReadState (Some la) (Some lo)
            (<[file := Xyth x y temp (np_array dt)]>
               (file_xyth (try_read_position h5f st)))).
Proof.
  intros Hd Hg Hh Ht Hfill Hla Hlo Htr. unfold read_body.
  rewrite Hd, Hla, Hlo, Htr. unfold h5_get. rewrite Hg, Hh, Ht, Hfill.
  simpl. now rewrite insert_insert_eq.
Qed.

(** C9, as the notebook stands.  When a file has the pt2 group with its
    heights and times but no latitude in it, the failed read is caught and
    ignored, and the record for that file is created with x and y computed
    from the latitude and longitude that the previously read file left in
    the variables; nothing is flagged.  When the pt2 group itself is
    missing, no record is created: the turn ends in an exception (the
    unguarded read of the heights, if nothing fails before it) with the
    notebook state as it was. *)
Theorem missing_position_reuses_previous_file (d : Disk) (prev file : string)
    (hp hf : h5file) (mp mf : gmap string dataset)
    (latp lonp hcp dtp hcf dtf : dataset) (xp yp : Np.ndarray float)
    (tp tf : array) (st : read_state) :
  d !! prev = Some hp -> hp !! "pt2" = Some mp ->
  mp !! "latitude" = Some latp -> mp !! "longitude" = Some lonp ->
  mp !! "h_corr" = Some hcp -> mp !! "delta_time" = Some dtp ->
  fill_in_place hcp = Ok tp ->
  transform (np_array latp) (np_array lonp) = Ok (xp, yp) ->
  d !! file = Some hf -> hf !! "pt2" = Some mf ->
  mf !! "latitude" = None ->
  mf !! "h_corr" = Some hcf -> mf !! "delta_time" = Some dtf ->
  fill_in_place hcf = Ok tf ->
  (exists st',
      read_files transform d [prev; file] st = Done st'
      /\ file_xyth st' !! file = Some (Xyth xp yp tf (np_array dtf))
      /\ lat st' = Some (np_array latp) /\ lon st' = Some (np_array lonp))
  /\ (forall (other : string) (ho : h5file) (st0 : read_state),
        d !! other = Some ho -> ho !! "pt2" = None ->
        exists e, read_body transform d other st0 = Crashed e st0).
Proof.
  intros Hdp Hgp Hlatp Hlonp Hhp Htp Hfp Htr Hdf Hgf Hlatf Hhf Htf Hff. split.
  - unfold read_files. simpl.
    erewrite (read_body_from_position d prev); eauto;
      try (erewrite try_read_position_complete by eauto; reflexivity).
    erewrite (read_body_from_position d file); eauto;
      try (erewrite try_read_position_no_latitude by eauto; reflexivity).
    eexists. split; [reflexivity|]. simpl. split; [|auto].
    apply lookup_insert_eq.
  - intros other ho st0 Hdo Hgo. unfold read_body. rewrite Hdo.
    rewrite try_read_position_no_group by exact Hgo.
    destruct (lat st0) as [la|]; [|eauto]. destruct (lon st0) as [lo|]; [|eauto].
    destruct (transform la lo) as [[x0 y0]|]; [|eauto].
    unfold h5_get. rewrite Hgo. eauto.
Qed.

End ATL11Reading.

Lemma missing_position_reuses_previous_file_witness :
  exists st',
    ATL11.read_files plate_carree two_files'
      ["/tmp/ATL11_054803_0311_004_01.h5"; "/tmp/ATL11_054903_0311_004_01.h5"] unread
    = Done st'
    /\ ATL11.file_xyth st' !! "/tmp/ATL11_054903_0311_004_01.h5"
       = Some (ATL11.Xyth (Np.NdArray [2%nat] [-48.5; -48.25]%float)
                 (Np.NdArray [2%nat] [68.5; 68.75]%float)
                 (AFloat (Np.NdArray [2; 1]%nat [1200.5; nan]%float))
                 (AFloat (Np.NdArray [2; 1]%nat [5.8e7; 5.8e7]%float))).
Proof.
  destruct (missing_position_reuses_previous_file plate_carree two_files'
              "/tmp/ATL11_054803_0311_004_01.h5" "/tmp/ATL11_054903_0311_004_01.h5"
              ATL11_complete ATL11_without_latitude
              ATL11_members (delete "latitude" ATL11_members)
              _ _ _ _ _ _ _ _ _ _ unread
              eq_refl eq_refl eq_refl eq_refl eq_refl eq_refl eq_refl eq_refl
              eq_refl eq_refl eq_refl eq_refl eq_refl eq_refl)
    as [(st' & Hrun & Hrec & _) _].
  exists st'. split; [exact Hrun | exact Hrec].
Defined.

(** The claim of C9 fails for a file without the pt2 group: read after a
    complete file, it ends the loop in KeyError, and no record exists for
    it. *)
Lemma missing_group_leaves_no_record :
  two_files !! "/tmp/ATL11_054903_0311_004_01.h5" = Some ATL11_without_pt2
  /\ exists st',
      ATL11.read_files plate_carree two_files
        ["/tmp/ATL11_054803_0311_004_01.h5"; "/tmp/ATL11_054903_0311_004_01.h5"] unread
      = Crashed KeyError st'
      /\ ATL11.file_xyth st' !! "/tmp/ATL11_054903_0311_004_01.h5" = None
      /\ is_Some (ATL11.file_xyth st' !! "/tmp/ATL11_054803_0311_004_01.h5").
Proof.
  split; [reflexivity|]. eexists. split; [reflexivity|].
  split; [reflexivity|]. eexists. reflexivity.
Qed.

(** ** Remarks on the cells around the theorems *)

(** Cell 3.4 applies the four index statements to the record of one file. *)
Remark ATL11_index_is_region_index (R : RegionOfInterest)
    (file_xyth : gmap string ATL11.xyth) (xyth : ATL11.xyth) :
  file_xyth !! "/tmp/ATL11_054803_0311_004_01.h5" = Some xyth ->
  ATL11.index R file_xyth = region_index R (ATL11.x xyth) (ATL11.y xyth).
Proof. intros H. unfold ATL11.index. now rewrite H. Qed.

(** Cell 4.3 applies them to every cycle and stores the result under
    'index'. *)
Remark ATL06_index_body_stores_region_index (R : RegionOfInterest)
    (cycle : string) (D6 : ATL06.D6) (cycle_D6 : gmap string ATL06.D6)
    (ind : Np.ndarray bool) :
  region_index R (ATL06.x D6) (ATL06.y D6) = Ok ind ->
  exists D6',
    ATL06.index_body R (cycle, D6) cycle_D6 = Done (<[cycle := D6']> cycle_D6)
    /\ ATL06.index D6' = Some ind
    /\ ATL06.x D6' = ATL06.x D6 /\ ATL06.y D6' = ATL06.y D6.
Proof.
  intros H. unfold ATL06.index_body. simpl. rewrite H.
  eexists. split; [reflexivity|]. auto.
Qed.

(** Run a second time on the disk the first run left behind, the ATL11
    loop finds every selected granule in /tmp and selects nothing: the
    idempotence above is that of the selection over one state of the
    disk. *)
Remark second_run_downloads_nothing :
  exists st',
    ATL11_download wget_any [descending_granule; ATL11_granule] fresh = Done st'
    /\ stdout st' = ["ATL11_054803_0311_004_01.h5"]
    /\ ATL11_download wget_any [ATL11_granule] (DlState (disk st') [])
       = Done (DlState (disk st') []).
Proof. eexists. split; [reflexivity|]. split; reflexivity. Qed.

(* ================================================================== *)
(** * Further properties of the notebook's code *)

(** ** What a match of either pattern looks like *)

Section RegexShape.

Import Re.
#[local] Arguments atom_step : simpl never.
#[local] Arguments consumed : simpl never.

Lemma search_from_Some (r : regex) (l : list ascii) (m : match_object) :
  search_from r l = Some m ->
  exists pre post, l = pre ++ post /\ match_at r post = Some m.
Proof.
  induction l as [|c l IH]; simpl.
  - destruct (match_at r []) eqn:E; [|discriminate]. intros [= ->].
    exists [], []. auto.
  - destruct (match_at r (c :: l)) eqn:E.
    + intros [= ->]. exists [], (c :: l). auto.
    + intros H. destruct (IH H) as (pre & post & -> & Hm).
      exists (c :: pre), post. auto.
Qed.

(** What [\d*] reads is a run of decimal digits. *)
Lemma star_Digit_inv {R} (s : list ascii) (k : list ascii -> option R) (r : R) :
  star Digit s k = Some r ->
  exists n p rest,
    s = p ++ rest
    /\ (forall j t, digits_from (n + j) (p ++ t) = digits_from j t)
    /\ k rest = Some r.
Proof.
  unfold star. generalize (length s) as fuel. intros fuel. revert s.
  induction fuel as [|fuel IH]; intros s; cbn [star_upto].
  - intros H. exists 0, [], s. auto.
  - destruct (atom_step Digit s) as [s1|] eqn:E.
    + destruct (star_upto fuel Digit s1 k) eqn:E1.
      * intros [= ->]. destruct (IH _ E1) as (n & p & rest & -> & Hp & Hk).
        apply atom_step_Digit_inv in E as (d & -> & _ & Hd).
        exists (S n), (d ++ p), rest. split; [now rewrite app_assoc|].
        split; [|exact Hk]. intros j t.
        rewrite <- app_assoc. cbn [Nat.add]. now rewrite Hd, Hp.
      * intros H. exists 0, [], s. auto.
    + intros H. exists 0, [], s. auto.
Qed.

Ltac eat_chr H :=
  lazymatch type of H with
  | match atom_step (Chr ?c) ?s with _ => _ end = Some _ =>
      let E := fresh "E" in
      let s' := fresh "s" in
      destruct (atom_step (Chr c) s) as [s'|] eqn:E; [|discriminate H];
      apply atom_step_Chr_inv in E; subst s; cbn [run lit] in H
  end.

Ltac eat_digit H d Hd :=
  lazymatch type of H with
  | match atom_step Digit ?s with _ => _ end = Some _ =>
      let E := fresh "E" in
      let s' := fresh "s" in
      destruct (atom_step Digit s) as [s'|] eqn:E; [|discriminate H];
      apply atom_step_Digit_inv in E as (d & -> & _ & Hd); cbn [run lit] in H
  end.

Lemma match_at_ATL11_inv (s : list ascii) (m : match_object) :
  match_at ATL11_re s = Some m ->
  exists track subregion rest,
    s = list_ascii_of_string "ATL11_" ++ track ++ subregion ++ "_"%char :: rest
    /\ digits_from 4 track = true /\ digits_from 2 subregion = true
    /\ m = MatchObject
             ("ATL11_" ++ string_of_list_ascii track
                ++ string_of_list_ascii subregion ++ "_")%string
             [string_of_list_ascii track; string_of_list_ascii subregion].
Proof.
  unfold match_at, ATL11_re. cbn [run lit]. intros H.
  do 6 eat_chr H.
  eat_digit H t1 Ht1. eat_digit H t2 Ht2. eat_digit H t3 Ht3. eat_digit H t4 Ht4.
  eat_digit H r1 Hr1. eat_digit H r2 Hr2. eat_chr H. rename s0 into rest.
  exists (t1 ++ t2 ++ t3 ++ t4), (r1 ++ r2), rest.
  split; [cbn [list_ascii_of_string app]; now rewrite <- !app_assoc|].
  split.
  { rewrite <- (app_nil_r t4), <- ?app_assoc. now rewrite Ht1, Ht2, Ht3, Ht4. }
  split.
  { rewrite <- (app_nil_r r2), <- ?app_assoc. now rewrite Hr1, Hr2. }
  rewrite (consumed_prefix (t1 ++ t2 ++ t3 ++ t4) _ (r1 ++ r2 ++ "_"%char :: rest)) in H
    by now rewrite <- !app_assoc.
  rewrite (consumed_prefix (r1 ++ r2) _ ("_"%char :: rest)) in H
    by now rewrite <- !app_assoc.
  rewrite (consumed_prefix
             (list_ascii_of_string "ATL11_" ++ (t1 ++ t2 ++ t3 ++ t4)
                ++ (r1 ++ r2) ++ ["_"%char]) _ rest) in H
    by (cbn [list_ascii_of_string app]; now rewrite <- !app_assoc).
  injection H as <-. f_equal.
  now rewrite !string_of_list_ascii_app.
Qed.

Lemma match_at_ATL06_inv (s : list ascii) (m : match_object) :
  match_at ATL06_re s = Some m ->
  exists n stamp track cycle region rest,
    s = list_ascii_of_string "ATL06_" ++ stamp ++ "_"%char
          :: track ++ cycle ++ region ++ "_"%char :: rest
    /\ digits_from (S n) stamp = true
    /\ digits_from 4 track = true /\ digits_from 2 cycle = true
    /\ digits_from 2 region = true
    /\ m = MatchObject
             ("ATL06_" ++ string_of_list_ascii stamp ++ "_"
                ++ string_of_list_ascii track ++ string_of_list_ascii cycle
                ++ string_of_list_ascii region ++ "_")%string
             [string_of_list_ascii track; string_of_list_ascii cycle;
              string_of_list_ascii region].
Proof.
  unfold match_at, ATL06_re. cbn [run lit]. intros H.
  do 6 eat_chr H.
  eat_digit H d0 Hd0.
  apply star_Digit_inv in H as (n & ds & tl & -> & Hds & H). cbn [run lit] in H.
  eat_chr H.
  eat_digit H t1 Ht1. eat_digit H t2 Ht2. eat_digit H t3 Ht3. eat_digit H t4 Ht4.
  eat_digit H c1 Hc1. eat_digit H c2 Hc2.
  eat_digit H r1 Hr1. eat_digit H r2 Hr2. eat_chr H.
  match type of H with
  | context [consumed _ ?tl] => rename tl into rest
  end.
  exists n, (d0 ++ ds), (t1 ++ t2 ++ t3 ++ t4), (c1 ++ c2), (r1 ++ r2), rest.
  split.
  { cbn [list_ascii_of_string app].
    repeat (rewrite <- app_assoc; cbn [app]). reflexivity. }
  split.
  { rewrite <- (app_nil_r ds), <- ?app_assoc, Hd0.
    replace n with (n + 0) by lia. now rewrite Hds. }
  split.
  { rewrite <- (app_nil_r t4), <- ?app_assoc. now rewrite Ht1, Ht2, Ht3, Ht4. }
  split.
  { rewrite <- (app_nil_r c2), <- ?app_assoc. now rewrite Hc1, Hc2. }
  split.
  { rewrite <- (app_nil_r r2), <- ?app_assoc. now rewrite Hr1, Hr2. }
  rewrite (consumed_prefix (t1 ++ t2 ++ t3 ++ t4) _
             (c1 ++ c2 ++ r1 ++ r2 ++ "_"%char :: rest)) in H
    by now rewrite <- !app_assoc.
  rewrite (consumed_prefix (c1 ++ c2) _ (r1 ++ r2 ++ "_"%char :: rest)) in H
    by now rewrite <- !app_assoc.
  rewrite (consumed_prefix (r1 ++ r2) _ ("_"%char :: rest)) in H
    by now rewrite <- !app_assoc.
  rewrite (consumed_prefix
             (list_ascii_of_string "ATL06_" ++ (d0 ++ ds) ++ "_"%char
                :: (t1 ++ t2 ++ t3 ++ t4) ++ (c1 ++ c2) ++ (r1 ++ r2)
                ++ ["_"%char]) _ rest) in H
    by (cbn [list_ascii_of_string app];
        repeat (rewrite <- app_assoc; cbn [app]); reflexivity).
  injection H as <-. f_equal.
  rewrite !string_of_list_ascii_app. cbn [string_of_list_ascii].
  now rewrite !string_of_list_ascii_app.
Qed.

End RegexShape.

(** X1.  Whenever ATL11_re matches somewhere in a name, the name reads
    pre ++ 'ATL11_' ++ tttt ++ rr ++ '_' ++ rest, where tttt is four
    decimal digits and rr two (digits of any script: [\d] is not limited
    to 0-9); group 0 is 'ATL11_ttttrr_' and the groups are exactly tttt
    and rr.  The subregion the download loop compares with '03' is
    therefore always two digits taken from behind the product prefix. *)
Theorem ATL11_re_match_shape (name : string) (m : Re.match_object) :
  Re.search ATL11_re name = Some m ->
  exists pre track subregion rest : string,
    name = (pre ++ "ATL11_" ++ track ++ subregion ++ "_" ++ rest)%string
    /\ Re.digits 4 track = true
    /\ Re.digits 2 subregion = true
    /\ Re.whole m = ("ATL11_" ++ track ++ subregion ++ "_")%string
    /\ Re.groups m = [track; subregion].
Proof.
  unfold Re.search. intros H.
  apply search_from_Some in H as (pre & post & Hname & H).
  apply match_at_ATL11_inv in H as (track & subregion & rest & -> & Ht & Hs & ->).
  exists (string_of_list_ascii pre), (string_of_list_ascii track),
    (string_of_list_ascii subregion), (string_of_list_ascii rest).
  split.
  { rewrite <- (string_of_list_ascii_of_string name), Hname.
    rewrite !string_of_list_ascii_app. cbn [string_of_list_ascii].
    now rewrite string_of_list_ascii_of_string. }
  unfold Re.digits. rewrite !list_ascii_of_string_of_list_ascii.
  repeat split; assumption.
Qed.

Lemma ATL11_re_match_shape_witness :
  exists pre track subregion rest : string,
    "/tmp/ATL11_054803_0311_004_01.h5"
    = (pre ++ "ATL11_" ++ track ++ subregion ++ "_" ++ rest)%string
    /\ Re.digits 4 track = true /\ Re.digits 2 subregion = true
    /\ Re.search_group ATL11_re "/tmp/ATL11_054803_0311_004_01.h5" 2 = Ok subregion.
Proof.
  destruct (ATL11_re_match_shape "/tmp/ATL11_054803_0311_004_01.h5" _ eq_refl)
    as (pre & track & subregion & rest & Hname & Ht & Hs & _ & Hg).
  exists pre, track, subregion, rest.
  split; [exact Hname|]. split; [exact Ht|]. split; [exact Hs|].
  cbn in Hg. injection Hg as _ <-. reflexivity.
Defined.

(** X2.  Whenever ATL06_re matches somewhere in a name, the name reads
    pre ++ 'ATL06_' ++ stamp ++ '_' ++ tttt ++ cc ++ rr ++ '_' ++ rest with
    stamp a non-empty run of decimal digits, tttt four decimal digits and
    cc and rr two each (digits of any script); the groups are exactly
    tttt, cc and rr, so the cycle that keys cycle_D6 and the region the
    download loop tests are always two digits. *)
Theorem ATL06_re_match_shape (name : string) (m : Re.match_object) :
  Re.search ATL06_re name = Some m ->
  exists (pre stamp track cycle region rest : string) (n : nat),
    name = (pre ++ "ATL06_" ++ stamp ++ "_" ++ track ++ cycle ++ region ++ "_" ++ rest)%string
    /\ Re.digits (S n) stamp = true
    /\ Re.digits 4 track = true
    /\ Re.digits 2 cycle = true
    /\ Re.digits 2 region = true
    /\ Re.whole m = ("ATL06_" ++ stamp ++ "_" ++ track ++ cycle ++ region ++ "_")%string
    /\ Re.groups m = [track; cycle; region].
Proof.
  unfold Re.search. intros H.
  apply search_from_Some in H as (pre & post & Hname & H).
  apply match_at_ATL06_inv in H
    as (n & stamp & track & cycle & region & rest & -> & Hst & Ht & Hc & Hr & ->).
  exists (string_of_list_ascii pre), (string_of_list_ascii stamp),
    (string_of_list_ascii track), (string_of_list_ascii cycle),
    (string_of_list_ascii region), (string_of_list_ascii rest), n.
  split.
  { rewrite <- (string_of_list_ascii_of_string name), Hname.
    rewrite !string_of_list_ascii_app. cbn [string_of_list_ascii].
    rewrite !string_of_list_ascii_app. cbn [string_of_list_ascii].
    now rewrite string_of_list_ascii_of_string. }
  unfold Re.digits. rewrite !list_ascii_of_string_of_list_ascii.
  repeat split; assumption.
Qed.

Lemma ATL06_re_match_shape_witness :
  exists (pre stamp track cycle region rest : string) (n : nat),
    "/tmp/ATL06_20191101185115_05480503_005_01.h5"
    = (pre ++ "ATL06_" ++ stamp ++ "_" ++ track ++ cycle ++ region ++ "_" ++ rest)%string
    /\ Re.search_group ATL06_re "/tmp/ATL06_20191101185115_05480503_005_01.h5" 2
       = Ok cycle
    /\ Re.digits 2 cycle = true.
Proof.
  destruct (ATL06_re_match_shape "/tmp/ATL06_20191101185115_05480503_005_01.h5" _ eq_refl)
    as (pre & stamp & track & cycle & region & rest & n & Hname & _ & _ & Hc & _ & _ & Hg).
  exists pre, stamp, track, cycle, region, rest, n.
  split; [exact Hname|]. split; [|exact Hc].
  cbn in Hg. injection Hg as _ <- _. reflexivity.
Defined.

(** [\d] is not limited to 0-9.  A name spelled with fullwidth digits
    matches as well; its groups are those digits, which are no ASCII
    text, so the subregion read from it is not equal to '03'. *)
Remark ATL11_re_reads_fullwidth_digits :
  Re.search ATL11_re "ATL11_０５４８０３_0311_004_01.h5"
  = Some (Re.MatchObject "ATL11_０５４８０３_" ["０５４８"; "０３"])
  /\ Re.digits 2 "０３" = true
  /\ Re.all_digits "０３" = false
  /\ String.eqb "０３" "03" = false.
Proof. repeat split; reflexivity. Qed.

(** X3.  Both patterns read the same match from a path in /tmp as from
    the bare file name: the directory holds no 'A' at which a match could
    start.  The reading cell, which passes the path, therefore sees the
    cycle and region that the download cell saw in the name. *)
Theorem search_ignores_tmp_directory (name : string) :
  Re.search ATL11_re ("/tmp/" ++ name)%string = Re.search ATL11_re name
  /\ Re.search ATL06_re ("/tmp/" ++ name)%string = Re.search ATL06_re name.
Proof.
  unfold Re.search. rewrite list_ascii_of_string_app.
  unfold ATL11_re, ATL06_re. cbn [Re.lit list_ascii_of_string app].
  split; rewrite !search_from_skip by reflexivity; reflexivity.
Qed.

(** ** What the download loops select *)

Lemma wget_mv_lookup_None (wget : string -> option h5file) (granule : Granule)
    (d : Disk) (path : string) :
  wget_mv wget granule d !! path = None -> d !! path = None.
Proof.
  unfold wget_mv. destruct (wget _); [|auto].
  intros H. destruct (decide (("/tmp/" ++ producer_granule_id granule)%string = path))
    as [<-|Hne].
  - now rewrite lookup_insert_eq in H.
  - now rewrite lookup_insert_ne in H.
Qed.

Lemma wget_mv_lookup_Some (wget : string -> option h5file) (granule : Granule)
    (d : Disk) (path : string) :
  is_Some (wget_mv wget granule d !! path) ->
  is_Some (d !! path) \/ path = ("/tmp/" ++ producer_granule_id granule)%string.
Proof.
  unfold wget_mv. destruct (wget _); [|auto].
  destruct (decide (("/tmp/" ++ producer_granule_id granule)%string = path))
    as [<-|Hne]; [auto|].
  rewrite lookup_insert_ne by exact Hne. auto.
Qed.

Lemma tmp_path_inj (a b : string) :
  ("/tmp/" ++ a)%string = ("/tmp/" ++ b)%string -> a = b.
Proof. intros H. now inversion H. Qed.

(** X4.  When the ATL11 loop completes, what it has printed beyond the
    earlier output is exactly the selection: every printed name comes from
    the catalog list, has the target subregion in group 2 and had no copy
    in /tmp when the loop started; every catalog entry with the target
    subregion and no copy at the start is printed; and every file on disk
    afterwards was there before or is one of the printed names. *)
Theorem ATL11_download_selects_exactly (wget : string -> option h5file)
    (target : string) (avail : list Granule) (st st' : dl_state) :
  ATL11_download_loop wget target avail st = Done st' ->
  exists new : list string,
    stdout st' = stdout st ++ new
    /\ (forall name, name ∈ new ->
          Re.search_group ATL11_re name 2 = Ok target
          /\ disk st !! ("/tmp/" ++ name)%string = None
          /\ exists granule, granule ∈ avail /\ producer_granule_id granule = name)
    /\ (forall granule, granule ∈ avail ->
          Re.search_group ATL11_re (producer_granule_id granule) 2 = Ok target ->
          disk st !! ("/tmp/" ++ producer_granule_id granule)%string = None ->
          producer_granule_id granule ∈ new)
    /\ (forall path, is_Some (disk st' !! path) ->
          is_Some (disk st !! path)
          \/ exists name, name ∈ new /\ path = ("/tmp/" ++ name)%string).
Proof.
  unfold ATL11_download_loop. revert st.
  induction avail as [|g avail IH]; intros st; simpl.
  - intros [= <-]. exists []. rewrite app_nil_r.
    split; [reflexivity|]. split; [intros ? []%elem_of_nil|].
    split; [intros ? []%elem_of_nil | auto].
  - unfold ATL11_download_body at 1.
    destruct (isfile _ (disk st)) eqn:Hex.
    { intros H. destruct (IH st H) as (new & Hout & Hsound & Hcomp & Hdisk).
      exists new. split; [exact Hout|]. split; [|split; [|exact Hdisk]].
      - intros name Hn. destruct (Hsound name Hn) as (? & ? & g' & ? & ?).
        repeat split; auto. exists g'. split; [now right | auto].
      - intros g' [->|Hin]%elem_of_cons Hsub Hnone; [|now apply Hcomp].
        apply isfile_true in Hex as [? Hex]. congruence. }
    destruct (Re.search_group ATL11_re (producer_granule_id g) 2)
      as [sub|e] eqn:Hsub; [|discriminate].
    destruct (String.eqb sub target) eqn:Ht; simpl.
    2:{ intros H. destruct (IH st H) as (new & Hout & Hsound & Hcomp & Hdisk).
        exists new. split; [exact Hout|]. split; [|split; [|exact Hdisk]].
        - intros name Hn. destruct (Hsound name Hn) as (? & ? & g' & ? & ?).
          repeat split; auto. exists g'. split; [now right | auto].
        - intros g' [->|Hin]%elem_of_cons Hs Hnone; [|now apply Hcomp].
          rewrite Hsub in Hs. injection Hs as ->.
          now rewrite String.eqb_refl in Ht. }
    apply String.eqb_eq in Ht as ->. apply isfile_false in Hex.
    intros H. destruct (IH _ H) as (new & Hout & Hsound & Hcomp & Hdisk).
    simpl in *. exists (producer_granule_id g :: new).
    split; [now rewrite Hout, <- app_assoc|]. split; [|split].
    + intros name [->|Hn]%elem_of_cons.
      * repeat split; auto. exists g. split; [now left | reflexivity].
      * destruct (Hsound name Hn) as (? & Hnone & g' & ? & ?).
        repeat split; auto.
        -- eapply wget_mv_lookup_None; exact Hnone.
        -- exists g'. split; [now right | auto].
    + intros g' [->|Hin]%elem_of_cons Hs Hnone; [now left|].
      destruct (decide (producer_granule_id g' = producer_granule_id g)) as [->|Hne];
        [now left|]. right. apply Hcomp; auto.
      unfold wget_mv. destruct (wget _); [|exact Hnone].
      rewrite lookup_insert_ne; [exact Hnone|].
      intros Heq. apply tmp_path_inj in Heq. congruence.
    + intros path Hp. destruct (Hdisk path Hp) as [Hp'|(name & Hn & ->)].
      * apply wget_mv_lookup_Some in Hp' as [?| ->]; [now left|].
        right. exists (producer_granule_id g). split; [now left | reflexivity].
      * right. exists name. split; [now right | reflexivity].
Qed.

Lemma ATL11_download_selects_exactly_witness :
  ATL11_download_loop wget_any "03"
    [descending_granule; stray_granule; ATL11_granule]
    (DlState {[ "/tmp/README.txt" := ∅ ]} [])
  = Done (DlState (<[ "/tmp/ATL11_054803_0311_004_01.h5" := ∅ ]>
                     {[ "/tmp/README.txt" := ∅ ]})
            ["ATL11_054803_0311_004_01.h5"])
  /\ exists new : list string,
      new = ["ATL11_054803_0311_004_01.h5"]
      /\ forall name, name ∈ new -> Re.search_group ATL11_re name 2 = Ok "03".
Proof.
  assert (Hrun : ATL11_download_loop wget_any "03"
                   [descending_granule; stray_granule; ATL11_granule]
                   (DlState {[ "/tmp/README.txt" := ∅ ]} [])
                 = Done (DlState (<[ "/tmp/ATL11_054803_0311_004_01.h5" := ∅ ]>
                                    {[ "/tmp/README.txt" := ∅ ]})
                           ["ATL11_054803_0311_004_01.h5"])) by reflexivity.
  split; [exact Hrun|].
  destruct (ATL11_download_selects_exactly wget_any "03" _ _ _ Hrun)
    as (new & Hout & Hsound & _).
  exists new. cbn in Hout. split; [now rewrite Hout|].
  intros name Hn. exact (proj1 (Hsound name Hn)).
Defined.

(** X5.  When the ATL06 loop completes, every catalog name had a region
    to read (the region is read before anything else, also for files
    already in /tmp), and what was printed is exactly the selection: the
    catalog entries of region '03' with no copy in /tmp at the start.
    Every file on disk afterwards was there before or is one of the
    printed names. *)
Theorem ATL06_download_selects_exactly (wget : string -> option h5file)
    (avail : list Granule) (st st' : dl_state) :
  ATL06_download wget avail st = Done st' ->
  (forall granule, granule ∈ avail ->
     exists region, Re.search_group ATL06_re (producer_granule_id granule) 3 = Ok region)
  /\ exists new : list string,
      stdout st' = stdout st ++ new
      /\ (forall name, name ∈ new ->
            Re.search_group ATL06_re name 3 = Ok "03"
            /\ disk st !! ("/tmp/" ++ name)%string = None
            /\ exists granule, granule ∈ avail /\ producer_granule_id granule = name)
      /\ (forall granule, granule ∈ avail ->
            Re.search_group ATL06_re (producer_granule_id granule) 3 = Ok "03" ->
            disk st !! ("/tmp/" ++ producer_granule_id granule)%string = None ->
            producer_granule_id granule ∈ new)
      /\ (forall path, is_Some (disk st' !! path) ->
            is_Some (disk st !! path)
            \/ exists name, name ∈ new /\ path = ("/tmp/" ++ name)%string).
Proof.
  unfold ATL06_download. revert st.
  induction avail as [|g avail IH]; intros st; simpl.
  - intros [= <-]. split; [intros ? []%elem_of_nil|].
    exists []. rewrite app_nil_r.
    split; [reflexivity|]. split; [intros ? []%elem_of_nil|].
    split; [intros ? []%elem_of_nil | auto].
  - unfold ATL06_download_body at 1.
    destruct (Re.search_group ATL06_re (producer_granule_id g) 3)
      as [region|e] eqn:Hreg; [|discriminate].
    assert (Hall : forall st0 : dl_state,
               (forall granule, granule ∈ avail ->
                  exists r, Re.search_group ATL06_re (producer_granule_id granule) 3 = Ok r) ->
               forall granule, granule ∈ g :: avail ->
                 exists r, Re.search_group ATL06_re (producer_granule_id granule) 3 = Ok r).
    { intros _ Hav g' [->|Hin]%elem_of_cons; eauto. }
    destruct (String.eqb region "03") eqn:Ht; simpl.
    2:{ intros H. destruct (IH st H) as (Hm & new & Hout & Hsound & Hcomp & Hdisk).
        split; [now apply (Hall st Hm)|].
        exists new. split; [exact Hout|]. split; [|split; [|exact Hdisk]].
        - intros name Hn. destruct (Hsound name Hn) as (? & ? & g' & ? & ?).
          repeat split; auto. exists g'. split; [now right | auto].
        - intros g' [->|Hin]%elem_of_cons Hs Hnone; [|now apply Hcomp].
          rewrite Hreg in Hs. injection Hs as ->. discriminate Ht. }
    apply String.eqb_eq in Ht as ->.
    destruct (isfile _ (disk st)) eqn:Hex.
    { intros H. destruct (IH st H) as (Hm & new & Hout & Hsound & Hcomp & Hdisk).
      split; [now apply (Hall st Hm)|].
      exists new. split; [exact Hout|]. split; [|split; [|exact Hdisk]].
      - intros name Hn. destruct (Hsound name Hn) as (? & ? & g' & ? & ?).
        repeat split; auto. exists g'. split; [now right | auto].
      - intros g' [->|Hin]%elem_of_cons Hsub Hnone; [|now apply Hcomp].
        apply isfile_true in Hex as [? Hex]. congruence. }
    apply isfile_false in Hex.
    intros H. destruct (IH _ H) as (Hm & new & Hout & Hsound & Hcomp & Hdisk).
    split; [now apply (Hall st Hm)|].
    simpl in *. exists (producer_granule_id g :: new).
    split; [now rewrite Hout, <- app_assoc|]. split; [|split].
    + intros name [->|Hn]%elem_of_cons.
      * repeat split; auto. exists g. split; [now left | reflexivity].
      * destruct (Hsound name Hn) as (? & Hnone & g' & ? & ?).
        repeat split; auto.
        -- eapply wget_mv_lookup_None; exact Hnone.
        -- exists g'. split; [now right | auto].
    + intros g' [->|Hin]%elem_of_cons Hs Hnone; [now left|].
      destruct (decide (producer_granule_id g' = producer_granule_id g)) as [->|Hne];
        [now left|]. right. apply Hcomp; auto.
      unfold wget_mv. destruct (wget _); [|exact Hnone].
      rewrite lookup_insert_ne; [exact Hnone|].
      intros Heq. apply tmp_path_inj in Heq. congruence.
    + intros path Hp. destruct (Hdisk path Hp) as [Hp'|(name & Hn & ->)].
      * apply wget_mv_lookup_Some in Hp' as [?| ->]; [now left|].
        right. exists (producer_granule_id g). split; [now left | reflexivity].
      * right. exists name. split; [now right | reflexivity].
Qed.

Lemma ATL06_download_selects_exactly_witness :
  ATL06_download wget_any [ATL06_granule; ATL06_granule] fresh
  = Done (DlState {[ "/tmp/ATL06_20191101185115_05480503_005_01.h5" := ∅ ]}
            ["ATL06_20191101185115_05480503_005_01.h5"])
  /\ forall granule, granule ∈ [ATL06_granule; ATL06_granule] ->
       exists region,
         Re.search_group ATL06_re (producer_granule_id granule) 3 = Ok region.
Proof.
  assert (Hrun : ATL06_download wget_any [ATL06_granule; ATL06_granule] fresh
                 = Done (DlState {[ "/tmp/ATL06_20191101185115_05480503_005_01.h5" := ∅ ]}
                           ["ATL06_20191101185115_05480503_005_01.h5"]))
    by reflexivity.
  split; [exact Hrun|].
  exact (proj1 (ATL06_download_selects_exactly wget_any _ _ _ Hrun)).
Defined.

(** ** Reading ATL06: keys, failures, cycles *)

Lemma split_on_no_sep (sep : ascii) (s : string) :
  contains_char sep s = false -> split_on sep s = [s].
Proof.
  induction s as [|c s IH]; simpl; [reflexivity|].
  destruct (Ascii.eqb c sep); simpl; [discriminate|].
  intros H. now rewrite IH.
Qed.

Lemma split_on_app (sep : ascii) (a rest : string) :
  contains_char sep a = false ->
  split_on sep (a ++ String sep rest)%string = a :: split_on sep rest.
Proof.
  induction a as [|c a IH]; simpl.
  - intros _. now rewrite Ascii.eqb_refl.
  - destruct (Ascii.eqb c sep); simpl; [discriminate|].
    intros H. now rewrite IH.
Qed.

Lemma contains_char_app (c : ascii) (a b : string) :
  contains_char c (a ++ b)%string = contains_char c a || contains_char c b.
Proof.
  induction a as [|c' a IH]; simpl; [reflexivity|].
  now rewrite IH, orb_assoc.
Qed.

(** X6.  The key a field is stored under: a field name without a slash is
    its own key; a name group/member is stored under member; and of a
    deeper path only the second component is kept, not the last one. *)
Theorem field_key_is_second_component (a b c : string) :
  contains_char "/" a = false -> contains_char "/" b = false ->
  ATL06.field_key a = Ok a
  /\ ATL06.field_key (a ++ "/" ++ b)%string = Ok b
  /\ ATL06.field_key (a ++ "/" ++ b ++ "/" ++ c)%string = Ok b.
Proof.
  intros Ha Hb. unfold ATL06.field_key. rewrite Ha. split; [reflexivity|].
  rewrite !contains_char_app, Ha. cbn.
  change ("/" ++ b)%string with (String "/" b).
  change ("/" ++ b ++ "/" ++ c)%string with (String "/" (b ++ String "/" c)).
  rewrite !split_on_app by assumption.
  rewrite (split_on_no_sep _ b Hb). split; reflexivity.
Qed.

Lemma field_key_is_second_component_witness :
  ATL06.field_key "h_li" = Ok "h_li"
  /\ ATL06.field_key "ground_track/x_atc" = Ok "x_atc"
  /\ ATL06.field_key "ground_track/ref/x_atc" = Ok "ref".
Proof.
  destruct (field_key_is_second_component "h_li" "" "" eq_refl eq_refl) as (H1 & _).
  destruct (field_key_is_second_component "ground_track" "x_atc" "" eq_refl eq_refl)
    as (_ & H2 & _).
  destruct (field_key_is_second_component "ground_track" "ref" "x_atc" eq_refl eq_refl)
    as (_ & _ & H3).
  split; [exact H1|]. split; [exact H2 | exact H3].
Defined.

Section ATL06Reading.

Variable transform : array -> array -> result (Np.ndarray float * Np.ndarray float).

(** X7.  Two things stop the loading of an ATL06 file, and with it the
    loop over the files: a field whose dataset is missing (the read is
    outside the try, so this KeyError is not caught), and an integer field
    that declares a fill value (assigning NaN raises ValueError, which
    [except KeyError] does not catch).  In both cases the fields before it
    have been read, nothing of the file reaches cycle_D6, and the
    exception leaves the cell. *)
Theorem field_failure_stops_the_file (d : Disk) (file : string) (h5f : h5file)
    (before after : list string) (field : string) (D1 : gmap string array)
    (cycle_D6 : gmap string ATL06.D6) :
  d !! file = Some h5f ->
  ATL06.fields = before ++ field :: after ->
  ATL06.field_loop h5f before ∅ = Done D1 ->
  (h5_get h5f "gt2r/land_ice_segments" field = Raise KeyError ->
     ATL06.field_loop h5f ATL06.fields ∅ = Crashed KeyError D1
     /\ ATL06.read_body transform d file cycle_D6 = Crashed KeyError cycle_D6)
  /\ (forall values fill,
        h5_get h5f "gt2r/land_ice_segments" field = Ok (IntData values (Some fill)) ->
        ATL06.field_loop h5f ATL06.fields ∅ = Crashed ValueError D1
        /\ ATL06.read_body transform d file cycle_D6 = Crashed ValueError cycle_D6).
Proof.
  intros Hd Hfields Hbefore.
  assert (Hloop : forall e,
             ATL06.field_body h5f field D1 = Crashed e D1 ->
             ATL06.field_loop h5f ATL06.fields ∅ = Crashed e D1).
  { intros e Hb. rewrite Hfields. unfold ATL06.field_loop in *.
    rewrite for_each_app, Hbefore. simpl. now rewrite Hb. }
  assert (Hfile : forall e,
             ATL06.field_loop h5f ATL06.fields ∅ = Crashed e D1 ->
             ATL06.read_body transform d file cycle_D6 = Crashed e cycle_D6).
  { intros e Hl. unfold ATL06.read_body. now rewrite Hd, Hl. }
  split.
  - intros Hget. assert (Hb : ATL06.field_body h5f field D1 = Crashed KeyError D1).
    { unfold ATL06.field_body. now rewrite Hget. }
    auto.
  - intros values fill Hget.
    assert (Hb : ATL06.field_body h5f field D1 = Crashed ValueError D1).
    { unfold ATL06.field_body. now rewrite Hget. }
    auto.
Qed.

(** X8.  When the loop over the five fields completes, [this_D] has
    exactly the keys latitude, longitude, h_li, atl06_quality_summary and
    x_atc (not ground_track/x_atc), each holding what the try around the
    fill assignment left of its dataset.  In particular the latitude and
    longitude that the transform is given are always there. *)
Theorem field_loop_keys (h5f : h5file) (this_D : gmap string array) :
  ATL06.field_loop h5f ATL06.fields ∅ = Done this_D ->
  dom this_D
  = ({[ "latitude"; "longitude"; "h_li"; "atl06_quality_summary"; "x_atc" ]}
       : gset string)
  /\ forall field, field ∈ ATL06.fields ->
       exists ds key v,
         h5_get h5f "gt2r/land_ice_segments" field = Ok ds
         /\ ATL06.field_key field = Ok key
         /\ ATL06.try_fill ds = Ok v
         /\ this_D !! key = Some v.
Proof.
  unfold ATL06.field_loop, ATL06.fields. simpl. unfold ATL06.field_body.
  destruct (h5_get h5f _ "latitude") as [d1|] eqn:G1; [|discriminate].
  destruct (ATL06.try_fill d1) as [v1|] eqn:T1; [|discriminate]. cbn.
  destruct (h5_get h5f _ "longitude") as [d2|] eqn:G2; [|discriminate].
  destruct (ATL06.try_fill d2) as [v2|] eqn:T2; [|discriminate]. cbn.
  destruct (h5_get h5f _ "h_li") as [d3|] eqn:G3; [|discriminate].
  destruct (ATL06.try_fill d3) as [v3|] eqn:T3; [|discriminate]. cbn.
  destruct (h5_get h5f _ "atl06_quality_summary") as [d4|] eqn:G4; [|discriminate].
  destruct (ATL06.try_fill d4) as [v4|] eqn:T4; [|discriminate]. cbn.
  destruct (h5_get h5f _ "ground_track/x_atc") as [d5|] eqn:G5; [|discriminate].
  destruct (ATL06.try_fill d5) as [v5|] eqn:T5; [|discriminate]. cbn.
  intros [= <-]. split.
  - rewrite !dom_insert_L, dom_empty_L. set_solver.
  - intros field Hin. repeat (apply elem_of_cons in Hin as [->|Hin]);
      [..|now apply elem_of_nil in Hin];
      eexists _, _, _; (split; [eassumption|]); (split; [reflexivity|]);
      (split; [eassumption|]); reflexivity.
Qed.

End ATL06Reading.

Lemma field_failure_stops_the_file_witness :
  ATL06.read_body plate_carree
    {[ "/tmp/ATL06_20191101185115_05480503_005_01.h5" := ATL06_without_heights ]}
    "/tmp/ATL06_20191101185115_05480503_005_01.h5" ∅
  = Crashed KeyError ∅
  /\ ATL06.read_body plate_carree
       {[ "/tmp/ATL06_20191101185115_05480503_005_01.h5" := ATL06_flags_with_fill ]}
       "/tmp/ATL06_20191101185115_05480503_005_01.h5" ∅
     = Crashed ValueError ∅.
Proof.
  split.
  - exact (proj2 (proj1 (field_failure_stops_the_file plate_carree
              {[ "/tmp/ATL06_20191101185115_05480503_005_01.h5" := ATL06_without_heights ]}
              "/tmp/ATL06_20191101185115_05480503_005_01.h5"
              ATL06_without_heights ["latitude"; "longitude"]
              ["atl06_quality_summary"; "ground_track/x_atc"] "h_li" _ ∅
              eq_refl eq_refl eq_refl) eq_refl)).
  - exact (proj2 (proj2 (field_failure_stops_the_file plate_carree
              {[ "/tmp/ATL06_20191101185115_05480503_005_01.h5" := ATL06_flags_with_fill ]}
              "/tmp/ATL06_20191101185115_05480503_005_01.h5"
              ATL06_flags_with_fill ["latitude"; "longitude"; "h_li"]
              ["ground_track/x_atc"] "atl06_quality_summary" _ ∅
              eq_refl eq_refl eq_refl) _ _ eq_refl)).
Defined.

Lemma field_loop_keys_witness :
  exists this_D,
    ATL06.field_loop ATL06_file ATL06.fields ∅ = Done this_D
    /\ dom this_D
       = ({[ "latitude"; "longitude"; "h_li"; "atl06_quality_summary"; "x_atc" ]}
            : gset string).
Proof.
  eexists. split; [reflexivity|].
  exact (proj1 (field_loop_keys ATL06_file _ eq_refl)).
Defined.

Section ATL06Cycles.

Variable transform : array -> array -> result (Np.ndarray float * Np.ndarray float).

(** A file that is read contributes one entry, under its cycle, and what
    the entry holds does not depend on the dictionary it goes into. *)
Lemma read_body_Done (d : Disk) (file : string) (m m1 : gmap string ATL06.D6) :
  ATL06.read_body transform d file m = Done m1 ->
  exists cycle D6,
    Re.search_group ATL06_re file 2 = Ok cycle
    /\ ATL06.index D6 = None
    /\ forall m0, ATL06.read_body transform d file m0 = Done (<[cycle := D6]> m0).
Proof.
  unfold ATL06.read_body.
  destruct (d !! file) as [h5f|]; [|discriminate].
  destruct (ATL06.field_loop h5f ATL06.fields ∅) as [this_D|]; [|discriminate].
  destruct (this_D !! "latitude") as [la|]; [|discriminate].
  destruct (this_D !! "longitude") as [lo|]; [|discriminate].
  destruct (transform la lo) as [[x y]|]; [|discriminate].
  destruct (Re.search_group ATL06_re file 2) as [cycle|]; [|discriminate].
  intros _. exists cycle, (ATL06.MkD6 this_D x y None). auto.
Qed.

(** X9.  After the reading loop has completed, cycle_D6 has a key exactly
    for the keys it had before and for the cycle (group 2 of ATL06_re) of
    every file read: cycle_D6['04'] exists if and only if it existed
    before or some file of cycle 04 was among those read. *)
Theorem cycle_D6_keys (d : Disk) (files : list string) (m m' : gmap string ATL06.D6) :
  ATL06.read_files transform d files m = Done m' ->
  forall cycle,
    is_Some (m' !! cycle)
    <-> is_Some (m !! cycle)
        \/ exists file, file ∈ files /\ Re.search_group ATL06_re file 2 = Ok cycle.
Proof.
  unfold ATL06.read_files. revert m.
  induction files as [|f files IH]; intros m; simpl.
  - intros [= <-] cycle. split; [auto|]. intros [H|(f & []%elem_of_nil & _)]; exact H.
  - destruct (ATL06.read_body transform d f m) as [m1|] eqn:Hb; [|discriminate].
    intros H cycle. rewrite (IH _ H cycle).
    destruct (read_body_Done _ _ _ _ Hb) as (c & D6 & Hc & _ & Hm1).
    rewrite Hm1 in Hb. injection Hb as <-. split.
    + intros [Hin|(f' & Hf' & Hc')].
      * destruct (decide (c = cycle)) as [<-|Hne].
        -- right. exists f. split; [now left | exact Hc].
        -- left. now rewrite lookup_insert_ne in Hin.
      * right. exists f'. split; [now right | exact Hc'].
    + intros [Hin|(f' & [->|Hf']%elem_of_cons & Hc')].
      * left. destruct (decide (c = cycle)) as [<-|Hne].
        -- rewrite lookup_insert_eq. eauto.
        -- now rewrite lookup_insert_ne.
      * left. rewrite Hc in Hc'. injection Hc' as <-.
        rewrite lookup_insert_eq. eauto.
      * right. eauto.
Qed.

(** X10.  cycle_D6 is keyed by the cycle alone.  Of two files of the same
    cycle (another track, another region, another date) only the one read
    last is kept: reading both leaves exactly the dictionary that reading
    the second alone would have left. *)
Theorem same_cycle_keeps_the_last_file (d : Disk) (first second cycle : string)
    (m m' : gmap string ATL06.D6) :
  Re.search_group ATL06_re first 2 = Ok cycle ->
  Re.search_group ATL06_re second 2 = Ok cycle ->
  ATL06.read_files transform d [first; second] m = Done m' ->
  ATL06.read_files transform d [second] m = Done m'.
Proof.
  unfold ATL06.read_files. simpl. intros H1 H2.
  destruct (ATL06.read_body transform d first m) as [m1|] eqn:Hb1; [|discriminate].
  destruct (ATL06.read_body transform d second m1) as [m2|] eqn:Hb2; [|discriminate].
  intros [= <-].
  destruct (read_body_Done _ _ _ _ Hb1) as (c1 & D1 & Hc1 & _ & Hm1).
  destruct (read_body_Done _ _ _ _ Hb2) as (c2 & D2 & Hc2 & _ & Hm2).
  rewrite H1 in Hc1. injection Hc1 as <-. rewrite H2 in Hc2. injection Hc2 as <-.
  rewrite Hm1 in Hb1. injection Hb1 as <-.
  rewrite Hm2 in Hb2. injection Hb2 as <-.
  now rewrite Hm2, insert_insert_eq.
Qed.

End ATL06Cycles.

Lemma cycle_D6_keys_witness :
  exists m',
    ATL06.read_files plate_carree two_tracks_one_cycle
      ["/tmp/ATL06_20191101185115_05480503_005_01.h5"] ∅ = Done m'
    /\ is_Some (m' !! "05") /\ m' !! "04" = None.
Proof.
  eexists. split; [reflexivity|].
  split; [|reflexivity].
  apply (cycle_D6_keys plate_carree two_tracks_one_cycle
           ["/tmp/ATL06_20191101185115_05480503_005_01.h5"] ∅ _ eq_refl "05").
  right. eexists. split; [now left | reflexivity].
Defined.

Lemma same_cycle_keeps_the_last_file_witness :
  exists m',
    ATL06.read_files plate_carree two_tracks_one_cycle
      ["/tmp/ATL06_20191101185115_05480503_005_01.h5";
       "/tmp/ATL06_20191105184255_06090503_005_01.h5"] ∅ = Done m'
    /\ ATL06.read_files plate_carree two_tracks_one_cycle
         ["/tmp/ATL06_20191105184255_06090503_005_01.h5"] ∅ = Done m'
    /\ size m' = 1%nat.
Proof.
  eexists. split; [reflexivity|]. split; [|reflexivity].
  exact (same_cycle_keeps_the_last_file plate_carree two_tracks_one_cycle
           "/tmp/ATL06_20191101185115_05480503_005_01.h5"
           "/tmp/ATL06_20191105184255_06090503_005_01.h5" "05" ∅ _
           eq_refl eq_refl eq_refl).
Defined.

(** ** The index of every cycle *)

Lemma index_loop (R : RegionOfInterest) (l : list (string * ATL06.D6))
    (st : gmap string ATL06.D6) :
  NoDup l.*1 ->
  (forall c D, (c, D) ∈ l ->
     Np.wf (ATL06.x D) /\ Np.wf (ATL06.y D) /\ Np.shape (ATL06.x D) = Np.shape (ATL06.y D)) ->
  exists st',
    for_each (ATL06.index_body R) l st = Done st'
    /\ (forall c D, (c, D) ∈ l ->
          exists ind,
            region_index R (ATL06.x D) (ATL06.y D) = Ok ind
            /\ st' !! c
               = Some (ATL06.MkD6 (ATL06.from_file D) (ATL06.x D) (ATL06.y D) (Some ind)))
    /\ (forall c, c ∉ l.*1 -> st' !! c = st !! c).
Proof.
  revert st. induction l as [|[c D] l IH]; intros st Hnd Hwf.
  - exists st. split; [reflexivity|]. split; [intros ? ? []%elem_of_nil | auto].
  - rewrite fmap_cons in Hnd. apply NoDup_cons in Hnd as [Hc Hnd]. cbn [fst] in Hc.
    destruct (Hwf c D ltac:(now left)) as (Hx & Hy & Hs).
    pose proof (region_index_same R _ _ Hx Hy Hs) as Hind.
    cbn [for_each]. unfold ATL06.index_body at 1. cbn [fst snd]. rewrite Hind.
    assert (Hwf' : forall c' D', (c', D') ∈ l ->
               Np.wf (ATL06.x D') /\ Np.wf (ATL06.y D')
               /\ Np.shape (ATL06.x D') = Np.shape (ATL06.y D')).
    { intros c' D' Hin. apply (Hwf c'). now right. }
    match goal with
    | |- context [for_each _ l ?st1] =>
        destruct (IH st1 Hnd Hwf') as (st' & Hrun & Hin & Hout)
    end.
    exists st'. split; [exact Hrun|]. split.
    + intros c' D' [[= -> ->]|Hin']%elem_of_cons.
      * eexists. split; [exact Hind|].
        rewrite Hout by exact Hc. apply lookup_insert_eq.
      * now apply Hin.
    + intros c' Hc'. rewrite fmap_cons in Hc'.
      apply not_elem_of_cons in Hc' as [Hne Hc']. cbn [fst] in Hne.
      rewrite (Hout c' Hc'). now apply lookup_insert_ne.
Qed.

(** X11.  If in every entry of cycle_D6 the projected x and y are arrays
    of one shape, the index cell completes, keeps the keys, and leaves in
    every entry, under 'index', the region-of-interest mask of that
    entry's own x and y; the fields read from the file and the coordinates
    are unchanged.  The order in which the dictionary is walked does not
    matter. *)
Theorem index_all_indexes_every_cycle (R : RegionOfInterest)
    (cycle_D6 : gmap string ATL06.D6) :
  (forall cycle D6, cycle_D6 !! cycle = Some D6 ->
     Np.wf (ATL06.x D6) /\ Np.wf (ATL06.y D6)
     /\ Np.shape (ATL06.x D6) = Np.shape (ATL06.y D6)) ->
  exists indexed,
    ATL06.index_all R cycle_D6 = Done indexed
    /\ dom indexed = dom cycle_D6
    /\ forall cycle D6, cycle_D6 !! cycle = Some D6 ->
         exists ind,
           region_index R (ATL06.x D6) (ATL06.y D6) = Ok ind
           /\ indexed !! cycle
              = Some (ATL06.MkD6 (ATL06.from_file D6) (ATL06.x D6) (ATL06.y D6)
                        (Some ind)).
Proof.
  intros Hwf. unfold ATL06.index_all.
  destruct (index_loop R (map_to_list cycle_D6) cycle_D6) as (st' & Hrun & Hin & Hout).
  { apply NoDup_fst_map_to_list. }
  { intros c D Hc. apply elem_of_map_to_list in Hc. eauto. }
  exists st'. split; [exact Hrun|]. split.
  - apply set_eq. intros c. rewrite !elem_of_dom.
    destruct (cycle_D6 !! c) as [D|] eqn:E.
    + destruct (Hin c D) as (ind & _ & ->); [now apply elem_of_map_to_list|].
      split; eauto.
    + rewrite Hout, E; [reflexivity|].
      intros Hc. apply list_elem_of_fmap in Hc as ([c' D] & -> & Hc).
      apply elem_of_map_to_list in Hc. simpl in E. congruence.
  - intros c D Hc. apply Hin. now apply elem_of_map_to_list.
Qed.

Lemma index_all_indexes_every_cycle_witness :
  exists indexed,
    ATL06.index_all notebook_ROI
      {[ "05" := ATL06.MkD6 ∅ edge_and_inside_x edge_and_inside_y None ]}
    = Done indexed
    /\ indexed !! "05"
       = Some (ATL06.MkD6 ∅ edge_and_inside_x edge_and_inside_y
                 (Some (Np.NdArray [2%nat] [false; true]))).
Proof.
  destruct (index_all_indexes_every_cycle notebook_ROI
              {[ "05" := ATL06.MkD6 ∅ edge_and_inside_x edge_and_inside_y None ]})
    as (indexed & Hrun & _ & Hat).
  { intros cycle D6 [_ <-]%lookup_singleton_Some. repeat split. }
  exists indexed. split; [exact Hrun|].
  destruct (Hat "05" _ eq_refl) as (ind & Hind & ->).
  vm_compute in Hind. injection Hind as <-. reflexivity.
Defined.

(** ** Reading ATL11: the other ways a file can be incomplete *)

Section ATL11Edges.

Import ATL11.

Variable transform : array -> array -> result (Np.ndarray float * Np.ndarray float).

(** X12.  With [lat] still unbound (no file before it supplied one), a
    file without a latitude stops the loop with NameError: the ignored
    read leaves nothing for the transform to be called with.  No record
    is created and no later file is read. *)
Theorem first_file_without_latitude_is_NameError (d : Disk) (file : string)
    (h5f : h5file) (rest : list string) (st : read_state) :
  d !! file = Some h5f ->
  h5_get h5f "pt2" "latitude" = Raise KeyError ->
  lat st = None ->
  read_files transform d (file :: rest) st = Crashed NameError st.
Proof.
  intros Hd Hlat Hst. unfold read_files. simpl. unfold read_body.
  rewrite Hd. unfold try_read_position. now rewrite Hlat, Hst.
Qed.

(** X13.  When only the longitude is missing, the latitude just read is
    kept and paired with the longitude of an earlier file: the record's
    x and y are the transform of this file's latitude and the previous
    longitude, and the loop goes on as if nothing had happened. *)
Theorem missing_longitude_mixes_two_files (d : Disk) (file : string) (h5f : h5file)
    (members : gmap string dataset) (dlat dh dt : dataset) (lo temp : array)
    (x y : Np.ndarray float) (st : read_state) :
  d !! file = Some h5f -> h5f !! "pt2" = Some members ->
  members !! "latitude" = Some dlat -> members !! "longitude" = None ->
  members !! "h_corr" = Some dh -> members !! "delta_time" = Some dt ->
  fill_in_place dh = Ok temp ->
  lon st = Some lo ->
  transform (np_array dlat) lo = Ok (x, y) ->
  read_body transform d file st
  = Done (ReadState (Some (np_array dlat)) (Some lo)
            (<[file := Xyth x y temp (np_array dt)]> (file_xyth st))).
Proof.
  intros Hd Hg Hlat Hlon Hh Ht Hfill Hlo Htr.
  assert (Hpos : try_read_position h5f st
                 = ReadState (Some (np_array dlat)) (lon st) (file_xyth st)).
  { unfold try_read_position, h5_get. now rewrite Hg, Hlat, Hlon. }
  erewrite read_body_from_position; eauto; rewrite Hpos; simpl; auto.
Qed.

(** X14.  When the heights have no fill-value attribute, the file stops
    the loop with KeyError after its record has been stored: the record
    stays in file_xyth with the heights as read, fill values included. *)
Theorem missing_height_fill_leaves_raw_record (d : Disk) (file : string)
    (h5f : h5file) (members : gmap string dataset) (dlat dlon dh dt : dataset)
    (x y : Np.ndarray float) (st : read_state) :
  d !! file = Some h5f -> h5f !! "pt2" = Some members ->
  members !! "latitude" = Some dlat -> members !! "longitude" = Some dlon ->
  members !! "h_corr" = Some dh -> members !! "delta_time" = Some dt ->
  has_FillValue dh = false ->
  transform (np_array dlat) (np_array dlon) = Ok (x, y) ->
  exists st',
    read_body transform d file st = Crashed KeyError st'
    /\ file_xyth st' !! file = Some (Xyth x y (np_array dh) (np_array dt))
    /\ forall other, other <> file -> file_xyth st' !! other = file_xyth st !! other.
Proof.
  intros Hd Hg Hlat Hlon Hh Ht Hfill Htr. unfold read_body. rewrite Hd.
  rewrite (try_read_position_complete h5f members dlat dlon) by assumption.
  simpl. rewrite Htr. unfold h5_get. rewrite Hg, Hh, Ht.
  rewrite (fill_in_place_no_FillValue dh Hfill).
  eexists. split; [reflexivity|]. simpl. split.
  - apply lookup_insert_eq.
  - intros other Hne. now apply lookup_insert_ne.
Qed.

(** X15.  A complete file is recorded from its own data only: x and y are
    the transform of its own latitude and longitude, the heights are its
    own with exactly the fill values replaced by NaN, and whatever [lat]
    and [lon] held before plays no part.  Reading the same file again
    changes nothing. *)
Theorem complete_file_is_recorded_from_itself (d : Disk) (file : string)
    (h5f : h5file) (members : gmap string dataset) (dlat dlon dt : dataset)
    (heights : Np.ndarray float) (fill : float)
    (x y : Np.ndarray float) (st : read_state) :
  d !! file = Some h5f -> h5f !! "pt2" = Some members ->
  members !! "latitude" = Some dlat -> members !! "longitude" = Some dlon ->
  members !! "h_corr" = Some (FloatData heights (Some fill)) ->
  members !! "delta_time" = Some dt ->
  Np.wf heights ->
  transform (np_array dlat) (np_array dlon) = Ok (x, y) ->
  let record :=
    Xyth x y
      (AFloat (Np.map_elts (fun v => if PrimFloat.eqb v fill then nan else v) heights))
      (np_array dt) in
  let st' :=
    ReadState (Some (np_array dlat)) (Some (np_array dlon))
      (<[file := record]> (file_xyth st)) in
  read_body transform d file st = Done st'
  /\ read_body transform d file st' = Done st'.
Proof.
  intros Hd Hg Hlat Hlon Hh Ht Hwf Htr record st'.
  assert (Hfill : fill_in_place (FloatData heights (Some fill))
                  = Ok (AFloat (Np.map_elts
                                  (fun v => if PrimFloat.eqb v fill then nan else v)
                                  heights))).
  { simpl. now rewrite fill_to_nan_float. }
  assert (Hone : forall st0,
             read_body transform d file st0
             = Done (ReadState (Some (np_array dlat)) (Some (np_array dlon))
                       (<[file := record]> (file_xyth st0)))).
  { intros st0. erewrite read_body_from_position; eauto;
      rewrite (try_read_position_complete h5f members dlat dlon) by assumption;
      reflexivity. }
  split; [apply Hone|]. rewrite Hone. unfold st'. simpl.
  now rewrite insert_insert_eq.
Qed.

End ATL11Edges.

Lemma first_file_without_latitude_is_NameError_witness :
  ATL11.read_files plate_carree two_files'
    ["/tmp/ATL11_054903_0311_004_01.h5"; "/tmp/ATL11_054803_0311_004_01.h5"] unread
  = Crashed NameError unread.
Proof.
  exact (first_file_without_latitude_is_NameError plate_carree two_files'
           "/tmp/ATL11_054903_0311_004_01.h5" ATL11_without_latitude
           ["/tmp/ATL11_054803_0311_004_01.h5"] unread eq_refl eq_refl eq_refl).
Defined.

Lemma missing_longitude_mixes_two_files_witness :
  exists st',
    ATL11.read_body plate_carree
      {[ "/tmp/ATL11_054803_0311_004_01.h5" := ATL11_without_longitude ]}
      "/tmp/ATL11_054803_0311_004_01.h5"
      (ATL11.ReadState None (Some earlier_longitude) ∅)
    = Done st'
    /\ ATL11.x <$> (ATL11.file_xyth st' !! "/tmp/ATL11_054803_0311_004_01.h5")
       = Some (Np.NdArray [3%nat] [-50; -50.5; -51]%float)
    /\ ATL11.y <$> (ATL11.file_xyth st' !! "/tmp/ATL11_054803_0311_004_01.h5")
       = Some (Np.NdArray [2%nat] [68.5; 68.75]%float).
Proof.
  eexists. split.
  - exact (missing_longitude_mixes_two_files plate_carree
             {[ "/tmp/ATL11_054803_0311_004_01.h5" := ATL11_without_longitude ]}
             "/tmp/ATL11_054803_0311_004_01.h5" ATL11_without_longitude
             (delete "longitude" ATL11_members)
             (FloatData (Np.NdArray [2%nat] [68.5; 68.75]%float) None)
             (FloatData (Np.NdArray [2; 1]%nat [1200.5; 0x1.fffffep+127]%float)
                (Some 0x1.fffffep+127%float))
             (FloatData (Np.NdArray [2; 1]%nat [5.8e7; 5.8e7]%float) None)
             earlier_longitude
             (AFloat (Np.NdArray [2; 1]%nat [1200.5; nan]%float))
             (Np.NdArray [3%nat] [-50; -50.5; -51]%float)
             (Np.NdArray [2%nat] [68.5; 68.75]%float)
             (ATL11.ReadState None (Some earlier_longitude) ∅)
             eq_refl eq_refl eq_refl eq_refl eq_refl eq_refl eq_refl eq_refl eq_refl).
  - split; reflexivity.
Defined.

Lemma missing_height_fill_leaves_raw_record_witness :
  exists st',
    ATL11.read_body plate_carree
      {[ "/tmp/ATL11_054803_0311_004_01.h5" := ATL11_heights_without_fill ]}
      "/tmp/ATL11_054803_0311_004_01.h5" unread
    = Crashed KeyError st'
    /\ ATL11.h <$> (ATL11.file_xyth st' !! "/tmp/ATL11_054803_0311_004_01.h5")
       = Some (AFloat (Np.NdArray [2; 1]%nat [1200.5; 0x1.fffffep+127]%float)).
Proof.
  destruct (missing_height_fill_leaves_raw_record plate_carree
              {[ "/tmp/ATL11_054803_0311_004_01.h5" := ATL11_heights_without_fill ]}
              "/tmp/ATL11_054803_0311_004_01.h5" ATL11_heights_without_fill
              (<[ "h_corr" := FloatData
                    (Np.NdArray [2; 1]%nat [1200.5; 0x1.fffffep+127]%float) None ]>
                 ATL11_members)
              (FloatData (Np.NdArray [2%nat] [68.5; 68.75]%float) None)
              (FloatData (Np.NdArray [2%nat] [-48.5; -48.25]%float) None)
              (FloatData (Np.NdArray [2; 1]%nat [1200.5; 0x1.fffffep+127]%float) None)
              (FloatData (Np.NdArray [2; 1]%nat [5.8e7; 5.8e7]%float) None)
              (Np.NdArray [2%nat] [-48.5; -48.25]%float)
              (Np.NdArray [2%nat] [68.5; 68.75]%float)
              unread)
    as (st' & Hrun & Hrec & _); try reflexivity.
  exists st'. split; [exact Hrun|]. now rewrite Hrec.
Defined.

Lemma complete_file_is_recorded_from_itself_witness :
  exists st',
    ATL11.read_body plate_carree two_files "/tmp/ATL11_054803_0311_004_01.h5"
      (ATL11.ReadState None (Some earlier_longitude) ∅)
    = Done st'
    /\ ATL11.read_body plate_carree two_files "/tmp/ATL11_054803_0311_004_01.h5" st'
       = Done st'
    /\ ATL11.lon st' = Some (AFloat (Np.NdArray [2%nat] [-48.5; -48.25]%float)).
Proof.
  destruct (complete_file_is_recorded_from_itself plate_carree two_files
              "/tmp/ATL11_054803_0311_004_01.h5" ATL11_complete ATL11_members
              (FloatData (Np.NdArray [2%nat] [68.5; 68.75]%float) None)
              (FloatData (Np.NdArray [2%nat] [-48.5; -48.25]%float) None)
              (FloatData (Np.NdArray [2; 1]%nat [5.8e7; 5.8e7]%float) None)
              (Np.NdArray [2; 1]%nat [1200.5; 0x1.fffffep+127]%float)
              0x1.fffffep+127%float
              (Np.NdArray [2%nat] [-48.5; -48.25]%float)
              (Np.NdArray [2%nat] [68.5; 68.75]%float)
              (ATL11.ReadState None (Some earlier_longitude) ∅)
              eq_refl eq_refl eq_refl eq_refl eq_refl eq_refl eq_refl eq_refl)
    as [H1 H2].
  eexists. split; [exact H1|]. split; [exact H2 | reflexivity].
Defined.

(** ** Selecting with a mask *)

Lemma getitem_mask_same {A} (a : Np.ndarray A) (mask : Np.ndarray bool) :
  Np.wf a -> Np.shape mask = Np.shape a ->
  Np.getitem_mask a mask
  = Ok (Np.NdArray [length (List.filter id (Np.data mask))]
          (concat (zip_with (fun (m : bool) (e : A) => if m then [e] else [])
                     (Np.data mask) (Np.data a)))).
Proof.
  intros Ha Hs. unfold Np.getitem_mask. rewrite Hs.
  rewrite firstn_all, decide_True by reflexivity.
  rewrite drop_all. change (Np.size_of []) with 1%nat.
  rewrite <- Ha, chunks_singletons. do 3 f_equal.
  generalize (Np.data mask). induction (Np.data a) as [|e l IH]; intros ms.
  - now destruct ms.
  - destruct ms as [|m ms]; simpl; [reflexivity|]. now rewrite IH.
Qed.

Lemma broadcast_shapes_same (sh : list nat) : Np.broadcast_shapes sh sh = Some sh.
Proof. induction sh as [|d sh IH]; simpl; [reflexivity|]. now rewrite IH, Nat.eqb_refl. Qed.

Lemma and_same (a b : Np.ndarray bool) :
  Np.wf a -> Np.wf b -> Np.shape b = Np.shape a ->
  Np.and_ a b = Ok (Np.NdArray (Np.shape a) (zip_with andb (Np.data a) (Np.data b))).
Proof.
  intros Ha Hb Hs. unfold Np.and_. rewrite Hs, Nat.max_id.
  rewrite pad_shape_same, broadcast_shapes_same.
  rewrite (expand_same _ _ Ha). rewrite <- Hs, (expand_same _ _ Hb). reflexivity.
Qed.

(** The points picked out of two coordinate lists by the mask computed
    from them. *)
Lemma select_by_own_mask (inside : float -> float -> bool) (xs ys : list float) :
  length xs = length ys ->
  zip (concat (zip_with (fun (m : bool) e => if m then [e] else [])
                 (zip_with inside xs ys) xs))
      (concat (zip_with (fun (m : bool) e => if m then [e] else [])
                 (zip_with inside xs ys) ys))
  = List.filter (fun p => inside p.1 p.2) (zip xs ys).
Proof.
  revert ys. induction xs as [|xi xs IH]; intros [|yi ys] Hl; simpl in *;
    try discriminate; [reflexivity|].
  destruct (inside xi yi); simpl; rewrite IH by congruence; reflexivity.
Qed.

(** X16.  Index cell and map cell together: for coordinates of one shape,
    the points handed to the renderer for a cycle are exactly the points
    (x[i], y[i]) strictly inside the rectangle, in their original order,
    under the label 'cycle ' + cycle; no point outside or on the boundary
    is plotted and none inside is left out. *)
Theorem plotted_points_are_the_inside_points (R : RegionOfInterest)
    (cycle : string) (D6 : ATL06.D6) (cycle_D6 : gmap string ATL06.D6)
    (fig : list line) :
  Np.wf (ATL06.x D6) -> Np.wf (ATL06.y D6) ->
  Np.shape (ATL06.x D6) = Np.shape (ATL06.y D6) ->
  exists D6' xs ys,
    ATL06.index_body R (cycle, D6) cycle_D6 = Done (<[cycle := D6']> cycle_D6)
    /\ ATL06_map_body (cycle, D6') fig
       = Done (fig ++ [Line (AFloat xs) (AFloat ys) ("cycle " ++ cycle)%string])
    /\ zip (Np.data xs) (Np.data ys)
       = List.filter
           (fun p => PrimFloat.ltb (fst (XR R)) p.1 && PrimFloat.ltb p.1 (snd (XR R))
                     && PrimFloat.ltb (fst (YR R)) p.2 && PrimFloat.ltb p.2 (snd (YR R)))
           (zip (Np.data (ATL06.x D6)) (Np.data (ATL06.y D6))).
Proof.
  intros Hx Hy Hs.
  unfold ATL06.index_body. cbn [fst snd].
  rewrite (region_index_same R _ _ Hx Hy Hs).
  eexists _, _, _. split; [reflexivity|].
  unfold ATL06_map_body. cbn [fst snd ATL06.index ATL06.x ATL06.y].
  rewrite (getitem_mask_same (ATL06.x D6)) by (auto; reflexivity).
  rewrite (getitem_mask_same (ATL06.y D6)) by (auto; simpl; congruence).
  split; [reflexivity|]. cbn [Np.data].
  apply (select_by_own_mask
           (fun xi yi => PrimFloat.ltb (fst (XR R)) xi && PrimFloat.ltb xi (snd (XR R))
                         && PrimFloat.ltb (fst (YR R)) yi && PrimFloat.ltb yi (snd (YR R)))).
  unfold Np.wf in *. congruence.
Qed.

Lemma plotted_points_are_the_inside_points_witness :
  exists D6' xs ys,
    ATL06.index_body notebook_ROI
      ("05", ATL06.MkD6 ∅ edge_and_inside_x edge_and_inside_y None) ∅
    = Done {[ "05" := D6' ]}
    /\ ATL06_map_body ("05", D6') []
       = Done [Line (AFloat xs) (AFloat ys) "cycle 05"]
    /\ zip (Np.data xs) (Np.data ys) = [(1.02e6, -4e5)%float].
Proof.
  destruct (plotted_points_are_the_inside_points notebook_ROI "05"
              (ATL06.MkD6 ∅ edge_and_inside_x edge_and_inside_y None) ∅ []
              eq_refl eq_refl eq_refl) as (D6' & xs & ys & H1 & H2 & H3).
  exists D6', xs, ys. split; [exact H1|]. split; [exact H2|].
  rewrite H3. reflexivity.
Defined.

(** X17.  The mask of the good segments, index & (quality == 0), has the
    shape of the index and is true exactly where the index is true and the
    quality flag is 0, so it selects a subset of the indexed segments and
    a subset of the usable ones; when it is false everywhere the cycle
    gets no line. *)
Theorem good_is_index_and_quality_zero (cycle : string) (D6 : ATL06.D6)
    (index : Np.ndarray bool) (quality : Np.ndarray Z) (fig : list line) :
  ATL06.index D6 = Some index ->
  ATL06.from_file D6 !! "atl06_quality_summary" = Some (AInt quality) ->
  Np.wf index -> Np.wf quality -> Np.shape quality = Np.shape index ->
  exists good,
    ATL06_good D6 = Ok good
    /\ Np.shape good = Np.shape index
    /\ (forall (i : nat) (b : bool) (q : Z),
          Np.data index !! i = Some b -> Np.data quality !! i = Some q ->
          Np.data good !! i = Some (b && (q =? 0)%Z))
    /\ (Np.any good = false -> ATL06_good_body (cycle, D6) fig = Done fig).
Proof.
  intros Hi Hq Hwi Hwq Hs. unfold ATL06_good. rewrite Hi, Hq.
  unfold array_equal_zero, Np.equal.
  rewrite and_same by (auto using wf_map_elts).
  eexists. split; [reflexivity|]. split; [reflexivity|]. split.
  - intros i b q Hb Hqi. cbn. rewrite lookup_zip_with, Hb. cbn.
    now rewrite list_lookup_fmap, Hqi.
  - intros Hany. unfold ATL06_good_body, ATL06_good. cbn [fst snd].
    rewrite Hi, Hq. unfold array_equal_zero, Np.equal.
    rewrite and_same by (auto using wf_map_elts). now rewrite Hany.
Qed.

Lemma good_is_index_and_quality_zero_witness :
  exists good,
    ATL06_good (ATL06.MkD6 {[ "atl06_quality_summary" := AInt (Np.NdArray [2%nat] [0; 1]%Z) ]}
                  edge_and_inside_x edge_and_inside_y
                  (Some (Np.NdArray [2%nat] [true; true])))
    = Ok good
    /\ Np.data good !! 0%nat = Some true
    /\ Np.data good !! 1%nat = Some false.
Proof.
  destruct (good_is_index_and_quality_zero "05"
              (ATL06.MkD6 {[ "atl06_quality_summary" := AInt (Np.NdArray [2%nat] [0; 1]%Z) ]}
                 edge_and_inside_x edge_and_inside_y
                 (Some (Np.NdArray [2%nat] [true; true])))
              (Np.NdArray [2%nat] [true; true]) (Np.NdArray [2%nat] [0; 1]%Z) [])
    as (good & Hgood & _ & Hat & _); try reflexivity.
  exists good. split; [exact Hgood|]. split.
  - exact (Hat 0%nat true 0%Z eq_refl eq_refl).
  - exact (Hat 1%nat true 1%Z eq_refl eq_refl).
Defined.

(** ** The heights of an ATL11 file, cycle by cycle *)

Section Heights.

Variables (xyth : ATL11.xyth) (hh : Np.ndarray float) (ind : Np.ndarray bool).
Variables (n m : nat).
Hypothesis Hh : ATL11.h xyth = AFloat hh.
Hypothesis Hshape : Np.shape hh = [n; m].
Hypothesis Hind : Np.shape ind = [n].
Hypothesis Hx : Np.shape (ATL11.x xyth) = [n].

Lemma heights_body_in_range (cycle : nat) (fig : list line) :
  cycle - 3 < m ->
  exists lines,
    ATL11_heights_body xyth ind cycle fig = Done (fig ++ lines)
    /\ length lines <= 1
    /\ Forall (fun l => label l = cycle_label cycle) lines.
Proof.
  intros Hj. unfold ATL11_heights_body, array_getitem_mask_col.
  rewrite Hh. unfold Np.getitem_mask_col. rewrite Hind, Hshape. cbn [length take drop].
  rewrite decide_True by reflexivity. rewrite decide_True by exact Hj.
  cbn [rbind]. destruct (Np.any _).
  - unfold Np.getitem_mask. rewrite Hind, Hx. cbn [length take drop].
    rewrite decide_True by reflexivity.
    eexists [_]. split; [reflexivity|]. split; [simpl; lia|].
    repeat constructor.
  - exists []. rewrite app_nil_r. split; [reflexivity|]. split; [simpl; lia | constructor].
Qed.

Lemma heights_body_out_of_range (cycle : nat) (fig : list line) :
  m <= cycle - 3 ->
  ATL11_heights_body xyth ind cycle fig = Crashed IndexError fig.
Proof.
  intros Hj. unfold ATL11_heights_body, array_getitem_mask_col.
  rewrite Hh. unfold Np.getitem_mask_col. rewrite Hind, Hshape. cbn [length take drop].
  rewrite decide_True by reflexivity. rewrite decide_False by lia. reflexivity.
Qed.

Lemma heights_loop_in_range (cycles : list nat) (fig : list line) :
  Forall (fun cycle => cycle - 3 < m) cycles ->
  exists lines,
    for_each (ATL11_heights_body xyth ind) cycles fig = Done (fig ++ lines)
    /\ length lines <= length cycles
    /\ Forall (fun l => exists cycle, cycle ∈ cycles /\ label l = cycle_label cycle) lines.
Proof.
  intros Hall. revert fig. induction Hall as [|c cycles Hc Hall IH]; intros fig.
  - exists []. rewrite app_nil_r. split; [reflexivity|]. split; [simpl; lia | constructor].
  - simpl. destruct (heights_body_in_range c fig Hc) as (l1 & -> & Hl1 & Hlab1).
    destruct (IH (fig ++ l1)) as (l2 & -> & Hl2 & Hlab2).
    exists (l1 ++ l2). rewrite app_assoc. split; [reflexivity|].
    split; [rewrite length_app; simpl; lia|].
    apply Forall_app. split.
    + eapply Forall_impl; [exact Hlab1|]. intros l Hl. exists c. split; [now left | exact Hl].
    + eapply Forall_impl; [exact Hlab2|]. intros l (c' & Hc' & Hl).
      exists c'. split; [now right | exact Hl].
Qed.

(** X18.  The loop over the cycles 3 to 11 assumes nine columns of
    heights.  With nine or more it completes and adds at most nine lines,
    each labelled with one of those cycles; with fewer than nine (a
    granule that ends before cycle 11) it stops with IndexError at the
    first cycle that has no column, after the cycles before it have been
    handled. *)
Theorem heights_loop_needs_nine_cycles (fig : list line) :
  (9 <= m ->
   exists lines,
     ATL11_heights xyth ind fig = Done (fig ++ lines)
     /\ length lines <= 9
     /\ Forall (fun l => exists cycle,
                  3 <= cycle <= 11 /\ label l = cycle_label cycle) lines)
  /\ (m < 9 ->
      exists lines,
        ATL11_heights xyth ind fig = Crashed IndexError (fig ++ lines)
        /\ length lines <= m).
Proof.
  unfold ATL11_heights. split.
  - intros Hm. destruct (heights_loop_in_range (seq 3 9) fig) as (lines & Hrun & Hlen & Hlab).
    { apply Forall_forall. intros c Hc%elem_of_seq. lia. }
    exists lines. split; [exact Hrun|]. split; [exact Hlen|].
    eapply Forall_impl; [exact Hlab|]. intros l (c & Hc%elem_of_seq & Hl).
    exists c. split; [lia | exact Hl].
  - intros Hm.
    replace (seq 3 9) with (seq 3 m ++ (3 + m) :: seq (4 + m) (8 - m)).
    2:{ replace (seq 3 9) with (seq 3 (m + S (8 - m))) by (f_equal; lia).
        rewrite seq_app. reflexivity. }
    rewrite for_each_app.
    destruct (heights_loop_in_range (seq 3 m) fig) as (lines & -> & Hlen & _).
    { apply Forall_forall. intros c Hc%elem_of_seq. lia. }
    simpl. rewrite heights_body_out_of_range by lia.
    exists lines. split; [reflexivity|]. now rewrite length_seq in Hlen.
Qed.

End Heights.

Lemma heights_loop_needs_nine_cycles_witness :
  exists lines,
    ATL11_heights three_cycles both_points [] = Crashed IndexError lines
    /\ length lines <= 3.
Proof.
  destruct (proj2 (heights_loop_needs_nine_cycles three_cycles _ both_points 2 3
                     eq_refl eq_refl eq_refl eq_refl []) ltac:(lia))
    as (lines & Hrun & Hlen).
  exists lines. split; [exact Hrun | exact Hlen].
Defined.

Lemma is_finite_nan : PrimFloat.is_finite nan = false.
Proof. reflexivity. Qed.

Lemma chunks_map {A B} (f : A -> B) (n sz : nat) (l : list A) :
  Np.chunks n sz (map f l) = map (map f) (Np.chunks n sz l).
Proof.
  revert l. induction n as [|n IH]; intros l; simpl; [reflexivity|].
  now rewrite firstn_map, skipn_map, IH.
Qed.

(** No finite value in column [j] of the rows the mask selects, once the
    values that equal the fill value have become NaN. *)
Lemma column_without_finite (fill : float) (m j : nat) :
  j < m ->
  forall (n : nat) (mask : list bool) (l : list float),
    (forall (i : nat) (v : float),
       mask !! i = Some true -> l !! (i * m + j) = Some v ->
       PrimFloat.eqb v fill = true \/ PrimFloat.is_finite v = false) ->
    Forall (fun w => PrimFloat.is_finite w = false)
      (concat (zip_with (fun (b : bool) row => if b then take 1 (drop j row) else [])
                 mask
                 (Np.chunks n m
                    (map (fun v => if PrimFloat.eqb v fill then nan else v) l)))).
Proof.
  intros Hj. induction n as [|n IH]; intros mask l Hcol.
  - destruct mask; constructor.
  - destruct mask as [|b mask]; [constructor|]. simpl.
    apply Forall_app. split.
    + destruct b; [|constructor].
      apply Forall_lookup. intros k w Hk.
      destruct k as [|k]; [|now rewrite lookup_take_ge in Hk by lia].
      rewrite lookup_take_lt, lookup_drop, Nat.add_0_r in Hk by lia.
      rewrite lookup_take_lt in Hk by lia.
      change (map ?f l) with (f <$> l) in Hk. rewrite list_lookup_fmap in Hk.
      destruct (l !! j) as [v|] eqn:Hv; [|discriminate]. injection Hk as <-.
      destruct (Hcol 0%nat v eq_refl Hv) as [Heq|Hfin].
      * rewrite Heq. apply is_finite_nan.
      * destruct (PrimFloat.eqb v fill); [apply is_finite_nan | exact Hfin].
    + rewrite skipn_map. apply IH.
      intros i v Hi Hv. apply (Hcol (S i) v Hi).
      rewrite lookup_drop in Hv. rewrite <- Hv. f_equal. simpl. lia.
Qed.

(** X19.  Reading and plotting together: the heights are stored with the
    fill values replaced by NaN, so a cycle in which every selected point
    holds the fill value (or another non-finite value) gets no line.  The
    fill value itself is an ordinary finite number; it is the replacement
    on reading that keeps such a cycle out of the figure. *)
Theorem fill_values_draw_no_line (xyth : ATL11.xyth) (raw : Np.ndarray float)
    (fill : float) (ind : Np.ndarray bool) (n m cycle : nat) (fig : list line) :
  ATL11.h xyth
  = AFloat (Np.map_elts (fun v => if PrimFloat.eqb v fill then nan else v) raw) ->
  Np.shape raw = [n; m] -> Np.shape ind = [n] ->
  cycle - 3 < m ->
  (forall (i : nat) (v : float),
     Np.data ind !! i = Some true ->
     Np.data raw !! (i * m + (cycle - 3)) = Some v ->
     PrimFloat.eqb v fill = true \/ PrimFloat.is_finite v = false) ->
  ATL11_heights_body xyth ind cycle fig = Done fig.
Proof.
  intros Hh Hshape Hind Hj Hcol.
  unfold ATL11_heights_body, array_getitem_mask_col. rewrite Hh.
  unfold Np.getitem_mask_col. cbn [Np.shape Np.map_elts Np.data].
  rewrite Hind, Hshape. cbn [length take drop].
  rewrite decide_True by reflexivity. rewrite decide_True by exact Hj.
  cbn [rbind array_isfinite Np.isfinite Np.map_elts Np.any Np.data Np.size_of foldr].
  rewrite !Nat.mul_1_r.
  unfold Np.any, Np.isfinite, Np.map_elts. cbn [Np.data].
  match goal with
  | |- context [existsb id ?l] => replace (existsb id l) with false; [reflexivity|]
  end.
  symmetry. apply not_true_is_false. intros Hex.
  apply existsb_exists in Hex as (b & Hb & Hid). unfold id in Hid. subst b.
  apply in_map_iff in Hb as (w & Hw & Hin).
  pose proof (column_without_finite fill m (cycle - 3) Hj n (Np.data ind) (Np.data raw) Hcol)
    as Hall.
  rewrite Forall_forall in Hall. apply list_elem_of_In in Hin.
  rewrite (Hall w Hin) in Hw. discriminate.
Qed.

Lemma fill_values_draw_no_line_witness :
  PrimFloat.is_finite 0x1.fffffep+127%float = true
  /\ ATL11_heights_body three_cycles both_points 4 [] = Done []
  /\ exists l, ATL11_heights_body three_cycles both_points 3 [] = Done [l].
Proof.
  split; [reflexivity|]. split.
  - apply (fill_values_draw_no_line three_cycles three_cycles_raw
             0x1.fffffep+127%float both_points 2 3 4 []);
      try reflexivity; try lia.
    intros [|[|i]] v Hi Hv; try discriminate;
      injection Hv as <-; left; reflexivity.
  - eexists. reflexivity.
Defined.

(** ** Nearest-neighbour lookup *)

Section FloatOrder.

Local Open Scope Z_scope.

Ltac order_cases' :=
  repeat match goal with
    | H : context [Z.compare ?a ?b] |- _ => destruct (Z.compare_spec a b); subst
    | H : context [Pos.compare ?a ?b] |- _ => destruct (Pos.compare_spec a b); subst
    | |- context [Z.compare ?a ?b] => destruct (Z.compare_spec a b); subst
    | |- context [Pos.compare ?a ?b] => destruct (Pos.compare_spec a b); subst
    end;
  simpl in *; try discriminate; try reflexivity; try lia.

Ltac by_cases :=
  unfold SFltb, SFleb, SFeqb;
  repeat match goal with
    | x : spec_float |- _ => destruct x as [[|]|[|]| |[|] ? ?]
    end;
  rewrite ?SFcompare_finite_pos, ?SFcompare_finite_neg;
  try (simpl; congruence);
  intros; order_cases'.

Lemma SFleb_false_SFltb (x y : spec_float) :
  SFeqb x x = true -> SFeqb y y = true -> SFleb x y = false -> SFltb y x = true.
Proof. revert x y. intros x y. by_cases. Qed.

Lemma SFltb_SFleb_trans (x y z : spec_float) :
  SFltb x y = true -> SFleb y z = true -> SFltb x z = true.
Proof. revert x y z. intros x y z. by_cases. Qed.

Lemma SFltb_SFleb (x y : spec_float) : SFltb x y = true -> SFleb x y = true.
Proof. revert x y. intros x y. by_cases. Qed.

Lemma SFleb_refl (x : spec_float) : SFeqb x x = true -> SFleb x x = true.
Proof. revert x. intros x. by_cases. Qed.

Lemma SFleb_nan_r (x y : spec_float) : SFeqb y y = false -> SFleb x y = false.
Proof. revert x y. intros x y. by_cases. Qed.

End FloatOrder.

Lemma is_nan_false (v : float) :
  PrimFloat.is_nan v = false <-> SFeqb (Prim2SF v) (Prim2SF v) = true.
Proof.
  unfold PrimFloat.is_nan. rewrite FloatAxioms.eqb_spec.
  destruct (SFeqb _ _); simpl; split; congruence.
Qed.

Lemma is_nan_true (v : float) :
  PrimFloat.is_nan v = true <-> SFeqb (Prim2SF v) (Prim2SF v) = false.
Proof.
  unfold PrimFloat.is_nan. rewrite FloatAxioms.eqb_spec.
  destruct (SFeqb _ _); simpl; split; congruence.
Qed.

Lemma leb_false_ltb (a b : float) :
  PrimFloat.is_nan a = false -> PrimFloat.is_nan b = false ->
  PrimFloat.leb a b = false -> PrimFloat.ltb b a = true.
Proof.
  rewrite !is_nan_false, FloatAxioms.leb_spec, FloatAxioms.ltb_spec.
  apply SFleb_false_SFltb.
Qed.

Lemma ltb_leb_trans (a b c : float) :
  PrimFloat.ltb a b = true -> PrimFloat.leb b c = true -> PrimFloat.ltb a c = true.
Proof.
  rewrite !FloatAxioms.leb_spec, !FloatAxioms.ltb_spec. apply SFltb_SFleb_trans.
Qed.

Lemma ltb_leb (a b : float) : PrimFloat.ltb a b = true -> PrimFloat.leb a b = true.
Proof. rewrite FloatAxioms.leb_spec, FloatAxioms.ltb_spec. apply SFltb_SFleb. Qed.

Lemma leb_refl (a : float) : PrimFloat.is_nan a = false -> PrimFloat.leb a a = true.
Proof. rewrite is_nan_false, FloatAxioms.leb_spec. apply SFleb_refl. Qed.

Lemma leb_nan_r (a b : float) : PrimFloat.is_nan b = true -> PrimFloat.leb a b = false.
Proof. rewrite is_nan_true, FloatAxioms.leb_spec. apply SFleb_nan_r. Qed.

(** The scan keeps the least value seen and the first place it was seen
    at. *)
Lemma argmin_scan_least (l pre : list float) (mp : float) (best : nat) :
  PrimFloat.is_nan mp = false ->
  Forall (fun v => PrimFloat.is_nan v = false) l ->
  pre !! best = Some mp ->
  (forall j v, pre !! j = Some v ->
     PrimFloat.leb mp v = true /\ (j < best -> PrimFloat.ltb mp v = true)) ->
  exists vr,
    (pre ++ l) !! Np.argmin_scan mp best (length pre) l = Some vr
    /\ forall j v, (pre ++ l) !! j = Some v ->
         PrimFloat.leb vr v = true
         /\ (j < Np.argmin_scan mp best (length pre) l -> PrimFloat.ltb vr v = true).
Proof.
  revert pre mp best. induction l as [|v l IH]; intros pre mp best Hmp Hl Hbest Hinv.
  - simpl. rewrite app_nil_r. eauto.
  - apply Forall_cons in Hl as [Hv Hl]. simpl.
    replace (pre ++ v :: l) with ((pre ++ [v]) ++ l) by now rewrite <- app_assoc.
    replace (S (length pre)) with (length (pre ++ [v])) by (rewrite length_app; simpl; lia).
    destruct (PrimFloat.leb mp v) eqn:Hle; simpl.
    + apply IH; auto.
      * rewrite lookup_app_l; [exact Hbest|]. eapply lookup_lt_Some; exact Hbest.
      * intros j w Hw. apply lookup_app_Some in Hw as [Hw|[Hge Hw]]; [now apply Hinv|].
        apply list_lookup_singleton_Some in Hw as [Hj <-].
        split; [exact Hle|]. intros Hlt.
        apply lookup_lt_Some in Hbest. lia.
    + rewrite Hv. apply IH; auto.
      * rewrite lookup_app_r by lia. now rewrite Nat.sub_diag.
      * pose proof (leb_false_ltb mp v Hmp Hv Hle) as Hlt.
        intros j w Hw. apply lookup_app_Some in Hw as [Hw|[Hge Hw]].
        -- destruct (Hinv j w Hw) as [Hmw _].
           pose proof (ltb_leb_trans v mp w Hlt Hmw) as Hvw.
           split; [now apply ltb_leb | auto].
        -- apply list_lookup_singleton_Some in Hw as [Hj <-].
           split; [now apply leb_refl | lia].
Qed.

(** The scan ends at the first NaN, whatever came before. *)
Lemma argmin_scan_nan (l : list float) (mp : float) (best i : nat) :
  Exists (fun v => PrimFloat.is_nan v = true) l ->
  exists k vk,
    Np.argmin_scan mp best i l = i + k
    /\ l !! k = Some vk /\ PrimFloat.is_nan vk = true
    /\ forall j vj, j < k -> l !! j = Some vj -> PrimFloat.is_nan vj = false.
Proof.
  revert mp best i. induction l as [|v l IH]; intros mp best i Hex.
  - inversion Hex.
  - simpl. destruct (PrimFloat.is_nan v) eqn:Hv.
    + rewrite (leb_nan_r mp v Hv). simpl.
      exists 0, v. rewrite Nat.add_0_r. repeat split; auto. intros; lia.
    + assert (Hex' : Exists (fun v => PrimFloat.is_nan v = true) l).
      { apply Exists_cons in Hex as [Hex|Hex]; [congruence | exact Hex]. }
      assert (Hstep : forall mp' best',
                 exists k vk,
                   Np.argmin_scan mp' best' (S i) l = i + k
                   /\ (v :: l) !! k = Some vk /\ PrimFloat.is_nan vk = true
                   /\ forall j vj, j < k -> (v :: l) !! j = Some vj ->
                        PrimFloat.is_nan vj = false).
      { intros mp' best'. destruct (IH mp' best' (S i) Hex') as (k & vk & Hk & Hvk & Hn & Hb).
        exists (S k), vk. split; [lia|]. split; [exact Hvk|]. split; [exact Hn|].
        intros [|j] vj Hj Hvj; [now injection Hvj as <-|].
        apply (Hb j); [lia | exact Hvj]. }
      destruct (negb (PrimFloat.leb mp v)); apply Hstep.
Qed.

(** X20.  For a non-empty coordinate array in which no distance
    |x[i] - c| is NaN, the nearest-neighbour lookup returns a valid
    position k whose distance to c is less than or equal to every other
    distance and strictly less than every distance before it: the nearest
    point, and of several equally near ones the first.  On an empty array
    the lookup is a ValueError. *)
Theorem nearest_index_is_nearest (x : Np.ndarray float) (c : float) :
  Np.data x <> [] ->
  Forall (fun v => PrimFloat.is_nan (PrimFloat.abs (PrimFloat.sub v c)) = false)
    (Np.data x) ->
  (exists k xk,
      nearest_index x c = Ok k
      /\ Np.data x !! k = Some xk
      /\ forall j xj, Np.data x !! j = Some xj ->
           PrimFloat.leb (PrimFloat.abs (PrimFloat.sub xk c))
             (PrimFloat.abs (PrimFloat.sub xj c)) = true
           /\ (j < k ->
               PrimFloat.ltb (PrimFloat.abs (PrimFloat.sub xk c))
                 (PrimFloat.abs (PrimFloat.sub xj c)) = true))
  /\ forall sh, nearest_index (Np.NdArray sh []) c = Raise ValueError.
Proof.
  intros Hne Hall. split; [|reflexivity].
  unfold nearest_index, Np.argmin, Np.abs_diff, Np.map_elts. cbn [Np.data].
  rewrite map_map.
  set (dist := fun v => PrimFloat.abs (PrimFloat.sub v c)) in *.
  destruct (Np.data x) as [|v0 l] eqn:Hx; [congruence|]. clear Hne.
  cbn [map]. apply Forall_cons in Hall as [H0 Hl]. cbv beta in H0.
  change (PrimFloat.abs (PrimFloat.sub v0 c)) with (dist v0) in *.
  change (map (fun v => PrimFloat.abs (PrimFloat.sub v c)) l) with (map dist l) in *.
  rewrite H0.
  destruct (argmin_scan_least (map dist l) [dist v0] (dist v0) 0) as (vr & Hr & Hmin).
  - exact H0.
  - apply Forall_map. exact Hl.
  - reflexivity.
  - intros j v Hv. apply list_lookup_singleton_Some in Hv as [-> <-].
    split; [now apply leb_refl | lia].
  - cbn [length] in Hr, Hmin. change ([dist v0] ++ map dist l) with (map dist (v0 :: l)) in *.
    set (k := Np.argmin_scan (dist v0) 0 1 (map dist l)) in *.
    change (map dist (v0 :: l)) with (dist <$> (v0 :: l)) in *.
    rewrite list_lookup_fmap in Hr.
    destruct ((v0 :: l) !! k) as [xk|] eqn:Hk; [|discriminate]. injection Hr as <-.
    exists k, xk. split; [reflexivity|]. split; [exact Hk|].
    intros j xj Hj. apply (Hmin j). now rewrite list_lookup_fmap, Hj.
Qed.

Lemma nearest_index_is_nearest_witness :
  nearest_index track_x 1.036e6%float = Ok 1%nat
  /\ exists k xk,
      nearest_index track_x 1.036e6%float = Ok k
      /\ Np.data track_x !! k = Some xk
      /\ PrimFloat.leb (PrimFloat.abs (PrimFloat.sub xk 1.036e6))
           (PrimFloat.abs (PrimFloat.sub 1.038e6 1.036e6)) = true.
Proof.
  split; [reflexivity|].
  destruct (nearest_index_is_nearest track_x 1.036e6%float) as [(k & xk & Hk & Hxk & Hmin) _].
  - discriminate.
  - repeat constructor.
  - exists k, xk. split; [exact Hk|]. split; [exact Hxk|].
    exact (proj1 (Hmin 2%nat 1.038e6%float eq_refl)).
Defined.

(** X21.  A missing coordinate captures the lookup: if some distance
    |x[i] - c| is NaN (a NaN in x, or a NaN centre), the position returned
    is that of the first such entry, however far it lies from c and
    however near the other points are. *)
Theorem nearest_index_stops_at_NaN (x : Np.ndarray float) (c : float) :
  Exists (fun v => PrimFloat.is_nan (PrimFloat.abs (PrimFloat.sub v c)) = true)
    (Np.data x) ->
  exists k xk,
    nearest_index x c = Ok k
    /\ Np.data x !! k = Some xk
    /\ PrimFloat.is_nan (PrimFloat.abs (PrimFloat.sub xk c)) = true
    /\ forall j xj, j < k -> Np.data x !! j = Some xj ->
         PrimFloat.is_nan (PrimFloat.abs (PrimFloat.sub xj c)) = false.
Proof.
  intros Hex.
  unfold nearest_index, Np.argmin, Np.abs_diff, Np.map_elts. cbn [Np.data].
  rewrite map_map.
  set (dist := fun v => PrimFloat.abs (PrimFloat.sub v c)) in *.
  destruct (Np.data x) as [|v0 l] eqn:Hx; [inversion Hex|].
  cbn [map]. destruct (PrimFloat.is_nan (dist v0)) eqn:H0.
  - exists 0, v0. repeat split; auto. intros; lia.
  - apply Exists_cons in Hex as [Hex|Hex];
      [cbv beta in Hex; unfold dist in H0; congruence|].
    destruct (argmin_scan_nan (map dist l) (dist v0) 0 1) as (k & vk & Hk & Hvk & Hn & Hb).
    { apply Exists_exists. apply Exists_exists in Hex as (v & Hin & Hv).
      exists (dist v). split; [|exact Hv].
      change (map dist l) with (dist <$> l). now apply list_elem_of_fmap_2. }
    change (map dist l) with (dist <$> l) in *.
    rewrite list_lookup_fmap in Hvk.
    destruct (l !! k) as [xk|] eqn:Hxk; [|discriminate]. injection Hvk as <-.
    exists (S k), xk. split; [now rewrite Hk|]. split; [exact Hxk|]. split; [exact Hn|].
    intros [|j] xj Hj Hxj; [now injection Hxj as <-|].
    apply (Hb j (dist xj)); [lia|]. simpl in Hxj. now rewrite list_lookup_fmap, Hxj.
Qed.

Lemma nearest_index_stops_at_NaN_witness :
  nearest_index track_x_with_gap 1.036e6%float = Ok 3%nat
  /\ Np.data track_x_with_gap !! 4%nat = Some 1.036e6%float.
Proof.
  split; [|reflexivity].
  destruct (nearest_index_stops_at_NaN track_x_with_gap 1.036e6%float)
    as (k & xk & Hk & _).
  - right. right. right. left. reflexivity.
  - rewrite Hk. vm_compute in Hk. symmetry. exact Hk.
Defined.

(** ** The ATL03 request *)

Lemma prefix_ATL06_no_A (c : ascii) (s : string) :
  Ascii.eqb c "A" = false -> String.prefix "ATL06" (String c s) = false.
Proof.
  intros Hc. cbn [String.prefix].
  destruct (ascii_dec "A" c) as [<-|_]; [discriminate Hc | reflexivity].
Qed.

Lemma replace_from_no_A (s : string) :
  contains_char "A" s = false -> replace_from "ATL06" "ATL03" 0 s = s.
Proof.
  induction s as [|c s IH]; [reflexivity|].
  intros H. cbn [contains_char] in H. apply orb_false_elim in H as [Hc Hs].
  cbn [replace_from]. rewrite (prefix_ATL06_no_A c s Hc). now rewrite IH.
Qed.

(** X22.  The name asked of the photon service differs from the ATL06
    name in the product prefix only: for a name 'ATL06' ++ tail whose tail
    holds no capital A (date, track, cycle, region, release, version and
    '.h5' never do), the result is 'ATL03' ++ tail; and a name without any
    capital A is left as it is. *)
Theorem ATL03_name_swaps_the_prefix (tail : string) :
  contains_char "A" tail = false ->
  ATL03_name ("ATL06" ++ tail)%string = ("ATL03" ++ tail)%string
  /\ ATL03_name tail = tail.
Proof.
  intros Htail. unfold ATL03_name. split; [|now apply replace_from_no_A].
  change ("ATL06" ++ tail)%string
    with (String "A" (String "T" (String "L" (String "0" (String "6" tail))))).
  assert (Hhit : forall c s,
             String.prefix "ATL06" (String c s) = true ->
             replace_from "ATL06" "ATL03" 0 (String c s)
             = ("ATL03" ++ replace_from "ATL06" "ATL03" 4 s)%string).
  { intros c s H. cbn [replace_from]. now rewrite H. }
  rewrite Hhit by (destruct tail; reflexivity).
  change (replace_from "ATL06" "ATL03" 4
            (String "T" (String "L" (String "0" (String "6" tail)))))
    with (replace_from "ATL06" "ATL03" 0 tail).
  now rewrite replace_from_no_A.
Qed.

Lemma ATL03_name_swaps_the_prefix_witness :
  ATL03_name "ATL06_20190802231121_05480403_005_01.h5"
  = "ATL03_20190802231121_05480403_005_01.h5".
Proof.
  exact (proj1 (ATL03_name_swaps_the_prefix "_20190802231121_05480403_005_01.h5" eq_refl)).
Defined.

(** ** Coordinates of different lengths *)

Lemma iand_single (a b : Np.ndarray bool) (n : nat) (b0 : bool) :
  Np.wf a -> Np.shape a = [n] -> Np.shape b = [1%nat] -> Np.data b = [b0] ->
  Np.iand a b = Ok (Np.NdArray [n] (map (fun v => v && b0) (Np.data a))).
Proof.
  intros Ha Hsa Hsb Hdb. unfold Np.iand, Np.broadcast_to.
  rewrite Hsa, Hsb, Hdb. cbn [length Nat.sub replicate app Np.pad_shape].
  unfold Np.pad_shape. cbn [length Nat.sub replicate app Np.compatible].
  rewrite Nat.eqb_refl, orb_true_r. cbn [andb rbind Np.data Np.expand].
  match goal with
  | |- context [zip_with andb (Np.data a) ?e] =>
      assert (Hrep : e = replicate n b0)
  end.
  { destruct (decide (1 = n)) as [<-|_]; [reflexivity|].
    clear. induction n as [|n IH]; simpl; [reflexivity|]. f_equal. exact IH. }
  rewrite Hrep. do 2 f_equal.
  unfold Np.wf in Ha. rewrite Hsa in Ha. simpl in Ha. rewrite Nat.mul_1_r in Ha.
  clear -Ha. revert n Ha. induction (Np.data a) as [|v l IH]; intros [|n] Hl;
    simpl in *; try discriminate; [reflexivity|].
  f_equal. apply IH. congruence.
Qed.

(** X23.  The index cell never pairs up coordinates of different lengths
    by cutting one short: for one-dimensional x of length n and y of
    length m, every m other than n and 1 is a ValueError from the in-place
    [&=]; a single y is applied to every x. *)
Theorem region_index_length_mismatch (R : RegionOfInterest) (x y : Np.ndarray float)
    (n m : nat) :
  Np.wf x -> Np.wf y -> Np.shape x = [n] -> Np.shape y = [m] ->
  (m <> n -> m <> 1 -> region_index R x y = Raise ValueError)
  /\ (forall y0, Np.data y = [y0] -> m = 1 ->
        region_index R x y
        = Ok (Np.NdArray [n]
                (map (fun xi =>
                        PrimFloat.ltb (fst (XR R)) xi && PrimFloat.ltb xi (snd (XR R))
                        && PrimFloat.ltb (fst (YR R)) y0 && PrimFloat.ltb y0 (snd (YR R)))
                   (Np.data x)))).
Proof.
  intros Hx Hy Hsx Hsy. unfold region_index, Np.greater, Np.less.
  rewrite iand_same by (try apply wf_map_elts; auto). cbn [rbind].
  split.
  - intros Hn H1. unfold Np.iand at 1, Np.broadcast_to. cbn [Np.shape Np.map_elts].
    rewrite Hsx, Hsy. unfold Np.pad_shape. cbn [length Nat.sub replicate app Np.compatible].
    apply Nat.eqb_neq in Hn, H1. now rewrite Hn, H1.
  - intros y0 Hy0 ->.
    assert (Hlen : length (Np.data x) = n).
    { unfold Np.wf in Hx. rewrite Hsx in Hx. simpl in Hx. lia. }
    rewrite (iand_single _ (Np.map_elts _ y) n (PrimFloat.ltb (fst (YR R)) y0));
      [| unfold Np.wf; cbn [Np.shape Np.data Np.map_elts];
         rewrite length_zip_with, !length_map, Hsx; simpl; lia
       | exact Hsx | exact Hsy
       | cbn [Np.data Np.map_elts]; now rewrite Hy0].
    cbn [rbind].
    rewrite (iand_single _ (Np.map_elts _ y) n (PrimFloat.ltb y0 (snd (YR R))));
      [| unfold Np.wf; cbn [Np.shape Np.data Np.map_elts];
         rewrite length_map, length_zip_with, !length_map; simpl; lia
       | reflexivity | exact Hsy
       | cbn [Np.data Np.map_elts]; now rewrite Hy0].
    cbn [rbind Np.data Np.shape Np.map_elts]. do 2 f_equal. rewrite map_map.
    clear. induction (Np.data x) as [|xi l IH]; simpl; [reflexivity|]. now rewrite IH.
Qed.

Lemma region_index_length_mismatch_witness :
  region_index notebook_ROI track_x edge_and_inside_y = Raise ValueError
  /\ region_index notebook_ROI edge_and_inside_x (Np.NdArray [1%nat] [-4e5]%float)
     = Ok (Np.NdArray [2%nat] [false; true]).
Proof.
  split.
  - exact (proj1 (region_index_length_mismatch notebook_ROI track_x edge_and_inside_y
                    5 2 eq_refl eq_refl eq_refl eq_refl) ltac:(lia) ltac:(lia)).
  - exact (proj2 (region_index_length_mismatch notebook_ROI edge_and_inside_x
                    (Np.NdArray [1%nat] [-4e5]%float) 2 1
                    eq_refl eq_refl eq_refl eq_refl) _ eq_refl eq_refl).
Defined.

(** ** The files the reading cells open *)

Lemma ATL11_ATL06_prefix (base : string) :
  String.prefix "ATL11" base = true -> String.prefix "ATL06" base = false.
Proof.
  destruct base as [|b1 [|b2 [|b3 [|b4 rest]]]]; cbn [String.prefix];
    try discriminate;
    repeat match goal with
      | |- context [ascii_dec ?a ?b] => destruct (ascii_dec a b); subst
      end; try discriminate; try reflexivity.
Qed.

(** The text of a glob pattern with one star, read back from the tests
    [glob_match] makes. *)

Lemma append_cons (c : ascii) (a b : string) :
  (String c a ++ b)%string = String c (a ++ b)%string.
Proof. reflexivity. Qed.

Lemma append_assoc (a b c : string) :
  ((a ++ b) ++ c)%string = (a ++ b ++ c)%string.
Proof.
  induction a as [|x a IH]; [reflexivity|]. rewrite !append_cons. now rewrite IH.
Qed.

Lemma length_append (a b : string) :
  String.length (a ++ b)%string = String.length a + String.length b.
Proof.
  induction a as [|x a IH]; [reflexivity|]. rewrite append_cons. simpl. now rewrite IH.
Qed.

Lemma prefix_spec (p s : string) :
  String.prefix p s = true <-> exists t, s = (p ++ t)%string.
Proof.
  revert s. induction p as [|c p IH]; intros s.
  - split; [intros _; exists s; reflexivity|]. intros _. now destruct s.
  - destruct s as [|c' s]; cbn [String.prefix].
    + split; [discriminate|]. intros [t Ht]. rewrite append_cons in Ht. discriminate Ht.
    + destruct (ascii_dec c c') as [->|Hne].
      * rewrite IH. split; intros [t Ht]; exists t.
        -- rewrite append_cons. now rewrite Ht.
        -- rewrite append_cons in Ht. now injection Ht.
      * split; [discriminate|]. intros [t Ht]. rewrite append_cons in Ht.
        injection Ht as Hc _. congruence.
Qed.

Lemma substring_0_length (s : string) :
  String.substring 0 (String.length s) s = s.
Proof. induction s as [|c s IH]; simpl; [reflexivity|]. now rewrite IH. Qed.

Lemma substring_skip (p t : string) (k m : nat) :
  String.substring (String.length p + k) m (p ++ t)%string = String.substring k m t.
Proof.
  induction p as [|c p IH]; [reflexivity|]. rewrite append_cons. simpl. exact IH.
Qed.

Lemma substring_split (k : nat) (t : string) :
  k <= String.length t ->
  t = (String.substring 0 k t ++ String.substring k (String.length t - k) t)%string.
Proof.
  revert t. induction k as [|k IH]; intros t Hk.
  - rewrite Nat.sub_0_r, substring_0_length. now destruct t.
  - destruct t as [|c t]; [simpl in Hk; lia|]. simpl in Hk.
    cbn [String.substring String.length Nat.sub]. rewrite append_cons.
    f_equal. apply IH. lia.
Qed.

Lemma substring_0_shorter (m : nat) (s : string) :
  String.length (String.substring 0 m s) <= String.length s.
Proof.
  revert m. induction s as [|c s IH]; intros [|m]; simpl; try lia.
  specialize (IH m). lia.
Qed.

Lemma has_suffix_spec (suf base : string) :
  has_suffix suf base = true <-> exists u, base = (u ++ suf)%string.
Proof.
  unfold has_suffix. rewrite String.eqb_eq. split.
  - intros H.
    assert (Hle : String.length suf <= String.length base).
    { destruct (Nat.le_gt_cases (String.length suf) (String.length base)) as [Hle|Hgt];
        [exact Hle|].
      replace (String.length base - String.length suf) with 0 in H by lia.
      pose proof (substring_0_shorter (String.length suf) base) as Hs.
      rewrite <- H in Hs. exact Hs. }
    exists (String.substring 0 (String.length base - String.length suf) base).
    pose proof (substring_split (String.length base - String.length suf) base
                  ltac:(lia)) as E.
    replace (String.length base - (String.length base - String.length suf))
      with (String.length suf) in E by lia.
    rewrite <- H in E. exact E.
  - intros [u ->]. rewrite length_append.
    replace (String.length u + String.length suf - String.length suf)
      with (String.length u + 0) by lia.
    now rewrite substring_skip, substring_0_length.
Qed.

(** Behind a directory that the path starts with, the tests are those of
    the file name. *)
Lemma glob_match_dir (dir pre suf base : string) :
  glob_match dir pre suf (dir ++ base)%string
  = negb (contains_char "/" base) && String.prefix pre base
    && has_suffix suf base
    && (String.length pre + String.length suf <=? String.length base)%nat.
Proof.
  unfold glob_match.
  assert (Hb : String.substring (String.length dir)
                 (String.length (dir ++ base)%string - String.length dir)
                 (dir ++ base)%string = base).
  { rewrite length_append.
    replace (String.length dir + String.length base - String.length dir)
      with (String.length base) by lia.
    pose proof (substring_skip dir base 0 (String.length base)) as E.
    rewrite Nat.add_0_r in E. rewrite E. apply substring_0_length. }
  rewrite Hb.
  assert (Hd : String.prefix dir (dir ++ base)%string = true)
    by (apply prefix_spec; eauto).
  now rewrite Hd.
Qed.

(** A suffix no longer than the tail lies within the tail. *)
Lemma suffix_within_tail (pre t u suf : string) :
  (pre ++ t)%string = (u ++ suf)%string ->
  String.length suf <= String.length t ->
  exists mid, t = (mid ++ suf)%string.
Proof.
  revert u. induction pre as [|c pre IH]; intros u E Hlen.
  - exists u. exact E.
  - destruct u as [|c' u].
    + change (EmptyString ++ suf)%string with suf in E. subst suf.
      rewrite append_cons in Hlen. simpl in Hlen. rewrite length_append in Hlen. lia.
    + rewrite !append_cons in E. injection E as _ E. now apply (IH u).
Qed.

Lemma glob_match_spec (dir pre suf path : string) :
  glob_match dir pre suf path = true
  <-> exists mid,
        path = (dir ++ pre ++ mid ++ suf)%string
        /\ contains_char "/" (pre ++ mid ++ suf)%string = false.
Proof.
  split.
  - intros H.
    assert (Hd : String.prefix dir path = true).
    { unfold glob_match in H. now repeat (apply andb_prop in H as [H _]). }
    apply prefix_spec in Hd as [base ->]. rewrite glob_match_dir in H.
    apply andb_prop in H as [H Hlen]. apply andb_prop in H as [H Hsuf].
    apply andb_prop in H as [Hc Hpre].
    apply negb_true_iff in Hc. apply Nat.leb_le in Hlen.
    apply prefix_spec in Hpre as [t ->]. apply has_suffix_spec in Hsuf as [u Hu].
    rewrite length_append in Hlen.
    destruct (suffix_within_tail pre t u suf Hu ltac:(lia)) as [mid ->].
    exists mid. split; [reflexivity | exact Hc].
  - intros (mid & -> & Hc). rewrite glob_match_dir, Hc.
    repeat (apply andb_true_intro; split); try reflexivity.
    + apply prefix_spec. eauto.
    + apply has_suffix_spec. exists (pre ++ mid)%string. now rewrite append_assoc.
    + apply Nat.leb_le. rewrite !length_append. lia.
Qed.

(** X24.  What a reading cell opens.  The list of glob holds no path
    twice, and a path is in it exactly when the file exists and the path
    reads dir ++ pre ++ mid ++ suf for some text mid, with no slash behind
    the directory: every file named '/tmp/ATL11....h5' is opened by the
    ATL11 cell.  No file is opened by both cells: a path matched by
    '/tmp/ATL11*.h5' is not matched by '/tmp/ATL06*.h5'. *)
Theorem glob_lists_each_file_once (dir pre suf : string) (d : Disk) :
  NoDup (glob dir pre suf d)
  /\ (forall path,
        path ∈ glob dir pre suf d
        <-> is_Some (d !! path)
            /\ exists mid,
                 path = (dir ++ pre ++ mid ++ suf)%string
                 /\ contains_char "/" (pre ++ mid ++ suf)%string = false)
  /\ (forall path, path ∈ glob "/tmp/" "ATL11" ".h5" d ->
        path ∉ glob "/tmp/" "ATL06" ".h5" d).
Proof.
  split; [|split].
  - unfold glob. apply NoDup_filter, NoDup_fst_map_to_list.
  - intros path. now rewrite elem_of_glob, glob_match_spec.
  - intros path [_ H11]%elem_of_glob [_ H06]%elem_of_glob.
    unfold glob_match in *.
    repeat (apply andb_prop in H11 as [H11 ?]). repeat (apply andb_prop in H06 as [H06 ?]).
    match goal with
    | H : String.prefix "ATL11" _ = true |- _ => apply ATL11_ATL06_prefix in H
    end. congruence.
Qed.
